(** * cyberdeck-25-firmware: the input-state engine

  A shallow embedding of the polling code of [socket_server.py] (the
  socket-enabled firmware) and of [inputs_debug.py] (the terminal monitor),
  and the properties of the debouncing, the quadrature decoding and the
  change events that the two programs implement.

  Conventions of the embedding.
  - A GPIO level is the integer [GPIO.input] returns ([GPIO.LOW = 0],
    [GPIO.HIGH = 1]), kept as a [Z] so that the comparisons of the source
    ([== 1], [== 0], [!=]) are the ones written here.
  - [time.time()] is a Python float; timestamps are exact rationals here
    (seconds), the two debounce delays are [1/1000] and [1/5].
  - The hardware is a [World]: what each read returns during one poll
    iteration, or [None] where the read raises.
  - [socketio.emit(name, payload)] appends an [event] to the list of events
    of the call, and does not raise.  The ['timestamp'] field of a payload is a fresh wall-clock
    read made while emitting; no decision of the code depends on it and it
    is left out of [event]. *)

From Stdlib Require Import ZArith QArith Bool List Ascii String Lia Lqa.
Import ListNotations.
Open Scope Z_scope.

(** ** Hardware and events *)

Definition LOW : Z := 0.
Definition HIGH : Z := 1.

Record World := {
  (* GPIO.input(pin); None: the call raises *)
  gpio_input : Z -> option Z;
  (* GPIO.setup(pin, GPIO.IN, ...); false: the call raises *)
  gpio_setup : Z -> bool;
  (* stripped content of /sys/class/gpio/gpio<pin>/value; None: open or read raises *)
  sysfs_value : Z -> option string
}.

(** A level as [GPIO.input] delivers it. *)
Definition is_level (v : Z) : Prop := v = LOW \/ v = HIGH.

Inductive event : Type :=
| key_change (active : option bool)
| switch_change (switch : string) (active : option bool)
| encoder_change (encoder_id : Z) (value : Z) (direction : string)
| encoder_button_press (encoder_id : Z).

Definition is_encoder_button_press (ev : event) : bool :=
  match ev with encoder_button_press _ => true | _ => false end.

Definition is_encoder_change (ev : event) : bool :=
  match ev with encoder_change _ _ _ => true | _ => false end.

(** Python's [!=] on the three statuses [True], [False], [None]. *)
Definition status_ne (x y : option bool) : bool :=
  match x, y with
  | Some a, Some b => negb (Bool.eqb a b)
  | None, None => false
  | _, _ => true
  end.

(** [now - last > delay] *)
Definition elapsed_gt (now last delay : Q) : bool :=
  negb (Qle_bool (now - last) delay).

(** Python truthiness of a pin number that may be [None]:
  [None] and [0] are false. *)
Definition truthy (pin : option Z) : bool :=
  match pin with
  | Some p => negb (p =? 0)
  | None => false
  end.

(** A [dict] with integer keys, in insertion order. *)
Definition dict (V : Type) : Type := list (Z * V).

(** [d[k]]; [None]: KeyError. *)
Fixpoint dict_get {V : Type} (d : dict V) (k : Z) : option V :=
  match d with
  | [] => None
  | (k', v) :: rest => if k' =? k then Some v else dict_get rest k
  end.

Definition keys {V : Type} (d : dict V) : list Z := map fst d.

(** ** socket_server.py *)

Module SocketServer.

Module ButtonMonitor.

Record t := { button_pin : Z; last_state : option bool }.

(* __init__ *)
Definition init : t := {| button_pin := 2; last_state := None |}.

(* get_button_status: True when released, False when pressed, None on error *)
Definition get_button_status (self : t) (w : World) : option bool :=
  match gpio_input w (button_pin self) with
  | Some state => Some (state =? HIGH)
  | None => None
  end.

(* check_and_emit *)
Definition check_and_emit (self : t) (w : World) : t * list event :=
  let current_state := get_button_status self w in
  if status_ne current_state (last_state self) then
    ({| button_pin := button_pin self; last_state := current_state |},
     [key_change current_state])
  else (self, []).

End ButtonMonitor.

Module SwitchMonitor.

(* the entries of the dict get_switch_states returns *)
Record switch_state := { value : string; status : option bool }.

Record t := {
  pins : dict Z;
  colors : dict string;
  last_states : dict switch_state
}.

Definition the_pins : dict Z := [(18, 530); (20, 532); (21, 533)].
Definition the_colors : dict string :=
  [(18, "green"%string); (20, "blue"%string); (21, "red"%string)].

(* read_gpio *)
Definition read_gpio (w : World) (pin : Z) : string :=
  match sysfs_value w pin with
  | Some s => s
  | None => "Error"%string
  end.

Definition status_of (value : string) : option bool :=
  if String.eqb value "1" then Some true        (* Released *)
  else if String.eqb value "0" then Some false  (* Pressed *)
  else None.                                    (* Error *)

(* get_switch_states *)
Definition get_switch_states_of (pins : dict Z) (w : World) : dict switch_state :=
  map (fun '(gpio_num, sysfs_num) =>
         let value := read_gpio w sysfs_num in
         (gpio_num, {| value := value; status := status_of value |}))
      pins.

Definition get_switch_states (self : t) (w : World) : dict switch_state :=
  get_switch_states_of (pins self) w.

(* __init__: the initial last_states are read from the lines *)
Definition init (w : World) : t :=
  {| pins := the_pins; colors := the_colors;
     last_states := get_switch_states_of the_pins w |}.

(* the loop of check_and_emit over the keys of current_states;
   None: a lookup raised KeyError *)
Fixpoint emit_changed (self : t) (current_states todo : dict switch_state)
  : option (list event) :=
  match todo with
  | [] => Some []
  | (gpio_num, _) :: rest =>
      match dict_get current_states gpio_num, dict_get (last_states self) gpio_num with
      | Some cur, Some last =>
          if status_ne (status cur) (status last) then
            match dict_get (colors self) gpio_num with
            | Some color =>
                option_map (cons (switch_change color (status cur)))
                           (emit_changed self current_states rest)
            | None => None
            end
          else emit_changed self current_states rest
      | _, _ => None
      end
  end.

(* check_and_emit; None: the call raised *)
Definition check_and_emit (self : t) (w : World) : option (t * list event) :=
  let current_states := get_switch_states self w in
  match emit_changed self current_states current_states with
  | Some evs =>
      Some ({| pins := pins self; colors := colors self;
               last_states := current_states |}, evs)
  | None => None
  end.

End SwitchMonitor.

Module RotaryEncoder.

Record t := {
  encoder_id : Z;
  pin_a : Z;
  pin_b : Z;
  pin_button : option Z;
  counter : Z;
  last_counter : Z;
  last_a : Z;
  last_b : Z;
  last_button : Z;
  last_encoder_time : Q;
  last_button_time : Q;
  encoder_debounce_delay : Q;
  button_debounce_delay : Q
}.

(* __init__ *)
Definition init (encoder_id pin_a pin_b : Z) (pin_button : option Z) : t :=
  {| encoder_id := encoder_id; pin_a := pin_a; pin_b := pin_b;
     pin_button := pin_button;
     counter := 0; last_counter := 0;
     last_a := 0; last_b := 0; last_button := 1;
     last_encoder_time := 0%Q; last_button_time := 0%Q;
     encoder_debounce_delay := (1 # 1000)%Q;
     button_debounce_delay := (1 # 5)%Q |}.

(* assignments to the attributes update and setup_gpio write *)
Definition set_counter (v : Z) (e : t) : t :=
  {| encoder_id := encoder_id e; pin_a := pin_a e; pin_b := pin_b e;
     pin_button := pin_button e;
     counter := v; last_counter := last_counter e;
     last_a := last_a e; last_b := last_b e; last_button := last_button e;
     last_encoder_time := last_encoder_time e;
     last_button_time := last_button_time e;
     encoder_debounce_delay := encoder_debounce_delay e;
     button_debounce_delay := button_debounce_delay e |}.

Definition set_last_counter (v : Z) (e : t) : t :=
  {| encoder_id := encoder_id e; pin_a := pin_a e; pin_b := pin_b e;
     pin_button := pin_button e;
     counter := counter e; last_counter := v;
     last_a := last_a e; last_b := last_b e; last_button := last_button e;
     last_encoder_time := last_encoder_time e;
     last_button_time := last_button_time e;
     encoder_debounce_delay := encoder_debounce_delay e;
     button_debounce_delay := button_debounce_delay e |}.

Definition set_last_a (v : Z) (e : t) : t :=
  {| encoder_id := encoder_id e; pin_a := pin_a e; pin_b := pin_b e;
     pin_button := pin_button e;
     counter := counter e; last_counter := last_counter e;
     last_a := v; last_b := last_b e; last_button := last_button e;
     last_encoder_time := last_encoder_time e;
     last_button_time := last_button_time e;
     encoder_debounce_delay := encoder_debounce_delay e;
     button_debounce_delay := button_debounce_delay e |}.

Definition set_last_b (v : Z) (e : t) : t :=
  {| encoder_id := encoder_id e; pin_a := pin_a e; pin_b := pin_b e;
     pin_button := pin_button e;
     counter := counter e; last_counter := last_counter e;
     last_a := last_a e; last_b := v; last_button := last_button e;
     last_encoder_time := last_encoder_time e;
     last_button_time := last_button_time e;
     encoder_debounce_delay := encoder_debounce_delay e;
     button_debounce_delay := button_debounce_delay e |}.

Definition set_last_button (v : Z) (e : t) : t :=
  {| encoder_id := encoder_id e; pin_a := pin_a e; pin_b := pin_b e;
     pin_button := pin_button e;
     counter := counter e; last_counter := last_counter e;
     last_a := last_a e; last_b := last_b e; last_button := v;
     last_encoder_time := last_encoder_time e;
     last_button_time := last_button_time e;
     encoder_debounce_delay := encoder_debounce_delay e;
     button_debounce_delay := button_debounce_delay e |}.

Definition set_last_encoder_time (v : Q) (e : t) : t :=
  {| encoder_id := encoder_id e; pin_a := pin_a e; pin_b := pin_b e;
     pin_button := pin_button e;
     counter := counter e; last_counter := last_counter e;
     last_a := last_a e; last_b := last_b e; last_button := last_button e;
     last_encoder_time := v;
     last_button_time := last_button_time e;
     encoder_debounce_delay := encoder_debounce_delay e;
     button_debounce_delay := button_debounce_delay e |}.

Definition set_last_button_time (v : Q) (e : t) : t :=
  {| encoder_id := encoder_id e; pin_a := pin_a e; pin_b := pin_b e;
     pin_button := pin_button e;
     counter := counter e; last_counter := last_counter e;
     last_a := last_a e; last_b := last_b e; last_button := last_button e;
     last_encoder_time := last_encoder_time e;
     last_button_time := v;
     encoder_debounce_delay := encoder_debounce_delay e;
     button_debounce_delay := button_debounce_delay e |}.

(* GPIO.input(self.pin_button) if self.pin_button else 1 *)
Definition read_button (self : t) (w : World) : option Z :=
  if truthy (pin_button self) then
    match pin_button self with
    | Some p => gpio_input w p
    | None => Some 1
    end
  else Some 1.

(* setup_gpio; None: the method returned False (an exception was caught) *)
Definition setup_gpio (self : t) (w : World) : option t :=
  if negb (gpio_setup w (pin_a self)) then None
  else if negb (gpio_setup w (pin_b self)) then None
  else if match pin_button self with
          | Some p => negb (gpio_setup w p)
          | None => false
          end then None
  else
    match gpio_input w (pin_a self) with
    | None => None
    | Some a =>
        match gpio_input w (pin_b self) with
        | None => None
        | Some b =>
            match read_button self w with
            | None => None
            | Some btn =>
                Some (set_last_button btn (set_last_b b (set_last_a a self)))
            end
        end
    end.

(* update, "Check if A pin changed (quadrature logic with debouncing)" *)
Definition check_a_changed (current_a current_b : Z) (current_time : Q) (self : t) : t :=
  if negb (current_a =? last_a self) then
    let self1 :=
      if elapsed_gt current_time (last_encoder_time self) (encoder_debounce_delay self) then
        let self' :=
          if current_a =? 1 then           (* A rising edge *)
            if current_b =? 0
            then set_counter (counter self + 1) self   (* Clockwise *)
            else set_counter (counter self - 1) self   (* Counter-clockwise *)
          else                             (* A falling edge *)
            if current_b =? 1
            then set_counter (counter self + 1) self   (* Clockwise *)
            else set_counter (counter self - 1) self   (* Counter-clockwise *)
        in
        set_last_encoder_time current_time self'
      else self
    in
    (* Always update last A state to track changes *)
    set_last_a current_a self1
  else self.

(* update, "Check button state (if button exists)"; the boolean is button_pressed *)
Definition check_button (current_button : Z) (current_time : Q) (self : t) : t * bool :=
  if truthy (pin_button self) then
    let '(self1, button_pressed) :=
      if (current_button =? 0) && (last_button self =? 1) then
        if elapsed_gt current_time (last_button_time self) (button_debounce_delay self) then
          (set_counter 0 (set_last_button_time current_time self), true)
        else (self, false)
      else (self, false)
    in
    (set_last_button current_button self1, button_pressed)
  else (self, false).

(* update, "Emit if counter changed" *)
Definition emit_counter_changed (self : t) : t * list event :=
  if negb (counter self =? last_counter self) then
    let delta := counter self - last_counter self in
    let direction := if 0 <? delta then "right"%string else "left"%string in
    (set_last_counter (counter self) self,
     [encoder_change (encoder_id self) (counter self) direction])
  else (self, []).

(* update, "Emit if button was pressed" *)
Definition emit_button_pressed (button_pressed : bool) (self : t) : list event :=
  if button_pressed then [encoder_button_press (encoder_id self)] else [].

(* update: the three reads come first; when one raises, the handler prints
   and the call ends with no attribute written *)
Definition update (self : t) (w : World) (current_time : Q) : t * list event :=
  match gpio_input w (pin_a self) with
  | None => (self, [])
  | Some current_a =>
      match gpio_input w (pin_b self) with
      | None => (self, [])
      | Some current_b =>
          match read_button self w with
          | None => (self, [])
          | Some current_button =>
              let self1 := check_a_changed current_a current_b current_time self in
              let self2 := set_last_b current_b self1 in
              let '(self3, button_pressed) := check_button current_button current_time self2 in
              let '(self4, evs) := emit_counter_changed self3 in
              (self4, evs ++ emit_button_pressed button_pressed self4)
          end
      end
  end.

(* get_counter *)
Definition get_counter (self : t) : Z := counter self.

(* reset_counter *)
Definition reset_counter (self : t) : t := set_counter 0 self.

End RotaryEncoder.

Module FirmwareManager.

Record t := {
  switch_monitor : SwitchMonitor.t;
  button_monitor : ButtonMonitor.t;
  encoders : list RotaryEncoder.t
}.

(* setup_encoders: (encoder_id, pin_a, pin_b, pin_button) *)
Definition encoder_configs : list (Z * Z * Z * option Z) :=
  [ (3, 4, 17, Some 19);
    (2, 27, 22, Some 13);
    (1, 5, 6, Some 26);
    (4, 23, 24, None) ].

(* setup_encoders: an encoder is kept when its setup_gpio succeeds *)
Fixpoint setup_encoders_of (configs : list (Z * Z * Z * option Z)) (w : World)
  : list RotaryEncoder.t :=
  match configs with
  | [] => []
  | (encoder_id, pin_a, pin_b, pin_button) :: rest =>
      let encoder := RotaryEncoder.init encoder_id pin_a pin_b pin_button in
      match RotaryEncoder.setup_gpio encoder w with
      | Some encoder' => encoder' :: setup_encoders_of rest w
      | None => setup_encoders_of rest w
      end
  end.

Definition setup_encoders (w : World) : list RotaryEncoder.t :=
  setup_encoders_of encoder_configs w.

(* __init__, for a start-up in which GPIO.cleanup and GPIO.setmode succeed *)
Definition init (w : World) : t :=
  {| switch_monitor := SwitchMonitor.init w;
     button_monitor := ButtonMonitor.init;
     encoders := setup_encoders w |}.

(* monitor_loop, "Update all encoders" *)
Fixpoint update_all (encoders : list RotaryEncoder.t) (w : World) (current_time : Q)
  : list RotaryEncoder.t * list event :=
  match encoders with
  | [] => ([], [])
  | encoder :: rest =>
      let '(encoder', evs) := RotaryEncoder.update encoder w current_time in
      let '(rest', evs') := update_all rest w current_time in
      (encoder' :: rest', evs ++ evs')
  end.

(* one iteration of the while loop of monitor_loop (the sampling pass);
   None: SwitchMonitor.check_and_emit raised, which ends the loop *)
Definition sample_tick (self : t) (w : World) (current_time : Q)
  : option (t * list event) :=
  let '(button_monitor', evs_button) :=
    ButtonMonitor.check_and_emit (button_monitor self) w in
  match SwitchMonitor.check_and_emit (switch_monitor self) w with
  | None => None
  | Some (switch_monitor', evs_switch) =>
      let '(encoders', evs_enc) := update_all (encoders self) w current_time in
      Some ({| switch_monitor := switch_monitor';
               button_monitor := button_monitor';
               encoders := encoders' |},
            evs_button ++ evs_switch ++ evs_enc)
  end.

End FirmwareManager.

End SocketServer.

(** ** inputs_debug.py *)

Module InputsDebug.

Module RotaryEncoder.

Record t := {
  encoder_id : Z;
  pin_a : Z;
  pin_b : Z;
  pin_button : option Z;
  counter : Z;
  last_a : Z;
  last_b : Z;
  last_button : Z;
  last_encoder_time : Q;
  last_button_time : Q;
  encoder_debounce_delay : Q;
  button_debounce_delay : Q
}.

(* __init__ *)
Definition init (encoder_id pin_a pin_b : Z) (pin_button : option Z) : t :=
  {| encoder_id := encoder_id; pin_a := pin_a; pin_b := pin_b;
     pin_button := pin_button;
     counter := 0;
     last_a := 0; last_b := 0; last_button := 1;
     last_encoder_time := 0%Q; last_button_time := 0%Q;
     encoder_debounce_delay := (1 # 1000)%Q;
     button_debounce_delay := (1 # 5)%Q |}.

(* the attributes update writes, as one assignment *)
Definition assign (counter' last_a' last_b' last_button' : Z)
  (last_encoder_time' last_button_time' : Q) (e : t) : t :=
  {| encoder_id := encoder_id e; pin_a := pin_a e; pin_b := pin_b e;
     pin_button := pin_button e;
     counter := counter';
     last_a := last_a'; last_b := last_b'; last_button := last_button';
     last_encoder_time := last_encoder_time';
     last_button_time := last_button_time';
     encoder_debounce_delay := encoder_debounce_delay e;
     button_debounce_delay := button_debounce_delay e |}.

Definition set_counter (v : Z) (e : t) : t :=
  assign v (last_a e) (last_b e) (last_button e)
         (last_encoder_time e) (last_button_time e) e.

Definition set_last_a (v : Z) (e : t) : t :=
  assign (counter e) v (last_b e) (last_button e)
         (last_encoder_time e) (last_button_time e) e.

Definition set_last_b (v : Z) (e : t) : t :=
  assign (counter e) (last_a e) v (last_button e)
         (last_encoder_time e) (last_button_time e) e.

Definition set_last_button (v : Z) (e : t) : t :=
  assign (counter e) (last_a e) (last_b e) v
         (last_encoder_time e) (last_button_time e) e.

Definition set_last_encoder_time (v : Q) (e : t) : t :=
  assign (counter e) (last_a e) (last_b e) (last_button e)
         v (last_button_time e) e.

Definition set_last_button_time (v : Q) (e : t) : t :=
  assign (counter e) (last_a e) (last_b e) (last_button e)
         (last_encoder_time e) v e.

(* GPIO.input(self.pin_button) if self.pin_button else 1 *)
Definition read_button (self : t) (w : World) : option Z :=
  if truthy (pin_button self) then
    match pin_button self with
    | Some p => gpio_input w p
    | None => Some 1
    end
  else Some 1.

(* update, "Check if A pin changed", with "Prevent counter from going negative" *)
Definition check_a_changed (current_a current_b : Z) (current_time : Q) (self : t) : t :=
  if negb (current_a =? last_a self) then
    let self1 :=
      if elapsed_gt current_time (last_encoder_time self) (encoder_debounce_delay self) then
        let self' :=
          if current_a =? 1 then           (* A rising edge *)
            if current_b =? 0
            then set_counter (counter self + 1) self
            else set_counter (counter self - 1) self
          else                             (* A falling edge *)
            if current_b =? 1
            then set_counter (counter self + 1) self
            else set_counter (counter self - 1) self
        in
        (* Prevent counter from going negative *)
        let self'' := if counter self' <? 0 then set_counter 0 self' else self' in
        set_last_encoder_time current_time self''
      else self
    in
    set_last_a current_a self1
  else self.

(* update, "Check button state (if button exists)" *)
Definition check_button (current_button : Z) (current_time : Q) (self : t) : t :=
  if truthy (pin_button self) then
    let self1 :=
      if (current_button =? 0) && (last_button self =? 1) then
        if elapsed_gt current_time (last_button_time self) (button_debounce_delay self) then
          set_counter 0 (set_last_button_time current_time self)
        else self
      else self
    in
    set_last_button current_button self1
  else self.

(* update *)
Definition update (self : t) (w : World) (current_time : Q) : t :=
  match gpio_input w (pin_a self) with
  | None => self
  | Some current_a =>
      match gpio_input w (pin_b self) with
      | None => self
      | Some current_b =>
          match read_button self w with
          | None => self
          | Some current_button =>
              let self1 := check_a_changed current_a current_b current_time self in
              let self2 := set_last_b current_b self1 in
              check_button current_button current_time self2
          end
      end
  end.

End RotaryEncoder.

End InputsDebug.

(** ** Sequences of poll iterations *)

(** What the hardware shows at one poll iteration, and the [current_time]
    the loop captured for it. *)
Definition tick : Type := World * Q.

(** The encoder after the updates of a sequence of iterations
    (socket_server.py), with the events of each iteration. *)
Fixpoint run_updates (e : SocketServer.RotaryEncoder.t) (ticks : list tick)
  : SocketServer.RotaryEncoder.t * list (list event) :=
  match ticks with
  | [] => (e, [])
  | (w, current_time) :: rest =>
      let '(e', evs) := SocketServer.RotaryEncoder.update e w current_time in
      let '(e'', evss) := run_updates e' rest in
      (e'', evs :: evss)
  end.

(** The same for inputs_debug.py, which emits nothing. *)
Fixpoint run_updates_debug (e : InputsDebug.RotaryEncoder.t) (ticks : list tick)
  : InputsDebug.RotaryEncoder.t :=
  match ticks with
  | [] => e
  | (w, current_time) :: rest =>
      run_updates_debug (InputsDebug.RotaryEncoder.update e w current_time) rest
  end.

(** A world in which every GPIO line reads [level a], every sysfs value is
    [s], and every set-up succeeds. *)
Definition const_world (a : Z) (s : string) : World :=
  {| gpio_input := fun _ => Some a;
     gpio_setup := fun _ => true;
     sysfs_value := fun _ => Some s |}.

(** A world given by the levels of the lines of one encoder; other lines
    read high, sysfs values are "1". *)
Definition encoder_world (pa pb pbtn : Z) (a b btn : Z) : World :=
  {| gpio_input := fun p =>
       if p =? pa then Some a
       else if p =? pb then Some b
       else if p =? pbtn then Some btn
       else Some 1;
     gpio_setup := fun _ => true;
     sysfs_value := fun _ => Some "1"%string |}.

(** ** Vocabulary of the statements *)

(** The button block of [update] accepts a press: the encoder has a button,
    the line went from 1 to 0, and more than the button delay has passed
    since the last accepted press. *)
Definition press_accepted (e : SocketServer.RotaryEncoder.t) (current_button : Z)
  (current_time : Q) : bool :=
  truthy (SocketServer.RotaryEncoder.pin_button e) &&
  ((current_button =? 0) && (SocketServer.RotaryEncoder.last_button e =? 1)) &&
  elapsed_gt current_time (SocketServer.RotaryEncoder.last_button_time e)
             (SocketServer.RotaryEncoder.button_debounce_delay e).

(** The decoder block of [update] accepts an edge of phase A. *)
Definition edge_accepted (e : SocketServer.RotaryEncoder.t) (current_a : Z)
  (current_time : Q) : bool :=
  negb (current_a =? SocketServer.RotaryEncoder.last_a e) &&
  elapsed_gt current_time (SocketServer.RotaryEncoder.last_encoder_time e)
             (SocketServer.RotaryEncoder.encoder_debounce_delay e).

(** The counter the decoder block alone gives for the levels of [w]
    (the counter of [e] when a read of the update raises). *)
Definition decoded_counter (e : SocketServer.RotaryEncoder.t) (w : World)
  (current_time : Q) : Z :=
  match gpio_input w (SocketServer.RotaryEncoder.pin_a e),
        gpio_input w (SocketServer.RotaryEncoder.pin_b e),
        SocketServer.RotaryEncoder.read_button e w with
  | Some a, Some b, Some _ =>
      SocketServer.RotaryEncoder.counter
        (SocketServer.RotaryEncoder.check_a_changed a b current_time e)
  | _, _, _ => SocketServer.RotaryEncoder.counter e
  end.

(** The number of events of a list that satisfy [p]. *)
Definition count_events (p : event -> bool) (evs : list event) : nat :=
  List.length (filter p evs).

(** The event of the emit block for a counter [c] whose last emitted value is [l]. *)
Definition counter_event (id c l : Z) : list event :=
  if c =? l then []
  else [encoder_change id c (if 0 <? c - l then "right"%string else "left"%string)].

Definition press_event (id : Z) (pressed : bool) : list event :=
  if pressed then [encoder_button_press id] else [].

(** The status [get_switch_states] gives the switch on sysfs line [sysfs_num]. *)
Definition switch_status (w : World) (sysfs_num : Z) : option bool :=
  SocketServer.SwitchMonitor.status_of (SocketServer.SwitchMonitor.read_gpio w sysfs_num).

(** The event of [SwitchMonitor.check_and_emit] for one switch. *)
Definition switch_event (color : string) (cur last : option bool) : list event :=
  if status_ne cur last then [switch_change color cur] else [].

(** The switches: (GPIO number, sysfs number, color). *)
Definition switch_lines : list (Z * Z * string) :=
  [(18, 530, "green"%string); (20, 532, "blue"%string); (21, 533, "red"%string)].

(** A world in which every read raises. *)
Definition dead_world : World :=
  {| gpio_input := fun _ => None;
     gpio_setup := fun _ => true;
     sysfs_value := fun _ => None |}.

(** A world given by the level of the push button (GPIO 2) and the value of
    the green switch (sysfs 530); every other line is high. *)
Definition simple_world (button : Z) (green : string) : World :=
  {| gpio_input := fun p => if p =? 2 then Some button else Some 1;
     gpio_setup := fun _ => true;
     sysfs_value := fun n => if n =? 530 then Some green else Some "1"%string |}.

(** The manager after start-up and a first pass with every line high. *)
Definition manager_idle : option SocketServer.FirmwareManager.t :=
  Eval vm_compute in
  option_map fst
    (SocketServer.FirmwareManager.sample_tick
       (SocketServer.FirmwareManager.init (const_world 1 "1"))
       (const_world 1 "1") (1 # 2)).

(** Encoder 1 right after an accepted forward edge at t = 1 s. *)
Definition encoder1_after_edge : SocketServer.RotaryEncoder.t :=
  fst (SocketServer.RotaryEncoder.update
         (SocketServer.RotaryEncoder.init 1 5 6 (Some 26))
         (encoder_world 5 6 26 1 0 1) 1).

(** Phase A of encoder 1 flapping every 0.3 ms after that edge. *)
Definition flapping : list tick :=
  [ (encoder_world 5 6 26 0 0 1, 1 + (3 # 10000));
    (encoder_world 5 6 26 1 0 1, 1 + (6 # 10000));
    (encoder_world 5 6 26 0 0 1, 1 + (9 # 10000)) ]%Q.

(** One update accepts a button press: its reads succeed and the button
    block accepts. *)
Definition update_accepts_press (e : SocketServer.RotaryEncoder.t) (w : World)
  (current_time : Q) : bool :=
  match gpio_input w (SocketServer.RotaryEncoder.pin_a e),
        gpio_input w (SocketServer.RotaryEncoder.pin_b e),
        SocketServer.RotaryEncoder.read_button e w with
  | Some _, Some _, Some btn => press_accepted e btn current_time
  | _, _, _ => false
  end.

(** The scenario of encoder 1 at 50: the button line goes low at 1.0 s, is
    released at 1.05 s while the knob turns one step forward, and goes low
    again at 1.1 s. *)
Definition release_and_turn : list tick :=
  [ (encoder_world 5 6 26 1 0 1, 1 + (5 # 100))%Q ].

(** The lines of an encoder read as the encoder stored them. *)
Definition encoder_unchanged (w : World) (e : SocketServer.RotaryEncoder.t) : Prop :=
  gpio_input w (SocketServer.RotaryEncoder.pin_a e)
    = Some (SocketServer.RotaryEncoder.last_a e) /\
  gpio_input w (SocketServer.RotaryEncoder.pin_b e)
    = Some (SocketServer.RotaryEncoder.last_b e) /\
  exists btn,
    SocketServer.RotaryEncoder.read_button e w = Some btn /\
    (truthy (SocketServer.RotaryEncoder.pin_button e) = true ->
     btn = SocketServer.RotaryEncoder.last_button e).

(** Every raw input reads as the manager stored it. *)
Definition inputs_unchanged (m : SocketServer.FirmwareManager.t) (w : World) : Prop :=
  SocketServer.ButtonMonitor.get_button_status
    (SocketServer.FirmwareManager.button_monitor m) w
    = SocketServer.ButtonMonitor.last_state (SocketServer.FirmwareManager.button_monitor m) /\
  SocketServer.SwitchMonitor.get_switch_states
    (SocketServer.FirmwareManager.switch_monitor m) w
    = SocketServer.SwitchMonitor.last_states (SocketServer.FirmwareManager.switch_monitor m) /\
  Forall (encoder_unchanged w) (SocketServer.FirmwareManager.encoders m).

(** The counter of every encoder is the value last emitted for it; this holds
    after construction and after every update. *)
Definition counters_published (m : SocketServer.FirmwareManager.t) : Prop :=
  Forall (fun e => SocketServer.RotaryEncoder.last_counter e
                   = SocketServer.RotaryEncoder.counter e)
         (SocketServer.FirmwareManager.encoders m).

(** Encoder 1 of the configuration with its counter at 50, as published. *)
Definition encoder1_at_50 : SocketServer.RotaryEncoder.t :=
  SocketServer.RotaryEncoder.set_last_counter 50
    (SocketServer.RotaryEncoder.set_counter 50 (SocketServer.RotaryEncoder.init 1 5 6 (Some 26))).

(** Encoder 1 of socket_server.py, set up while A is low and B is high. *)
Definition encoder1_fresh : option SocketServer.RotaryEncoder.t :=
  SocketServer.RotaryEncoder.setup_gpio (SocketServer.RotaryEncoder.init 1 5 6 (Some 26))
                           (encoder_world 5 6 26 0 1 1).

(** ** The rest of socket_server.py *)

(** monitor_loop: the passes of the [while True] loop over a finite sequence
    of iterations, with the events of each pass; [None]: a pass raised, which
    ends the loop. *)
Fixpoint monitor_loop (self : SocketServer.FirmwareManager.t) (ticks : list tick)
  : option (SocketServer.FirmwareManager.t * list (list event)) :=
  match ticks with
  | [] => Some (self, [])
  | (w, current_time) :: rest =>
      match SocketServer.FirmwareManager.sample_tick self w current_time with
      | None => None
      | Some (self', evs) =>
          match monitor_loop self' rest with
          | None => None
          | Some (self'', evss) => Some (self'', evs :: evss)
          end
      end
  end.

(** [d[k] = v] on a dict with integer keys: the value of an existing key is
    replaced in place, a new key goes to the end. *)
Fixpoint dict_set {V : Type} (d : dict V) (k : Z) (v : V) : dict V :=
  match d with
  | [] => [(k, v)]
  | (k', v') :: rest =>
      if k' =? k then (k', v) :: rest else (k', v') :: dict_set rest k v
  end.

(** A [dict] with string keys, in insertion order, with its lookup and its
    assignment. *)
Definition sdict (V : Type) : Type := list (string * V).

Fixpoint sdict_get {V : Type} (d : sdict V) (k : string) : option V :=
  match d with
  | [] => None
  | (k', v) :: rest => if String.eqb k' k then Some v else sdict_get rest k
  end.

Fixpoint sdict_set {V : Type} (d : sdict V) (k : string) (v : V) : sdict V :=
  match d with
  | [] => [(k, v)]
  | (k', v') :: rest =>
      if String.eqb k' k then (k', v) :: rest else (k', v') :: sdict_set rest k v
  end.

(** The payload of ['initial_state'] (without its timestamp):
    [{'key': {'active': ..}, 'switches': {color: {'active': ..}}, 'encoders': {id: value}}]. *)
Record initial_state := {
  initial_key : option bool;
  initial_switches : sdict (option bool);
  initial_encoders : dict Z
}.

(** handle_connect, [{e.encoder_id: e.counter for e in manager.encoders}] *)
Definition encoder_values (encoders : list SocketServer.RotaryEncoder.t) : dict Z :=
  fold_left
    (fun d e => dict_set d (SocketServer.RotaryEncoder.encoder_id e)
                           (SocketServer.RotaryEncoder.counter e))
    encoders [].

(** handle_connect, [{colors[pin]: {'active': state['status']} for pin, state in
    switch_states.items()}]; [None]: [colors[pin]] raised KeyError. *)
Fixpoint switch_payload (colors : dict string)
  (items : dict SocketServer.SwitchMonitor.switch_state) (acc : sdict (option bool))
  : option (sdict (option bool)) :=
  match items with
  | [] => Some acc
  | (pin, state) :: rest =>
      match dict_get colors pin with
      | Some color =>
          switch_payload colors rest
            (sdict_set acc color (SocketServer.SwitchMonitor.status state))
      | None => None
      end
  end.

(** handle_connect: the payloads emitted to the new client ([[]] while the
    global [manager] is still [None]); [None]: the handler raised. *)
Definition handle_connect (manager : option SocketServer.FirmwareManager.t) (w : World)
  : option (list initial_state) :=
  match manager with
  | None => Some []
  | Some m =>
      let button_state :=
        SocketServer.ButtonMonitor.get_button_status
          (SocketServer.FirmwareManager.button_monitor m) w in
      let switch_states :=
        SocketServer.SwitchMonitor.get_switch_states
          (SocketServer.FirmwareManager.switch_monitor m) w in
      let encoder_values := encoder_values (SocketServer.FirmwareManager.encoders m) in
      match switch_payload
              (SocketServer.SwitchMonitor.colors (SocketServer.FirmwareManager.switch_monitor m))
              switch_states [] with
      | Some switches =>
          Some [{| initial_key := button_state;
                   initial_switches := switches;
                   initial_encoders := encoder_values |}]
      | None => None
      end
  end.

(** The configuration of an encoder: (encoder_id, pin_a, pin_b, pin_button). *)
Definition encoder_config (e : SocketServer.RotaryEncoder.t) : Z * Z * Z * option Z :=
  (SocketServer.RotaryEncoder.encoder_id e, SocketServer.RotaryEncoder.pin_a e,
   SocketServer.RotaryEncoder.pin_b e, SocketServer.RotaryEncoder.pin_button e).

(** The value a subscriber holds for an encoder after a list of events, when
    it held [v] before: the value of the last [encoder_change]. *)
Definition tracked_value (v : Z) (evs : list event) : Z :=
  fold_left
    (fun v ev => match ev with encoder_change _ value _ => value | _ => v end)
    evs v.

Definition is_key_change (ev : event) : bool :=
  match ev with key_change _ => true | _ => false end.

Definition is_switch_change (ev : event) : bool :=
  match ev with switch_change _ _ => true | _ => false end.

Definition is_encoder_event (ev : event) : bool :=
  is_encoder_change ev || is_encoder_button_press ev.

(** The stored states of the switch monitor were read from the lines: the
    case after [__init__] and after every pass. *)
Definition switch_states_read (m : SocketServer.FirmwareManager.t) : Prop :=
  exists w, SocketServer.FirmwareManager.switch_monitor m = SocketServer.SwitchMonitor.init w.

(** A world in which the lines of encoder 2 (GPIO 27, 22, 13) cannot be read
    and every other line is high. *)
Definition encoder2_dead_world : World :=
  {| gpio_input := fun p =>
       if (p =? 27) || (p =? 22) || (p =? 13) then None else Some 1;
     gpio_setup := fun _ => true;
     sysfs_value := fun _ => Some "1"%string |}.

(** The lines of a configured encoder can be set up and read in [w]: the two
    phases, and the button line where the configuration names one (it is set
    up when it is not [None] and read when it is truthy). *)
Definition setup_succeeds (w : World) (config : Z * Z * Z * option Z) : bool :=
  let '(_, pin_a, pin_b, pin_button) := config in
  gpio_setup w pin_a && gpio_setup w pin_b &&
  match pin_button with Some p => gpio_setup w p | None => true end &&
  match gpio_input w pin_a with Some _ => true | None => false end &&
  match gpio_input w pin_b with Some _ => true | None => false end &&
  match pin_button with
  | Some p =>
      if p =? 0 then true
      else match gpio_input w p with Some _ => true | None => false end
  | None => true
  end.

(** ** The rest of inputs_debug.py: the monitors, the manager, the main loop *)

Module DebugApp.

Module ButtonMonitor.

Record t := { button_pin : Z }.

(* __init__ *)
Definition init : t := {| button_pin := 2 |}.

(* get_button_status *)
Definition get_button_status (self : t) (w : World) : string :=
  match gpio_input w (button_pin self) with
  | Some state => if state =? LOW then "PRESSED"%string else "RELEASED"%string
  | None => "ERROR"%string
  end.

End ButtonMonitor.

Module SwitchMonitor.

Record switch_state := { value : string; status : string }.

Record t := { pins : dict Z }.

(* __init__ *)
Definition init : t := {| pins := [(18, 530); (20, 532); (21, 533)] |}.

(* read_gpio *)
Definition read_gpio (w : World) (pin : Z) : string :=
  match sysfs_value w pin with
  | Some s => s
  | None => "Error"%string
  end.

(* get_switch_states *)
Definition get_switch_states (self : t) (w : World) : dict switch_state :=
  map (fun '(gpio_num, sysfs_num) =>
         let value := read_gpio w sysfs_num in
         let status :=
           if String.eqb value "0" then "PRESSED"%string
           else if String.eqb value "1" then "RELEASED"%string
           else "ERROR"%string in
         (gpio_num, {| value := value; status := status |}))
      (pins self).

End SwitchMonitor.

Module RotaryEncoder.

(* setup_gpio; None: the method returned False *)
Definition setup_gpio (self : InputsDebug.RotaryEncoder.t) (w : World)
  : option InputsDebug.RotaryEncoder.t :=
  if negb (gpio_setup w (InputsDebug.RotaryEncoder.pin_a self)) then None
  else if negb (gpio_setup w (InputsDebug.RotaryEncoder.pin_b self)) then None
  else if match InputsDebug.RotaryEncoder.pin_button self with
          | Some p => negb (gpio_setup w p)
          | None => false
          end then None
  else
    match gpio_input w (InputsDebug.RotaryEncoder.pin_a self) with
    | None => None
    | Some a =>
        match gpio_input w (InputsDebug.RotaryEncoder.pin_b self) with
        | None => None
        | Some b =>
            match InputsDebug.RotaryEncoder.read_button self w with
            | None => None
            | Some btn =>
                Some (InputsDebug.RotaryEncoder.set_last_button btn
                        (InputsDebug.RotaryEncoder.set_last_b b
                           (InputsDebug.RotaryEncoder.set_last_a a self)))
            end
        end
    end.

End RotaryEncoder.

Module FirmwareManager.

(* the tuple get_current_state returns *)
Definition display_state : Type :=
  string * list (Z * SwitchMonitor.switch_state) * list Z.

Record t := {
  switch_monitor : SwitchMonitor.t;
  button_monitor : ButtonMonitor.t;
  encoders : list InputsDebug.RotaryEncoder.t;
  last_display_state : option display_state
}.

(* setup_encoders *)
Definition encoder_configs : list (Z * Z * Z * option Z) :=
  [ (1, 4, 17, Some 19);
    (2, 27, 22, Some 13);
    (3, 5, 6, Some 26);
    (4, 23, 24, None) ].

Fixpoint setup_encoders_of (configs : list (Z * Z * Z * option Z)) (w : World)
  : list InputsDebug.RotaryEncoder.t :=
  match configs with
  | [] => []
  | (encoder_id, pin_a, pin_b, pin_button) :: rest =>
      let encoder := InputsDebug.RotaryEncoder.init encoder_id pin_a pin_b pin_button in
      match RotaryEncoder.setup_gpio encoder w with
      | Some encoder' => encoder' :: setup_encoders_of rest w
      | None => setup_encoders_of rest w
      end
  end.

(* __init__, for a start-up in which GPIO.cleanup and GPIO.setmode succeed *)
Definition init (w : World) : t :=
  {| switch_monitor := SwitchMonitor.init;
     button_monitor := ButtonMonitor.init;
     encoders := setup_encoders_of encoder_configs w;
     last_display_state := None |}.

(* sorted(switch_states.items()): the keys of a dict are distinct, so the
   order of the items is the order of their keys *)
Fixpoint insert_item {V : Type} (x : Z * V) (l : list (Z * V)) : list (Z * V) :=
  match l with
  | [] => [x]
  | y :: rest => if fst x <=? fst y then x :: l else y :: insert_item x rest
  end.

Definition sorted_items {V : Type} (items : list (Z * V)) : list (Z * V) :=
  fold_right insert_item [] items.

(* get_current_state *)
Definition get_current_state (self : t) (w : World) : display_state :=
  let button_status := ButtonMonitor.get_button_status (button_monitor self) w in
  let switch_states := SwitchMonitor.get_switch_states (switch_monitor self) w in
  let encoder_values := map InputsDebug.RotaryEncoder.counter (encoders self) in
  (button_status, sorted_items switch_states, encoder_values).

(* == on the tuples of get_current_state *)
Definition switch_state_eqb (x y : SwitchMonitor.switch_state) : bool :=
  String.eqb (SwitchMonitor.value x) (SwitchMonitor.value y) &&
  String.eqb (SwitchMonitor.status x) (SwitchMonitor.status y).

Fixpoint list_eqb {A : Type} (eqb : A -> A -> bool) (l1 l2 : list A) : bool :=
  match l1, l2 with
  | [], [] => true
  | x :: r1, y :: r2 => eqb x y && list_eqb eqb r1 r2
  | _, _ => false
  end.

Definition display_state_eqb (x y : display_state) : bool :=
  let '(button_x, switches_x, encoders_x) := x in
  let '(button_y, switches_y, encoders_y) := y in
  String.eqb button_x button_y &&
  list_eqb (fun i j => (fst i =? fst j) && switch_state_eqb (snd i) (snd j))
           switches_x switches_y &&
  list_eqb Z.eqb encoders_x encoders_y.

(* display_status; the boolean tells whether the screen was redrawn *)
Definition display_status (self : t) (w : World) : t * bool :=
  let current_state := get_current_state self w in
  match last_display_state self with
  | Some last =>
      if display_state_eqb current_state last then (self, false)
      else ({| switch_monitor := switch_monitor self;
               button_monitor := button_monitor self;
               encoders := encoders self;
               last_display_state := Some current_state |}, true)
  | None =>
      ({| switch_monitor := switch_monitor self;
          button_monitor := button_monitor self;
          encoders := encoders self;
          last_display_state := Some current_state |}, true)
  end.

(* main, one iteration of the loop: update every encoder, then display_status *)
Definition main_iteration (self : t) (w : World) (current_time : Q) : t * bool :=
  display_status
    {| switch_monitor := switch_monitor self;
       button_monitor := button_monitor self;
       encoders := map (fun encoder => InputsDebug.RotaryEncoder.update encoder w current_time)
                       (encoders self);
       last_display_state := last_display_state self |}
    w.

(* main: the loop over a finite sequence of iterations, with the redraws *)
Fixpoint main_loop (self : t) (ticks : list tick) : t * list bool :=
  match ticks with
  | [] => (self, [])
  | (w, current_time) :: rest =>
      let '(self', redrawn) := main_iteration self w current_time in
      let '(self'', redraws) := main_loop self' rest in
      (self'', redrawn :: redraws)
  end.

End FirmwareManager.

End DebugApp.

(** The encoder of inputs_debug.py with the attributes of an encoder of
    socket_server.py ([last_counter] has no counterpart). *)
Definition as_debug_encoder (e : SocketServer.RotaryEncoder.t) : InputsDebug.RotaryEncoder.t :=
  {| InputsDebug.RotaryEncoder.encoder_id := SocketServer.RotaryEncoder.encoder_id e;
     InputsDebug.RotaryEncoder.pin_a := SocketServer.RotaryEncoder.pin_a e;
     InputsDebug.RotaryEncoder.pin_b := SocketServer.RotaryEncoder.pin_b e;
     InputsDebug.RotaryEncoder.pin_button := SocketServer.RotaryEncoder.pin_button e;
     InputsDebug.RotaryEncoder.counter := SocketServer.RotaryEncoder.counter e;
     InputsDebug.RotaryEncoder.last_a := SocketServer.RotaryEncoder.last_a e;
     InputsDebug.RotaryEncoder.last_b := SocketServer.RotaryEncoder.last_b e;
     InputsDebug.RotaryEncoder.last_button := SocketServer.RotaryEncoder.last_button e;
     InputsDebug.RotaryEncoder.last_encoder_time :=
       SocketServer.RotaryEncoder.last_encoder_time e;
     InputsDebug.RotaryEncoder.last_button_time :=
       SocketServer.RotaryEncoder.last_button_time e;
     InputsDebug.RotaryEncoder.encoder_debounce_delay :=
       SocketServer.RotaryEncoder.encoder_debounce_delay e;
     InputsDebug.RotaryEncoder.button_debounce_delay :=
       SocketServer.RotaryEncoder.button_debounce_delay e |}.

(** ** mac_simulator.py *)

Module MacSimulator.

(* class SimulatorServer *)
Record t := {
  connected_clients : Z;
  key_active : bool;
  switches : sdict bool;
  encoders : dict Z
}.

(* __init__ *)
Definition init : t :=
  {| connected_clients := 0;
     key_active := true;
     switches := [("green"%string, true); ("blue"%string, true); ("red"%string, true)];
     encoders := [(1, 0); (2, 0); (3, 0); (4, 0)] |}.

(* emit_key_change *)
Definition emit_key_change (active : bool) (self : t) : t * list event :=
  ({| connected_clients := connected_clients self;
      key_active := active;
      switches := switches self;
      encoders := encoders self |},
   [key_change (Some active)]).

(* emit_switch_change *)
Definition emit_switch_change (color : string) (active : bool) (self : t) : t * list event :=
  ({| connected_clients := connected_clients self;
      key_active := key_active self;
      switches := sdict_set (switches self) color active;
      encoders := encoders self |},
   [switch_change color (Some active)]).

(* emit_encoder_change; None: [self.encoders[encoder_id] += delta] raised KeyError *)
Definition emit_encoder_change (encoder_id delta : Z) (self : t) : option (t * list event) :=
  match dict_get (encoders self) encoder_id with
  | None => None
  | Some old =>
      let encoders' := dict_set (encoders self) encoder_id (old + delta) in
      let direction := if 0 <? delta then "right"%string else "left"%string in
      Some ({| connected_clients := connected_clients self;
               key_active := key_active self;
               switches := switches self;
               encoders := encoders' |},
            [encoder_change encoder_id (old + delta) direction])
  end.

(* emit_encoder_button_press *)
Definition emit_encoder_button_press (encoder_id : Z) (self : t) : t * list event :=
  ({| connected_clients := connected_clients self;
      key_active := key_active self;
      switches := switches self;
      encoders := dict_set (encoders self) encoder_id 0 |},
   [encoder_button_press encoder_id]).

(* the payload handle_connect emits: the state a new client starts from *)
Definition snapshot (self : t) : initial_state :=
  {| initial_key := Some (key_active self);
     initial_switches := map (fun '(color, active) => (color, Some active)) (switches self);
     initial_encoders := encoders self |}.

(* handle_connect *)
Definition handle_connect (self : t) : t * initial_state :=
  let self' := {| connected_clients := connected_clients self + 1;
                  key_active := key_active self;
                  switches := switches self;
                  encoders := encoders self |} in
  (self', snapshot self').

(* handle_disconnect *)
Definition handle_disconnect (self : t) : t :=
  {| connected_clients := connected_clients self - 1;
     key_active := key_active self;
     switches := switches self;
     encoders := encoders self |}.

(* ord(c) *)
Definition ord (c : Ascii.ascii) : Z := Z.of_N (Ascii.N_of_ascii c).

(* the key codes of the curses library *)
Definition KEY_DOWN : Z := 258.
Definition KEY_UP : Z := 259.
Definition KEY_LEFT : Z := 260.
Definition KEY_RIGHT : Z := 261.

(* how one iteration of the loop of draw_ui ends *)
Inductive step_result : Type :=
| Continue (self : t) (evs : list event)   (* the loop goes on *)
| Break                                     (* ESC *)
| Raise.                                    (* a KeyError or IndexError leaves draw_ui *)

(* a key that toggles a switch: server.emit_switch_change(c, not server.switches[c]) *)
Definition toggle_switch (color : string) (self : t) : step_result :=
  match sdict_get (switches self) color with
  | Some active =>
      let '(self', evs) := emit_switch_change color (negb active) self in
      Continue self' evs
  | None => Raise
  end.

Definition turn (encoder_id delta : Z) (self : t) : step_result :=
  match emit_encoder_change encoder_id delta self with
  | Some (self', evs) => Continue self' evs
  | None => Raise
  end.

Definition press (encoder_id : Z) (self : t) : step_result :=
  let '(self', evs) := emit_encoder_button_press encoder_id self in
  Continue self' evs.

(* draw_ui, "Handle input" *)
Definition handle_input (key : Z) (self : t) : step_result :=
  if key =? 27 then Break
  else if (key =? ord "k"%char) || (key =? ord "K"%char) then
    let '(self', evs) := emit_key_change (negb (key_active self)) self in
    Continue self' evs
  else if (key =? ord "g"%char) || (key =? ord "G"%char) then toggle_switch "green" self
  else if (key =? ord "b"%char) || (key =? ord "B"%char) then toggle_switch "blue" self
  else if (key =? ord "r"%char) || (key =? ord "R"%char) then toggle_switch "red" self
  (* Encoder 1 *)
  else if (key =? ord "1"%char) || (key =? KEY_DOWN) then turn 1 (-1) self
  else if (key =? ord "2"%char) || (key =? KEY_UP) then turn 1 1 self
  else if key =? ord "3"%char then press 1 self
  (* Encoder 2 *)
  else if (key =? ord "q"%char) || (key =? ord "Q"%char) || (key =? KEY_LEFT) then turn 2 (-1) self
  else if (key =? ord "w"%char) || (key =? ord "W"%char) || (key =? KEY_RIGHT) then turn 2 1 self
  else if (key =? ord "e"%char) || (key =? ord "E"%char) then press 2 self
  (* Encoder 3 *)
  else if (key =? ord "a"%char) || (key =? ord "A"%char) then turn 3 (-1) self
  else if (key =? ord "s"%char) || (key =? ord "S"%char) then turn 3 1 self
  else if (key =? ord "d"%char) || (key =? ord "D"%char) then press 3 self
  (* Encoder 4 *)
  else if (key =? ord "z"%char) || (key =? ord "Z"%char) then turn 4 (-1) self
  else if (key =? ord "x"%char) || (key =? ord "X"%char) then turn 4 1 self
  else if (key =? ord "c"%char) || (key =? ord "C"%char) then press 4 self
  else Continue self [].

(* draw_ui, the display of the encoders reads server.encoders[1..4] *)
Definition render_encoders (self : t) : bool :=
  forallb (fun enc_id => match dict_get (encoders self) enc_id with
                         | Some _ => true
                         | None => false
                         end)
          [1; 2; 3; 4].

(* draw_ui, the display of the switches takes the key of the i-th switch from
   ['G', 'B', 'R'][i]: an IndexError with more than three switches *)
Definition render_switches (self : t) : bool :=
  (List.length (switches self) <=? 3)%nat.

(* draw_ui, one iteration of the loop: the size of the terminal and the key
   getch returns (-1 when none is pending) *)
Definition iteration (height width key : Z) (self : t) : step_result :=
  if (height <? 20) || (width <? 50) then
    if key =? 27 then Break else Continue self []
  else if negb (render_switches self) then Raise
  else if negb (render_encoders self) then Raise
  else handle_input key self.

(* how draw_ui ends on a finite sequence of iterations *)
Inductive ending : Type := Running | Escaped | Raised.

(* draw_ui: the loop, with the events emitted *)
Fixpoint draw_ui (self : t) (inputs : list (Z * Z * Z)) : t * list event * ending :=
  match inputs with
  | [] => (self, [], Running)
  | (height, width, key) :: rest =>
      match iteration height width key self with
      | Continue self' evs =>
          let '(self'', evs', e) := draw_ui self' rest in
          (self'', evs ++ evs', e)
      | Break => (self, [], Escaped)
      | Raise => (self, [], Raised)
      end
  end.

End MacSimulator.

(** What a client makes of an event, starting from the state it was sent on
    connection: a [key_change] or [switch_change] gives the new level, an
    [encoder_change] the new value, an [encoder_button_press] the value 0. *)
Definition apply_event (view : initial_state) (ev : event) : initial_state :=
  match ev with
  | key_change active =>
      {| initial_key := active;
         initial_switches := initial_switches view;
         initial_encoders := initial_encoders view |}
  | switch_change color active =>
      {| initial_key := initial_key view;
         initial_switches := sdict_set (initial_switches view) color active;
         initial_encoders := initial_encoders view |}
  | encoder_change encoder_id value _ =>
      {| initial_key := initial_key view;
         initial_switches := initial_switches view;
         initial_encoders := dict_set (initial_encoders view) encoder_id value |}
  | encoder_button_press encoder_id =>
      {| initial_key := initial_key view;
         initial_switches := initial_switches view;
         initial_encoders := dict_set (initial_encoders view) encoder_id 0 |}
  end.

Definition replay (view : initial_state) (evs : list event) : initial_state :=
  fold_left apply_event evs view.

(** The simulator holds the four encoders and the three switches. *)
Definition simulator_complete (s : MacSimulator.t) : Prop :=
  keys (MacSimulator.encoders s) = [1; 2; 3; 4] /\
  map fst (MacSimulator.switches s) = ["green"%string; "blue"%string; "red"%string].

(** * Properties *)

Import SocketServer.

(** ** Comparisons of timestamps *)

Lemma elapsed_gt_true (now last delay : Q) :
  elapsed_gt now last delay = true <-> (delay < now - last)%Q.
Proof.
  unfold elapsed_gt. rewrite negb_true_iff.
  destruct (Qle_bool (now - last) delay) eqn:E.
  - apply Qle_bool_iff in E. split; [discriminate | intro; lra].
  - split; [intros _ | reflexivity].
    apply Qnot_le_lt. intro H. apply Qle_bool_iff in H. congruence.
Qed.

Lemma elapsed_gt_false (now last delay : Q) :
  elapsed_gt now last delay = false <-> (now - last <= delay)%Q.
Proof.
  unfold elapsed_gt. rewrite negb_false_iff. apply Qle_bool_iff.
Qed.

Lemma status_ne_refl (x : option bool) : status_ne x x = false.
Proof. destruct x as [[|]|]; reflexivity. Qed.

Lemma status_ne_false (x y : option bool) : status_ne x y = false <-> x = y.
Proof.
  destruct x as [[|]|], y as [[|]|]; simpl; split; congruence.
Qed.

(** ** The blocks of [RotaryEncoder.update] *)

Ltac break_if :=
  match goal with
  | |- context [if ?c then _ else _] => destruct c eqn:?
  end.

Ltac unfold_setters :=
  cbv beta delta [RotaryEncoder.set_counter RotaryEncoder.set_last_counter
    RotaryEncoder.set_last_a RotaryEncoder.set_last_b
    RotaryEncoder.set_last_button RotaryEncoder.set_last_encoder_time
    RotaryEncoder.set_last_button_time] in *.

Ltac block_cases :=
  unfold_setters; cbn in *; repeat (break_if; cbn in *); auto 15.

(** With the three reads successful, [update] is its four blocks in a row. *)
Lemma update_reads_ok (e : RotaryEncoder.t) (w : World) (t : Q) (a b btn : Z) :
  gpio_input w (RotaryEncoder.pin_a e) = Some a ->
  gpio_input w (RotaryEncoder.pin_b e) = Some b ->
  RotaryEncoder.read_button e w = Some btn ->
  RotaryEncoder.update e w t =
    (let e1 := RotaryEncoder.check_a_changed a b t e in
     let e2 := RotaryEncoder.set_last_b b e1 in
     let e3 := RotaryEncoder.check_button btn t e2 in
     let e4 := RotaryEncoder.emit_counter_changed (fst e3) in
     (fst e4, snd e4 ++ RotaryEncoder.emit_button_pressed (snd e3) (fst e4))).
Proof.
  intros Ha Hb Hbtn. unfold RotaryEncoder.update. rewrite Ha, Hb, Hbtn.
  cbv zeta.
  destruct (RotaryEncoder.check_button btn t _) as [e3 pressed].
  cbn [fst snd].
  destruct (RotaryEncoder.emit_counter_changed e3) as [e4 evs].
  reflexivity.
Qed.

(** When a read raises, [update] writes nothing and emits nothing. *)
Lemma update_read_fails (e : RotaryEncoder.t) (w : World) (t : Q) :
  gpio_input w (RotaryEncoder.pin_a e) = None \/
  gpio_input w (RotaryEncoder.pin_b e) = None \/
  RotaryEncoder.read_button e w = None ->
  RotaryEncoder.update e w t = (e, []).
Proof.
  unfold RotaryEncoder.update. intros [H | [H | H]].
  - now rewrite H.
  - rewrite H. now destruct (gpio_input w (RotaryEncoder.pin_a e)).
  - rewrite H. destruct (gpio_input w (RotaryEncoder.pin_a e)); [|reflexivity].
    now destruct (gpio_input w (RotaryEncoder.pin_b e)).
Qed.

(** The three reads of an update either all succeed or one fails. *)
Lemma reads_cases (e : RotaryEncoder.t) (w : World) :
  (exists a b btn,
      gpio_input w (RotaryEncoder.pin_a e) = Some a /\
      gpio_input w (RotaryEncoder.pin_b e) = Some b /\
      RotaryEncoder.read_button e w = Some btn) \/
  (gpio_input w (RotaryEncoder.pin_a e) = None \/
   gpio_input w (RotaryEncoder.pin_b e) = None \/
   RotaryEncoder.read_button e w = None).
Proof.
  destruct (gpio_input w (RotaryEncoder.pin_a e)) as [a|]; [|auto].
  destruct (gpio_input w (RotaryEncoder.pin_b e)) as [b|]; [|auto].
  destruct (RotaryEncoder.read_button e w) as [btn|]; [|auto].
  left. now exists a, b, btn.
Qed.

(** What the decoder block leaves alone, and what it always does. *)
Lemma check_a_changed_frame (a b : Z) (t : Q) (e : RotaryEncoder.t) :
  let e' := RotaryEncoder.check_a_changed a b t e in
  RotaryEncoder.encoder_id e' = RotaryEncoder.encoder_id e /\
  RotaryEncoder.pin_a e' = RotaryEncoder.pin_a e /\
  RotaryEncoder.pin_b e' = RotaryEncoder.pin_b e /\
  RotaryEncoder.pin_button e' = RotaryEncoder.pin_button e /\
  RotaryEncoder.encoder_debounce_delay e' = RotaryEncoder.encoder_debounce_delay e /\
  RotaryEncoder.button_debounce_delay e' = RotaryEncoder.button_debounce_delay e /\
  RotaryEncoder.last_counter e' = RotaryEncoder.last_counter e /\
  RotaryEncoder.last_button e' = RotaryEncoder.last_button e /\
  RotaryEncoder.last_button_time e' = RotaryEncoder.last_button_time e.
Proof.
  destruct e; unfold RotaryEncoder.check_a_changed; block_cases.
Qed.

Lemma check_a_changed_last_a (a b : Z) (t : Q) (e : RotaryEncoder.t) :
  RotaryEncoder.last_a (RotaryEncoder.check_a_changed a b t e) = a.
Proof.
  destruct e; unfold RotaryEncoder.check_a_changed; block_cases.
  apply negb_false_iff, Z.eqb_eq in Heqb0. congruence.
Qed.

(** What the button block leaves alone. *)
Lemma check_button_frame (btn : Z) (t : Q) (e : RotaryEncoder.t) :
  let e' := fst (RotaryEncoder.check_button btn t e) in
  RotaryEncoder.encoder_id e' = RotaryEncoder.encoder_id e /\
  RotaryEncoder.pin_a e' = RotaryEncoder.pin_a e /\
  RotaryEncoder.pin_b e' = RotaryEncoder.pin_b e /\
  RotaryEncoder.pin_button e' = RotaryEncoder.pin_button e /\
  RotaryEncoder.encoder_debounce_delay e' = RotaryEncoder.encoder_debounce_delay e /\
  RotaryEncoder.button_debounce_delay e' = RotaryEncoder.button_debounce_delay e /\
  RotaryEncoder.last_counter e' = RotaryEncoder.last_counter e /\
  RotaryEncoder.last_a e' = RotaryEncoder.last_a e /\
  RotaryEncoder.last_b e' = RotaryEncoder.last_b e /\
  RotaryEncoder.last_encoder_time e' = RotaryEncoder.last_encoder_time e.
Proof.
  destruct e; unfold RotaryEncoder.check_button; block_cases.
Qed.

(** The emit block only writes [last_counter], and leaves it equal to the counter. *)
Lemma emit_counter_changed_frame (e : RotaryEncoder.t) :
  let e' := fst (RotaryEncoder.emit_counter_changed e) in
  e' = RotaryEncoder.set_last_counter (RotaryEncoder.counter e) e.
Proof.
  destruct e; unfold RotaryEncoder.emit_counter_changed; block_cases.
  apply negb_false_iff, Z.eqb_eq in Heqb. now subst.
Qed.

(** The button block accepts a press exactly under [press_accepted]. *)
Lemma check_button_pressed (btn : Z) (t : Q) (e : RotaryEncoder.t) :
  snd (RotaryEncoder.check_button btn t e) = press_accepted e btn t.
Proof.
  destruct e; unfold RotaryEncoder.check_button, press_accepted; block_cases.
Qed.

Lemma check_button_counter (btn : Z) (t : Q) (e : RotaryEncoder.t) :
  RotaryEncoder.counter (fst (RotaryEncoder.check_button btn t e)) =
    if press_accepted e btn t then 0 else RotaryEncoder.counter e.
Proof.
  destruct e; unfold RotaryEncoder.check_button, press_accepted; block_cases.
Qed.

Lemma check_button_last_button_time (btn : Z) (t : Q) (e : RotaryEncoder.t) :
  RotaryEncoder.last_button_time (fst (RotaryEncoder.check_button btn t e)) =
    if press_accepted e btn t then t else RotaryEncoder.last_button_time e.
Proof.
  destruct e; unfold RotaryEncoder.check_button, press_accepted; block_cases.
Qed.

Lemma check_button_last_button (btn : Z) (t : Q) (e : RotaryEncoder.t) :
  RotaryEncoder.last_button (fst (RotaryEncoder.check_button btn t e)) =
    if truthy (RotaryEncoder.pin_button e) then btn else RotaryEncoder.last_button e.
Proof.
  destruct e; unfold RotaryEncoder.check_button; block_cases.
Qed.

(** The decoder block: the counter and the time of the last accepted edge. *)
Lemma check_a_changed_rejected (a b : Z) (t : Q) (e : RotaryEncoder.t) :
  edge_accepted e a t = false ->
  RotaryEncoder.counter (RotaryEncoder.check_a_changed a b t e) = RotaryEncoder.counter e /\
  RotaryEncoder.last_encoder_time (RotaryEncoder.check_a_changed a b t e) =
    RotaryEncoder.last_encoder_time e.
Proof.
  destruct e; unfold RotaryEncoder.check_a_changed, edge_accepted; cbn.
  intros H. block_cases; discriminate.
Qed.

Lemma check_a_changed_accepted (a b : Z) (t : Q) (e : RotaryEncoder.t) :
  edge_accepted e a t = true ->
  RotaryEncoder.counter (RotaryEncoder.check_a_changed a b t e) =
    (if a =? 1
     then if b =? 0 then RotaryEncoder.counter e + 1 else RotaryEncoder.counter e - 1
     else if b =? 1 then RotaryEncoder.counter e + 1 else RotaryEncoder.counter e - 1) /\
  RotaryEncoder.last_encoder_time (RotaryEncoder.check_a_changed a b t e) = t.
Proof.
  destruct e; unfold RotaryEncoder.check_a_changed, edge_accepted; cbn.
  intros H. block_cases; discriminate.
Qed.

(** ** One update, reads successful *)

Lemma press_accepted_frame (e e' : RotaryEncoder.t) (btn : Z) (t : Q) :
  RotaryEncoder.pin_button e' = RotaryEncoder.pin_button e ->
  RotaryEncoder.last_button e' = RotaryEncoder.last_button e ->
  RotaryEncoder.last_button_time e' = RotaryEncoder.last_button_time e ->
  RotaryEncoder.button_debounce_delay e' = RotaryEncoder.button_debounce_delay e ->
  press_accepted e' btn t = press_accepted e btn t.
Proof. unfold press_accepted. now intros -> -> -> ->. Qed.

Lemma press_accepted_after_decoder (e : RotaryEncoder.t) (a b btn : Z) (t : Q) :
  press_accepted
    (RotaryEncoder.set_last_b b (RotaryEncoder.check_a_changed a b t e)) btn t =
  press_accepted e btn t.
Proof.
  pose proof (check_a_changed_frame a b t e) as F. cbv zeta in F.
  apply press_accepted_frame; cbn; tauto.
Qed.

Lemma emit_counter_changed_events (e : RotaryEncoder.t) :
  snd (RotaryEncoder.emit_counter_changed e) =
    counter_event (RotaryEncoder.encoder_id e) (RotaryEncoder.counter e)
                  (RotaryEncoder.last_counter e).
Proof.
  unfold RotaryEncoder.emit_counter_changed, counter_event.
  destruct (RotaryEncoder.counter e =? RotaryEncoder.last_counter e); reflexivity.
Qed.

Section UpdateReadsOk.

Variables (e : RotaryEncoder.t) (w : World) (t : Q) (a b btn : Z).
Hypothesis read_a : gpio_input w (RotaryEncoder.pin_a e) = Some a.
Hypothesis read_b : gpio_input w (RotaryEncoder.pin_b e) = Some b.
Hypothesis read_btn : RotaryEncoder.read_button e w = Some btn.

Let e' := fst (RotaryEncoder.update e w t).

Lemma update_counter :
  RotaryEncoder.counter e' =
    if press_accepted e btn t then 0
    else RotaryEncoder.counter (RotaryEncoder.check_a_changed a b t e).
Proof.
  unfold e'. rewrite (update_reads_ok e w t a b btn) by assumption.
  cbv zeta. cbn [fst]. rewrite emit_counter_changed_frame. cbn.
  rewrite check_button_counter, press_accepted_after_decoder. reflexivity.
Qed.

Lemma update_last_counter :
  RotaryEncoder.last_counter e' = RotaryEncoder.counter e'.
Proof.
  unfold e'. rewrite (update_reads_ok e w t a b btn) by assumption.
  cbv zeta. cbn [fst]. rewrite emit_counter_changed_frame. reflexivity.
Qed.

Lemma update_last_a : RotaryEncoder.last_a e' = a.
Proof.
  unfold e'. rewrite (update_reads_ok e w t a b btn) by assumption.
  cbv zeta. cbn [fst]. rewrite emit_counter_changed_frame. cbn.
  pose proof (check_button_frame btn t
    (RotaryEncoder.set_last_b b (RotaryEncoder.check_a_changed a b t e))) as F.
  cbv zeta in F. destruct F as (_ & _ & _ & _ & _ & _ & _ & -> & _).
  cbn. apply check_a_changed_last_a.
Qed.

Lemma update_last_button :
  RotaryEncoder.last_button e' =
    if truthy (RotaryEncoder.pin_button e) then btn else RotaryEncoder.last_button e.
Proof.
  unfold e'. rewrite (update_reads_ok e w t a b btn) by assumption.
  cbv zeta. cbn [fst]. rewrite emit_counter_changed_frame. cbn.
  rewrite check_button_last_button. cbn.
  pose proof (check_a_changed_frame a b t e) as F. cbv zeta in F.
  destruct F as (_ & _ & _ & -> & _ & _ & _ & -> & _). reflexivity.
Qed.

Lemma update_last_button_time :
  RotaryEncoder.last_button_time e' =
    if press_accepted e btn t then t else RotaryEncoder.last_button_time e.
Proof.
  unfold e'. rewrite (update_reads_ok e w t a b btn) by assumption.
  cbv zeta. cbn [fst]. rewrite emit_counter_changed_frame. cbn.
  rewrite check_button_last_button_time, press_accepted_after_decoder. cbn.
  pose proof (check_a_changed_frame a b t e) as F. cbv zeta in F.
  destruct F as (_ & _ & _ & _ & _ & _ & _ & _ & ->). reflexivity.
Qed.

Lemma update_last_encoder_time :
  RotaryEncoder.last_encoder_time e' =
    if edge_accepted e a t then t else RotaryEncoder.last_encoder_time e.
Proof.
  unfold e'. rewrite (update_reads_ok e w t a b btn) by assumption.
  cbv zeta. cbn [fst]. rewrite emit_counter_changed_frame. cbn.
  pose proof (check_button_frame btn t
    (RotaryEncoder.set_last_b b (RotaryEncoder.check_a_changed a b t e))) as F.
  cbv zeta in F. destruct F as (_ & _ & _ & _ & _ & _ & _ & _ & _ & ->). cbn.
  destruct (edge_accepted e a t) eqn:E.
  - apply (check_a_changed_accepted a b t e E).
  - apply (check_a_changed_rejected a b t e E).
Qed.

Lemma update_events :
  snd (RotaryEncoder.update e w t) =
    counter_event (RotaryEncoder.encoder_id e) (RotaryEncoder.counter e')
                  (RotaryEncoder.last_counter e)
    ++ press_event (RotaryEncoder.encoder_id e) (press_accepted e btn t).
Proof.
  rewrite update_counter.
  rewrite (update_reads_ok e w t a b btn) by assumption.
  cbv zeta. cbn [fst snd].
  rewrite emit_counter_changed_events, emit_counter_changed_frame.
  unfold RotaryEncoder.emit_button_pressed, press_event. cbn.
  rewrite check_button_pressed, check_button_counter, press_accepted_after_decoder.
  pose proof (check_button_frame btn t
    (RotaryEncoder.set_last_b b (RotaryEncoder.check_a_changed a b t e))) as F.
  cbv zeta in F. destruct F as (-> & _ & _ & _ & _ & _ & -> & _). cbn.
  pose proof (check_a_changed_frame a b t e) as F. cbv zeta in F.
  destruct F as (-> & _ & _ & _ & _ & _ & -> & _).
  reflexivity.
Qed.

End UpdateReadsOk.

(** The configuration of an encoder is never written by [update]. *)
Lemma update_config (e : RotaryEncoder.t) (w : World) (t : Q) :
  let e' := fst (RotaryEncoder.update e w t) in
  RotaryEncoder.encoder_id e' = RotaryEncoder.encoder_id e /\
  RotaryEncoder.pin_a e' = RotaryEncoder.pin_a e /\
  RotaryEncoder.pin_b e' = RotaryEncoder.pin_b e /\
  RotaryEncoder.pin_button e' = RotaryEncoder.pin_button e /\
  RotaryEncoder.encoder_debounce_delay e' = RotaryEncoder.encoder_debounce_delay e /\
  RotaryEncoder.button_debounce_delay e' = RotaryEncoder.button_debounce_delay e.
Proof.
  destruct (reads_cases e w) as [(a & b & btn & Ha & Hb & Hbtn) | Hfail].
  - rewrite (update_reads_ok e w t a b btn) by assumption.
    cbv zeta. cbn [fst]. rewrite emit_counter_changed_frame. cbn.
    pose proof (check_button_frame btn t
      (RotaryEncoder.set_last_b b (RotaryEncoder.check_a_changed a b t e))) as F.
    cbv zeta in F. destruct F as (-> & -> & -> & -> & -> & -> & _). cbn.
    pose proof (check_a_changed_frame a b t e) as F. cbv zeta in F.
    tauto.
  - rewrite update_read_fails by assumption. cbn. tauto.
Qed.

(** The last emitted value and the counter agree between updates. *)
Lemma update_synced (e : RotaryEncoder.t) (w : World) (t : Q) :
  RotaryEncoder.last_counter e = RotaryEncoder.counter e ->
  RotaryEncoder.last_counter (fst (RotaryEncoder.update e w t)) =
  RotaryEncoder.counter (fst (RotaryEncoder.update e w t)).
Proof.
  intros Hsync.
  destruct (reads_cases e w) as [(a & b & btn & Ha & Hb & Hbtn) | Hfail].
  - apply (update_last_counter e w t a b btn); assumption.
  - rewrite update_read_fails by assumption. exact Hsync.
Qed.

Lemma run_updates_synced (ticks : list tick) (e : RotaryEncoder.t) :
  RotaryEncoder.last_counter e = RotaryEncoder.counter e ->
  RotaryEncoder.last_counter (fst (run_updates e ticks)) =
  RotaryEncoder.counter (fst (run_updates e ticks)).
Proof.
  revert e. induction ticks as [|[w t] ticks IH]; intros e Hsync; cbn.
  - exact Hsync.
  - pose proof (update_synced e w t Hsync) as H.
    destruct (RotaryEncoder.update e w t) as [e1 evs]. cbn in H.
    specialize (IH e1 H).
    destruct (run_updates e1 ticks) as [e2 evss]. exact IH.
Qed.

(** ** C1: a button press that resets a positive counter *)

(** C1, as stated, fails: encoder 1 stands at 50, its button line goes low at
    t = 1 s and the press is accepted; the update resets the counter and
    emits the button press, and before it an [encoder_change] with value 0
    for the same reset. *)
Lemma C1_counterexample :
  let e := encoder1_at_50 in
  let w := encoder_world 5 6 26 0 0 0 in
  (0 < RotaryEncoder.counter e) /\
  press_accepted e 0 1 = true /\
  RotaryEncoder.counter (fst (RotaryEncoder.update e w 1)) = 0 /\
  snd (RotaryEncoder.update e w 1) =
    [encoder_change 1 0 "left"; encoder_button_press 1] /\
  count_events is_encoder_change (snd (RotaryEncoder.update e w 1)) <> 0%nat.
Proof.
  cbv zeta. repeat split; try reflexivity. cbn. discriminate.
Qed.

(** C1, amended: for an encoder with a button whose counter is positive and
    equal to the last emitted value (it is between updates), an update whose
    reads succeed and in which a press edge is accepted resets the counter to
    0 and emits exactly two events, in this order: one [encoder_change] with
    value 0 and direction "left" for the reset, then one
    [encoder_button_press]. *)
Theorem C1_press_resets_and_emits_both (e : RotaryEncoder.t) (w : World) (t : Q)
  (a b btn : Z) :
  gpio_input w (RotaryEncoder.pin_a e) = Some a ->
  gpio_input w (RotaryEncoder.pin_b e) = Some b ->
  RotaryEncoder.read_button e w = Some btn ->
  0 < RotaryEncoder.counter e ->
  RotaryEncoder.last_counter e = RotaryEncoder.counter e ->
  press_accepted e btn t = true ->
  RotaryEncoder.counter (fst (RotaryEncoder.update e w t)) = 0 /\
  snd (RotaryEncoder.update e w t) =
    [encoder_change (RotaryEncoder.encoder_id e) 0 "left";
     encoder_button_press (RotaryEncoder.encoder_id e)] /\
  count_events is_encoder_button_press (snd (RotaryEncoder.update e w t)) = 1%nat /\
  count_events is_encoder_change (snd (RotaryEncoder.update e w t)) = 1%nat.
Proof.
  intros Ha Hb Hbtn Hpos Hsync Hpress.
  pose proof (update_counter e w t a b btn Ha Hb Hbtn) as Hc.
  pose proof (update_events e w t a b btn Ha Hb Hbtn) as Hev.
  rewrite Hpress in Hc. rewrite Hc in Hev. rewrite Hpress, Hsync in Hev.
  unfold counter_event, press_event in Hev.
  assert (H0 : (0 =? RotaryEncoder.counter e) = false) by (apply Z.eqb_neq; lia).
  assert (H1 : (0 <? 0 - RotaryEncoder.counter e) = false) by (apply Z.ltb_ge; lia).
  rewrite H0, H1 in Hev. rewrite Hev, Hc. cbn. auto.
Qed.

Lemma C1_press_resets_and_emits_both_witness :
  RotaryEncoder.counter
    (fst (RotaryEncoder.update encoder1_at_50 (encoder_world 5 6 26 1 0 0) 1)) = 0 /\
  snd (RotaryEncoder.update encoder1_at_50 (encoder_world 5 6 26 1 0 0) 1) =
    [encoder_change 1 0 "left"; encoder_button_press 1] /\
  count_events is_encoder_button_press
    (snd (RotaryEncoder.update encoder1_at_50 (encoder_world 5 6 26 1 0 0) 1)) = 1%nat /\
  count_events is_encoder_change
    (snd (RotaryEncoder.update encoder1_at_50 (encoder_world 5 6 26 1 0 0) 1)) = 1%nat.
Proof.
  apply (C1_press_resets_and_emits_both encoder1_at_50
           (encoder_world 5 6 26 1 0 0) 1 1 0 0);
    try reflexivity.
Defined.

(** ** C2: the floor of the counter *)

Ltac debug_cases :=
  cbv beta delta [InputsDebug.RotaryEncoder.set_counter
    InputsDebug.RotaryEncoder.set_last_a InputsDebug.RotaryEncoder.set_last_b
    InputsDebug.RotaryEncoder.set_last_button
    InputsDebug.RotaryEncoder.set_last_encoder_time
    InputsDebug.RotaryEncoder.set_last_button_time
    InputsDebug.RotaryEncoder.assign] in *;
  cbn in *; repeat (break_if; cbn in *); auto 15.

(** inputs_debug.py: the decoder block never leaves a negative counter. *)
Lemma debug_check_a_changed_nonneg (a b : Z) (t : Q) (e : InputsDebug.RotaryEncoder.t) :
  0 <= InputsDebug.RotaryEncoder.counter e ->
  0 <= InputsDebug.RotaryEncoder.counter
         (InputsDebug.RotaryEncoder.check_a_changed a b t e).
Proof.
  destruct e; unfold InputsDebug.RotaryEncoder.check_a_changed; intros H.
  debug_cases; try lia.
  all: match goal with
       | H : (_ <? 0) = false |- _ => apply Z.ltb_ge in H; lia
       end.
Qed.

Lemma debug_check_button_nonneg (btn : Z) (t : Q) (e : InputsDebug.RotaryEncoder.t) :
  0 <= InputsDebug.RotaryEncoder.counter e ->
  0 <= InputsDebug.RotaryEncoder.counter
         (InputsDebug.RotaryEncoder.check_button btn t e).
Proof.
  destruct e; unfold InputsDebug.RotaryEncoder.check_button; intros H.
  debug_cases; lia.
Qed.

(** inputs_debug.py: one update keeps the counter at or above 0. *)
Lemma debug_update_nonneg (e : InputsDebug.RotaryEncoder.t) (w : World) (t : Q) :
  0 <= InputsDebug.RotaryEncoder.counter e ->
  0 <= InputsDebug.RotaryEncoder.counter (InputsDebug.RotaryEncoder.update e w t).
Proof.
  intros H. unfold InputsDebug.RotaryEncoder.update.
  destruct (gpio_input w (InputsDebug.RotaryEncoder.pin_a e)) as [a|]; [|exact H].
  destruct (gpio_input w (InputsDebug.RotaryEncoder.pin_b e)) as [b|]; [|exact H].
  destruct (InputsDebug.RotaryEncoder.read_button e w) as [btn|]; [|exact H].
  cbv zeta. apply debug_check_button_nonneg.
  pose proof (debug_check_a_changed_nonneg a b t e H) as H1.
  destruct (InputsDebug.RotaryEncoder.check_a_changed a b t e). exact H1.
Qed.

(** inputs_debug.py: the counter is never negative, after any sequence of
    updates of a new encoder. *)
Lemma debug_counter_never_negative (ticks : list tick)
  (encoder_id pin_a pin_b : Z) (pin_button : option Z) :
  0 <= InputsDebug.RotaryEncoder.counter
         (run_updates_debug
            (InputsDebug.RotaryEncoder.init encoder_id pin_a pin_b pin_button) ticks).
Proof.
  assert (G : forall e, 0 <= InputsDebug.RotaryEncoder.counter e ->
                        0 <= InputsDebug.RotaryEncoder.counter (run_updates_debug e ticks)).
  { induction ticks as [|[w t] ticks IH]; intros e H; cbn; [exact H|].
    apply IH, debug_update_nonneg, H. }
  apply G. cbn. lia.
Qed.

(** inputs_debug.py: an accepted backward step at 0 leaves the counter at 0. *)
Lemma debug_backward_step_at_zero (a b : Z) (t : Q) (e : InputsDebug.RotaryEncoder.t) :
  InputsDebug.RotaryEncoder.counter e = 0 ->
  a <> InputsDebug.RotaryEncoder.last_a e ->
  elapsed_gt t (InputsDebug.RotaryEncoder.last_encoder_time e)
             (InputsDebug.RotaryEncoder.encoder_debounce_delay e) = true ->
  (a = 1 /\ b = 1) \/ (a = 0 /\ b = 0) ->
  InputsDebug.RotaryEncoder.counter
    (InputsDebug.RotaryEncoder.check_a_changed a b t e) = 0.
Proof.
  destruct e; unfold InputsDebug.RotaryEncoder.check_a_changed; cbn.
  intros -> Hne Hel [[-> ->] | [-> ->]]; rewrite Hel.
  all: destruct (_ =? last_a) eqn:E; [apply Z.eqb_eq in E; congruence|].
  all: reflexivity.
Qed.

(** C2 on socket_server.py: the floor is missing.  A new encoder 1 (counter 0)
    sees A rise while B is high, a backward step: the counter becomes -1 and
    is published as such.  The same levels leave the counter of
    inputs_debug.py at 0. *)
Theorem C2_socket_server_counter_goes_negative :
  exists e0,
    encoder1_fresh = Some e0 /\
    RotaryEncoder.counter e0 = 0 /\
    RotaryEncoder.counter
      (fst (RotaryEncoder.update e0 (encoder_world 5 6 26 1 1 1) 1)) = -1 /\
    snd (RotaryEncoder.update e0 (encoder_world 5 6 26 1 1 1) 1) =
      [encoder_change 1 (-1) "left"] /\
    InputsDebug.RotaryEncoder.counter
      (InputsDebug.RotaryEncoder.update
         (InputsDebug.RotaryEncoder.set_last_b 1
            (InputsDebug.RotaryEncoder.init 1 5 6 (Some 26)))
         (encoder_world 5 6 26 1 1 1) 1) = 0.
Proof.
  eexists. split; [reflexivity|]. repeat split; reflexivity.
Qed.

(** ** The push button and the switches *)

(** The button monitor stores the status it read and emits exactly when that
    status differs from the stored one. *)
Lemma button_check_and_emit_spec (self : ButtonMonitor.t) (w : World) :
  let current_state := ButtonMonitor.get_button_status self w in
  ButtonMonitor.button_pin (fst (ButtonMonitor.check_and_emit self w)) =
    ButtonMonitor.button_pin self /\
  ButtonMonitor.last_state (fst (ButtonMonitor.check_and_emit self w)) = current_state /\
  snd (ButtonMonitor.check_and_emit self w) =
    if status_ne current_state (ButtonMonitor.last_state self)
    then [key_change current_state] else [].
Proof.
  unfold ButtonMonitor.check_and_emit. cbv zeta.
  destruct (status_ne _ _) eqn:E; cbn; auto.
  apply status_ne_false in E. auto.
Qed.

(** The switch monitor, whose stored states were read from [w0], polled in
    [w]: it stores the states of [w] and emits, in the order green, blue,
    red, one event per switch whose status differs. *)
Lemma switch_check_and_emit_spec (w0 w : World) :
  SwitchMonitor.check_and_emit (SwitchMonitor.init w0) w =
    Some (SwitchMonitor.init w,
          switch_event "green" (switch_status w 530) (switch_status w0 530) ++
          switch_event "blue" (switch_status w 532) (switch_status w0 532) ++
          switch_event "red" (switch_status w 533) (switch_status w0 533)).
Proof.
  unfold SwitchMonitor.check_and_emit, SwitchMonitor.init, switch_event, switch_status.
  cbn.
  destruct (status_ne (SwitchMonitor.status_of (SwitchMonitor.read_gpio w 530))
                      (SwitchMonitor.status_of (SwitchMonitor.read_gpio w0 530)));
  destruct (status_ne (SwitchMonitor.status_of (SwitchMonitor.read_gpio w 532))
                      (SwitchMonitor.status_of (SwitchMonitor.read_gpio w0 532)));
  destruct (status_ne (SwitchMonitor.status_of (SwitchMonitor.read_gpio w 533))
                      (SwitchMonitor.status_of (SwitchMonitor.read_gpio w0 533)));
  reflexivity.
Qed.

(** A failed sysfs read is the status [None]. *)
Lemma switch_status_read_fails (w : World) (sysfs_num : Z) :
  sysfs_value w sysfs_num = None -> switch_status w sysfs_num = None.
Proof.
  unfold switch_status, SwitchMonitor.read_gpio. now intros ->.
Qed.

Lemma in_switch_event (c c' : string) (v cur last : option bool) :
  In (switch_change c v) (switch_event c' cur last) <->
  c = c' /\ v = cur /\ status_ne cur last = true.
Proof.
  unfold switch_event. destruct (status_ne cur last); cbn.
  - split.
    + intros [H | []]. inversion H. auto.
    + intros (-> & -> & _). auto.
  - split; [tauto | intros (_ & _ & H); discriminate].
Qed.

(** ** C3: a read that fails *)

(** C3, as stated, fails for the simple inputs: after a pass with every line
    high, a pass in which every read raises publishes four changes with
    [active = None], and the stored status of the button becomes [None]. *)
Lemma C3_counterexample :
  exists m,
    manager_idle = Some m /\
    ButtonMonitor.last_state (FirmwareManager.button_monitor m) = Some true /\
    option_map snd (FirmwareManager.sample_tick m dead_world 1) =
      Some [key_change None; switch_change "green" None;
            switch_change "blue" None; switch_change "red" None] /\
    option_map (fun r => ButtonMonitor.last_state (FirmwareManager.button_monitor (fst r)))
               (FirmwareManager.sample_tick m dead_world 1) = Some None.
Proof.
  eexists. split; [reflexivity|]. repeat split; reflexivity.
Qed.

(** C3, amended: an encoder whose read fails during [update] emits no event
    and keeps its whole state.  For the push button and the switches a failed
    read is the status [None]: the pass stores [None], and it emits a change
    event with [active = None] for that input exactly when the stored status
    was not already [None]. *)
Theorem C3_read_failure (e : RotaryEncoder.t) (self : ButtonMonitor.t)
  (w0 w : World) (t : Q) :
  (gpio_input w (RotaryEncoder.pin_a e) = None \/
   gpio_input w (RotaryEncoder.pin_b e) = None \/
   RotaryEncoder.read_button e w = None ->
   RotaryEncoder.update e w t = (e, [])) /\
  (gpio_input w (ButtonMonitor.button_pin self) = None ->
   ButtonMonitor.last_state (fst (ButtonMonitor.check_and_emit self w)) = None /\
   snd (ButtonMonitor.check_and_emit self w) =
     match ButtonMonitor.last_state self with
     | None => []
     | Some _ => [key_change None]
     end) /\
  (forall gpio_num sysfs_num color,
     In (gpio_num, sysfs_num, color) switch_lines ->
     sysfs_value w sysfs_num = None ->
     exists m evs,
       SwitchMonitor.check_and_emit (SwitchMonitor.init w0) w = Some (m, evs) /\
       option_map SwitchMonitor.status
         (dict_get (SwitchMonitor.last_states m) gpio_num) = Some None /\
       (In (switch_change color None) evs <-> switch_status w0 sysfs_num <> None)).
Proof.
  split; [apply update_read_fails|]. split.
  - intros Hfail.
    destruct (button_check_and_emit_spec self w) as (_ & Hlast & Hev).
    cbv zeta in *. unfold ButtonMonitor.get_button_status in *.
    rewrite Hfail in *. split; [exact Hlast|]. rewrite Hev.
    destruct (ButtonMonitor.last_state self); reflexivity.
  - intros gpio_num sysfs_num color Hin Hfail.
    eexists. eexists. split; [apply switch_check_and_emit_spec|].
    pose proof (switch_status_read_fails w sysfs_num Hfail) as Hst.
    assert (Hne : forall x, status_ne None x = true <-> x <> None)
      by (intros [[|]|]; cbn; split; congruence).
    cbn in Hin.
    destruct Hin as [H | [H | [H | []]]]; inversion H; subst; clear H.
    all: split; [unfold switch_status in Hst; cbn; now rewrite Hst|].
    all: rewrite !in_app_iff, !in_switch_event, Hst.
    all: split;
      [ intros [H | [H | H]]; destruct H as (Hc & _ & Hs);
        try discriminate Hc; now apply Hne
      | intros H; apply Hne in H; tauto ].
Qed.

Lemma C3_read_failure_witness :
  RotaryEncoder.update encoder1_at_50 dead_world 1 = (encoder1_at_50, []) /\
  snd (ButtonMonitor.check_and_emit ButtonMonitor.init dead_world) = [] /\
  exists m evs,
    SwitchMonitor.check_and_emit (SwitchMonitor.init (const_world 1 "1")) dead_world
      = Some (m, evs) /\
    In (switch_change "green" None) evs.
Proof.
  destruct (C3_read_failure encoder1_at_50 ButtonMonitor.init
              (const_world 1 "1") dead_world 1) as (He & Hb & Hs).
  split; [apply He; left; reflexivity|].
  split; [apply Hb; reflexivity|].
  destruct (Hs 18 530 "green"%string) as (m & evs & Hm & _ & Hin);
    [left; reflexivity | reflexivity |].
  exists m, evs. split; [exact Hm|]. apply Hin. discriminate.
Defined.

(** ** C5: the simple inputs have no debounce window *)

(** C5, as stated, fails: the button and the green switch go low in the pass
    at t = 1 s and high again in the pass 0.1 ms later; each of the two
    passes publishes both changes. *)
Lemma C5_counterexample :
  exists m m',
    manager_idle = Some m /\
    FirmwareManager.sample_tick m (simple_world 0 "0") 1 =
      Some (m', [key_change (Some false); switch_change "green" (Some false)]) /\
    option_map snd
      (FirmwareManager.sample_tick m' (simple_world 1 "1") (1 + (1 # 10000))) =
      Some [key_change (Some true); switch_change "green" (Some true)].
Proof.
  eexists. eexists. split; [reflexivity|]. split; reflexivity.
Qed.

(** C5, amended: the published state of the push button and of the switches
    follows the line sample by sample, with no debounce window: a pass stores
    the status it reads and emits a change event for an input exactly when
    that status differs from the one stored by the previous pass, whatever the
    time between the two passes. *)
Theorem C5_simple_inputs_follow_every_sample (self : ButtonMonitor.t) (w0 w : World) :
  ButtonMonitor.last_state (fst (ButtonMonitor.check_and_emit self w)) =
    ButtonMonitor.get_button_status self w /\
  snd (ButtonMonitor.check_and_emit self w) =
    (if status_ne (ButtonMonitor.get_button_status self w) (ButtonMonitor.last_state self)
     then [key_change (ButtonMonitor.get_button_status self w)] else []) /\
  SwitchMonitor.check_and_emit (SwitchMonitor.init w0) w =
    Some (SwitchMonitor.init w,
          switch_event "green" (switch_status w 530) (switch_status w0 530) ++
          switch_event "blue" (switch_status w 532) (switch_status w0 532) ++
          switch_event "red" (switch_status w 533) (switch_status w0 533)).
Proof.
  destruct (button_check_and_emit_spec self w) as (_ & Hlast & Hev).
  split; [exact Hlast|]. split; [exact Hev|]. apply switch_check_and_emit_spec.
Qed.

(** ** C9: the first pass of the button monitor *)

(** C9: on the first pass after construction, when the read of the button line
    succeeds, [check_and_emit] emits one [key_change] carrying the level
    read, whatever that level is, and stores it. *)
Theorem C9_first_pass_emits_key_change (w : World) (state : Z) :
  gpio_input w (ButtonMonitor.button_pin ButtonMonitor.init) = Some state ->
  ButtonMonitor.check_and_emit ButtonMonitor.init w =
    ({| ButtonMonitor.button_pin := 2;
        ButtonMonitor.last_state := Some (state =? HIGH) |},
     [key_change (Some (state =? HIGH))]).
Proof.
  intros Hread.
  unfold ButtonMonitor.check_and_emit, ButtonMonitor.get_button_status.
  rewrite Hread. reflexivity.
Qed.

Lemma C9_first_pass_emits_key_change_witness :
  ButtonMonitor.check_and_emit ButtonMonitor.init (simple_world 1 "1") =
    ({| ButtonMonitor.button_pin := 2; ButtonMonitor.last_state := Some true |},
     [key_change (Some true)]) /\
  ButtonMonitor.check_and_emit ButtonMonitor.init (simple_world 0 "1") =
    ({| ButtonMonitor.button_pin := 2; ButtonMonitor.last_state := Some false |},
     [key_change (Some false)]).
Proof.
  split.
  - apply (C9_first_pass_emits_key_change (simple_world 1 "1") 1). reflexivity.
  - apply (C9_first_pass_emits_key_change (simple_world 0 "1") 0). reflexivity.
Defined.

(** ** The truth table of the decoder block *)

(** The step of the decoder block (the change it makes to the counter) is 0
    when phase A reads as stored; when A changed and more than the encoder
    delay has passed since the last accepted edge, the step is +1 exactly for
    (A rising, B = 0) and (A falling, B = 1), and -1 exactly for (A rising,
    B = 1) and (A falling, B = 0).  inputs_debug.py takes the same step and
    then floors the counter at 0. *)
Lemma check_a_changed_truth_table (e : RotaryEncoder.t) (d : InputsDebug.RotaryEncoder.t)
  (a b : Z) (t : Q) :
  is_level a -> is_level b ->
  let step :=
    RotaryEncoder.counter (RotaryEncoder.check_a_changed a b t e)
    - RotaryEncoder.counter e in
  let forward last := (last = 0 /\ a = 1 /\ b = 0) \/ (last = 1 /\ a = 0 /\ b = 1) in
  let backward last := (last = 0 /\ a = 1 /\ b = 1) \/ (last = 1 /\ a = 0 /\ b = 0) in
  (a = RotaryEncoder.last_a e -> step = 0) /\
  (is_level (RotaryEncoder.last_a e) ->
   a <> RotaryEncoder.last_a e ->
   elapsed_gt t (RotaryEncoder.last_encoder_time e)
              (RotaryEncoder.encoder_debounce_delay e) = true ->
   (step = 1 <-> forward (RotaryEncoder.last_a e)) /\
   (step = -1 <-> backward (RotaryEncoder.last_a e))) /\
  (a = InputsDebug.RotaryEncoder.last_a d ->
   InputsDebug.RotaryEncoder.counter
     (InputsDebug.RotaryEncoder.check_a_changed a b t d) =
   InputsDebug.RotaryEncoder.counter d) /\
  (is_level (InputsDebug.RotaryEncoder.last_a d) ->
   a <> InputsDebug.RotaryEncoder.last_a d ->
   elapsed_gt t (InputsDebug.RotaryEncoder.last_encoder_time d)
              (InputsDebug.RotaryEncoder.encoder_debounce_delay d) = true ->
   0 <= InputsDebug.RotaryEncoder.counter d ->
   (InputsDebug.RotaryEncoder.counter
      (InputsDebug.RotaryEncoder.check_a_changed a b t d) =
    InputsDebug.RotaryEncoder.counter d + 1
    <-> forward (InputsDebug.RotaryEncoder.last_a d)) /\
   (InputsDebug.RotaryEncoder.counter
      (InputsDebug.RotaryEncoder.check_a_changed a b t d) =
    Z.max 0 (InputsDebug.RotaryEncoder.counter d - 1)
    <-> backward (InputsDebug.RotaryEncoder.last_a d))).
Proof.
  unfold is_level, LOW, HIGH. intros Ha Hb. cbv zeta.
  split; [|split; [|split]].
  - intros Heq.
    assert (E : edge_accepted e a t = false).
    { unfold edge_accepted. rewrite Heq, Z.eqb_refl. reflexivity. }
    destruct (check_a_changed_rejected a b t e E) as [-> _]. lia.
  - intros Hl Hne Hel.
    assert (E : edge_accepted e a t = true).
    { unfold edge_accepted. rewrite Hel.
      destruct (a =? RotaryEncoder.last_a e) eqn:E; [|reflexivity].
      apply Z.eqb_eq in E. contradiction. }
    destruct (check_a_changed_accepted a b t e E) as [-> _].
    destruct Ha as [-> | ->], Hb as [-> | ->], Hl as [Hl | Hl];
      rewrite Hl in *; cbn; split; split; intros; try lia; try tauto.
    all: try (exfalso; lia).
    all: intuition lia.
  - destruct d; unfold InputsDebug.RotaryEncoder.check_a_changed; cbn.
    intros ->. rewrite Z.eqb_refl. reflexivity.
  - destruct d; unfold InputsDebug.RotaryEncoder.check_a_changed; cbn.
    intros Hl Hne Hel Hpos. rewrite Hel.
    destruct (a =? last_a) eqn:E; [apply Z.eqb_eq in E; contradiction|].
    destruct Ha as [-> | ->], Hb as [-> | ->], Hl as [-> | ->];
      try contradiction; debug_cases.
    all: repeat match goal with
         | H : (_ <? 0) = true |- _ => apply Z.ltb_lt in H
         | H : (_ <? 0) = false |- _ => apply Z.ltb_ge in H
         end.
    all: split; split; intros; try lia; try tauto.
    all: try (exfalso; lia).
    all: intuition lia.
Qed.


(** ** C6: the debounce window of the decoder *)

Lemma run_updates_cons (e : RotaryEncoder.t) (w : World) (t : Q) (ticks : list tick) :
  run_updates e ((w, t) :: ticks) =
    (fst (run_updates (fst (RotaryEncoder.update e w t)) ticks),
     snd (RotaryEncoder.update e w t)
       :: snd (run_updates (fst (RotaryEncoder.update e w t)) ticks)).
Proof.
  cbn. destruct (RotaryEncoder.update e w t) as [e1 evs]. cbn.
  destruct (run_updates e1 ticks). reflexivity.
Qed.

Lemma run_updates_config (ticks : list tick) (e : RotaryEncoder.t) :
  let e' := fst (run_updates e ticks) in
  RotaryEncoder.encoder_id e' = RotaryEncoder.encoder_id e /\
  RotaryEncoder.pin_a e' = RotaryEncoder.pin_a e /\
  RotaryEncoder.pin_b e' = RotaryEncoder.pin_b e /\
  RotaryEncoder.pin_button e' = RotaryEncoder.pin_button e /\
  RotaryEncoder.encoder_debounce_delay e' = RotaryEncoder.encoder_debounce_delay e /\
  RotaryEncoder.button_debounce_delay e' = RotaryEncoder.button_debounce_delay e.
Proof.
  revert e. induction ticks as [|[w t] ticks IH]; intros e.
  - cbn. tauto.
  - rewrite run_updates_cons. cbn [fst].
    pose proof (update_config e w t) as H. cbv zeta in H.
    specialize (IH (fst (RotaryEncoder.update e w t))). cbv zeta in IH.
    destruct H as (<- & <- & <- & <- & <- & <-). exact IH.
Qed.

(** An update made within the window of the last accepted edge leaves the
    time of that edge alone, whatever phase A does. *)
Lemma update_within_window (e : RotaryEncoder.t) (w : World) (t : Q) :
  (t - RotaryEncoder.last_encoder_time e <= RotaryEncoder.encoder_debounce_delay e)%Q ->
  RotaryEncoder.last_encoder_time (fst (RotaryEncoder.update e w t)) =
  RotaryEncoder.last_encoder_time e.
Proof.
  intros Hin.
  destruct (reads_cases e w) as [(a & b & btn & Ha & Hb & Hbtn) | Hfail].
  - rewrite (update_last_encoder_time e w t a b btn Ha Hb Hbtn).
    unfold edge_accepted. apply elapsed_gt_false in Hin. rewrite Hin.
    now rewrite andb_false_r.
  - now rewrite update_read_fails.
Qed.

Lemma run_updates_within_window (ticks : list tick) (e : RotaryEncoder.t) :
  Forall (fun tk : tick =>
            (snd tk - RotaryEncoder.last_encoder_time e
             <= RotaryEncoder.encoder_debounce_delay e)%Q) ticks ->
  RotaryEncoder.last_encoder_time (fst (run_updates e ticks)) =
  RotaryEncoder.last_encoder_time e.
Proof.
  revert e. induction ticks as [|[w t] ticks IH]; intros e Hall.
  - reflexivity.
  - rewrite run_updates_cons. cbn [fst].
    inversion Hall as [|? ? Hhd Htl]; subst. cbn in Hhd.
    pose proof (update_within_window e w t Hhd) as Hsame.
    pose proof (update_config e w t) as Hc. cbv zeta in Hc.
    destruct Hc as (_ & _ & _ & _ & Hd & _).
    rewrite <- Hsame. apply IH. rewrite Hsame, Hd. exact Htl.
Qed.

(** C6: the window of the decoder runs from the last accepted edge.  An update
    stores the level of phase A it read whether or not the change is
    accepted; a change within the window is not accepted and leaves the time
    of the last accepted edge alone; and after any sequence of updates made
    within the window of the last accepted edge, however phase A toggled in
    them, the first change of A seen once the window has passed is accepted
    at once: its time becomes the time of the last accepted edge and, unless
    a button press resets the counter in the same update, the counter moves
    by one. *)
Theorem C6_window_from_last_accepted_edge (e : RotaryEncoder.t) (ticks : list tick)
  (w : World) (t : Q) (a b btn : Z) :
  let e1 := fst (run_updates e ticks) in
  let e2 := fst (RotaryEncoder.update e1 w t) in
  gpio_input w (RotaryEncoder.pin_a e1) = Some a ->
  gpio_input w (RotaryEncoder.pin_b e1) = Some b ->
  RotaryEncoder.read_button e1 w = Some btn ->
  RotaryEncoder.last_a e2 = a /\
  (a <> RotaryEncoder.last_a e1 ->
   (t - RotaryEncoder.last_encoder_time e1
    <= RotaryEncoder.encoder_debounce_delay e1)%Q ->
   RotaryEncoder.last_encoder_time e2 = RotaryEncoder.last_encoder_time e1 /\
   RotaryEncoder.counter e2 =
     if press_accepted e1 btn t then 0 else RotaryEncoder.counter e1) /\
  (Forall (fun tk : tick =>
             (snd tk - RotaryEncoder.last_encoder_time e
              <= RotaryEncoder.encoder_debounce_delay e)%Q) ticks ->
   RotaryEncoder.last_encoder_time e1 = RotaryEncoder.last_encoder_time e /\
   (a <> RotaryEncoder.last_a e1 ->
    (RotaryEncoder.encoder_debounce_delay e
     < t - RotaryEncoder.last_encoder_time e)%Q ->
    RotaryEncoder.last_encoder_time e2 = t /\
    (press_accepted e1 btn t = false ->
     RotaryEncoder.counter e2 = RotaryEncoder.counter e1 + 1 \/
     RotaryEncoder.counter e2 = RotaryEncoder.counter e1 - 1))).
Proof.
  intros e1 e2 Ha Hb Hbtn.
  pose proof (update_last_a e1 w t a b btn Ha Hb Hbtn) as Hla.
  pose proof (update_last_encoder_time e1 w t a b btn Ha Hb Hbtn) as Hlet.
  pose proof (update_counter e1 w t a b btn Ha Hb Hbtn) as Hcnt.
  fold e2 in Hla, Hlet, Hcnt.
  split; [exact Hla|]. split.
  - intros Hne Hin.
    assert (E : edge_accepted e1 a t = false).
    { unfold edge_accepted. apply elapsed_gt_false in Hin. rewrite Hin.
      apply andb_false_r. }
    rewrite E in Hlet. split; [exact Hlet|].
    rewrite Hcnt. destruct (check_a_changed_rejected a b t e1 E) as [-> _].
    reflexivity.
  - intros Hall.
    pose proof (run_updates_within_window ticks e Hall) as Hsame. fold e1 in Hsame.
    split; [exact Hsame|].
    intros Hne Hout.
    assert (E : edge_accepted e1 a t = true).
    { unfold edge_accepted.
      pose proof (run_updates_config ticks e) as Hc. cbv zeta in Hc. fold e1 in Hc.
      destruct Hc as (_ & _ & _ & _ & -> & _). rewrite Hsame.
      apply elapsed_gt_true in Hout. rewrite Hout.
      destruct (a =? RotaryEncoder.last_a e1) eqn:Eq; [|reflexivity].
      apply Z.eqb_eq in Eq. contradiction. }
    rewrite E in Hlet. split; [exact Hlet|].
    intros Hnp. rewrite Hnp in Hcnt. rewrite Hcnt.
    destruct (check_a_changed_accepted a b t e1 E) as [-> _].
    destruct (a =? 1), (b =? 0), (b =? 1); auto.
Qed.

Lemma C6_window_from_last_accepted_edge_witness :
  RotaryEncoder.last_encoder_time (fst (run_updates encoder1_after_edge flapping)) = 1%Q /\
  RotaryEncoder.last_a (fst (run_updates encoder1_after_edge flapping)) = 0 /\
  RotaryEncoder.last_encoder_time
    (fst (RotaryEncoder.update (fst (run_updates encoder1_after_edge flapping))
            (encoder_world 5 6 26 1 0 1) (1 + (12 # 10000)))) = (1 + (12 # 10000))%Q /\
  RotaryEncoder.counter
    (fst (RotaryEncoder.update (fst (run_updates encoder1_after_edge flapping))
            (encoder_world 5 6 26 1 0 1) (1 + (12 # 10000)))) = 2.
Proof.
  destruct (C6_window_from_last_accepted_edge encoder1_after_edge flapping
              (encoder_world 5 6 26 1 0 1) (1 + (12 # 10000)) 1 0 1)
    as (_ & _ & H); try reflexivity.
  destruct H as (Hsame & Hacc).
  { repeat constructor; vm_compute; discriminate. }
  destruct Hacc as (Ht & Hc); [vm_compute; discriminate | reflexivity |].
  split; [exact Hsame|]. split; [reflexivity|]. split; [exact Ht|].
  destruct (Hc eq_refl) as [H | H]; [exact H|].
  vm_compute in H. discriminate H.
Defined.

(** ** Accepted presses are more than the button delay apart *)

Lemma count_counter_event_press (id c l : Z) :
  count_events is_encoder_button_press (counter_event id c l) = 0%nat.
Proof. unfold counter_event. now destruct (c =? l). Qed.

Lemma count_events_app (p : event -> bool) (l1 l2 : list event) :
  count_events p (l1 ++ l2) = (count_events p l1 + count_events p l2)%nat.
Proof. unfold count_events. now rewrite filter_app, length_app. Qed.

(** What one update does with the button, in terms of [update_accepts_press]. *)
Lemma update_press_spec (e : RotaryEncoder.t) (w : World) (t : Q) :
  let e' := fst (RotaryEncoder.update e w t) in
  count_events is_encoder_button_press (snd (RotaryEncoder.update e w t)) =
    (if update_accepts_press e w t then 1%nat else 0%nat) /\
  RotaryEncoder.counter e' =
    (if update_accepts_press e w t then 0 else decoded_counter e w t) /\
  RotaryEncoder.last_button_time e' =
    (if update_accepts_press e w t then t else RotaryEncoder.last_button_time e).
Proof.
  cbv zeta. unfold update_accepts_press, decoded_counter.
  destruct (reads_cases e w) as [(a & b & btn & Ha & Hb & Hbtn) | Hfail].
  - rewrite (update_events e w t a b btn Ha Hb Hbtn),
      (update_counter e w t a b btn Ha Hb Hbtn),
      (update_last_button_time e w t a b btn Ha Hb Hbtn).
    rewrite Ha, Hb, Hbtn.
    rewrite count_events_app, count_counter_event_press.
    destruct (press_accepted e btn t); cbn; auto.
  - rewrite (update_read_fails e w t Hfail). cbn [fst snd].
    destruct Hfail as [H | [H | H]]; rewrite H.
    + auto.
    + destruct (gpio_input w (RotaryEncoder.pin_a e)); auto.
    + destruct (gpio_input w (RotaryEncoder.pin_a e)); auto.
      destruct (gpio_input w (RotaryEncoder.pin_b e)); auto.
Qed.

(** No press is accepted while the button delay since the last accepted
    press has not passed. *)
Lemma no_press_within_window (e : RotaryEncoder.t) (w : World) (t : Q) :
  (t - RotaryEncoder.last_button_time e <= RotaryEncoder.button_debounce_delay e)%Q ->
  update_accepts_press e w t = false.
Proof.
  intros Hin. apply elapsed_gt_false in Hin.
  unfold update_accepts_press, press_accepted. rewrite Hin.
  destruct (gpio_input w (RotaryEncoder.pin_a e)); [|reflexivity].
  destruct (gpio_input w (RotaryEncoder.pin_b e)); [|reflexivity].
  destruct (RotaryEncoder.read_button e w); [|reflexivity].
  apply andb_false_r.
Qed.

Lemma press_accepted_elapsed (e : RotaryEncoder.t) (w : World) (t : Q) :
  update_accepts_press e w t = true ->
  (RotaryEncoder.button_debounce_delay e < t - RotaryEncoder.last_button_time e)%Q.
Proof.
  unfold update_accepts_press, press_accepted.
  destruct (gpio_input w (RotaryEncoder.pin_a e)); [|discriminate].
  destruct (gpio_input w (RotaryEncoder.pin_b e)); [|discriminate].
  destruct (RotaryEncoder.read_button e w); [|discriminate].
  intros H. apply andb_true_iff in H. apply elapsed_gt_true. tauto.
Qed.

(** The time of the last accepted press never goes back. *)
Lemma update_last_button_time_mono (e : RotaryEncoder.t) (w : World) (t : Q) :
  (0 <= RotaryEncoder.button_debounce_delay e)%Q ->
  (RotaryEncoder.last_button_time e
   <= RotaryEncoder.last_button_time (fst (RotaryEncoder.update e w t)))%Q.
Proof.
  intros Hd. destruct (update_press_spec e w t) as (_ & _ & ->).
  destruct (update_accepts_press e w t) eqn:E.
  - apply press_accepted_elapsed in E. lra.
  - lra.
Qed.

Lemma run_updates_last_button_time_mono (ticks : list tick) (e : RotaryEncoder.t) :
  (0 <= RotaryEncoder.button_debounce_delay e)%Q ->
  (RotaryEncoder.last_button_time e
   <= RotaryEncoder.last_button_time (fst (run_updates e ticks)))%Q.
Proof.
  revert e. induction ticks as [|[w t] ticks IH]; intros e Hd.
  - cbn. lra.
  - rewrite run_updates_cons. cbn [fst].
    pose proof (update_last_button_time_mono e w t Hd) as H1.
    pose proof (update_config e w t) as Hc. cbv zeta in Hc.
    destruct Hc as (_ & _ & _ & _ & _ & Hbd).
    assert (H2 : (0 <= RotaryEncoder.button_debounce_delay
                         (fst (RotaryEncoder.update e w t)))%Q)
      by (rewrite Hbd; exact Hd).
    specialize (IH _ H2). lra.
Qed.

(** Once an update at [t1] has accepted a press of the encoder's button
    (one [encoder_button_press], counter reset to 0), an update at a time [t2]
    no more than the button delay after [t1] accepts none, whatever was
    polled in between: it emits no [encoder_button_press], leaves the time of
    the last accepted press alone and does not reset the counter, which is
    what the decoder alone makes of it. *)
Lemma no_second_press_within_window (e : RotaryEncoder.t) (w1 : World) (t1 : Q)
  (ticks : list tick) (w2 : World) (t2 : Q) :
  let e1 := fst (RotaryEncoder.update e w1 t1) in
  let e2 := fst (run_updates e1 ticks) in
  let e3 := fst (RotaryEncoder.update e2 w2 t2) in
  (0 <= RotaryEncoder.button_debounce_delay e)%Q ->
  count_events is_encoder_button_press (snd (RotaryEncoder.update e w1 t1)) <> 0%nat ->
  (t2 - t1 <= RotaryEncoder.button_debounce_delay e)%Q ->
  count_events is_encoder_button_press (snd (RotaryEncoder.update e w1 t1)) = 1%nat /\
  RotaryEncoder.counter e1 = 0 /\
  count_events is_encoder_button_press (snd (RotaryEncoder.update e2 w2 t2)) = 0%nat /\
  RotaryEncoder.last_button_time e3 = RotaryEncoder.last_button_time e2 /\
  RotaryEncoder.counter e3 = decoded_counter e2 w2 t2.
Proof.
  intros e1 e2 e3 Hd Hpress Hclose.
  destruct (update_press_spec e w1 t1) as (Hn1 & Hc1 & Ht1).
  fold e1 in Hc1, Ht1.
  destruct (update_accepts_press e w1 t1) eqn:E1; [|contradiction].
  split; [exact Hn1|]. split; [exact Hc1|].
  pose proof (update_config e w1 t1) as Hcfg1. cbv zeta in Hcfg1. fold e1 in Hcfg1.
  destruct Hcfg1 as (_ & _ & _ & _ & _ & Hbd1).
  pose proof (run_updates_config ticks e1) as Hcfg2. cbv zeta in Hcfg2. fold e2 in Hcfg2.
  destruct Hcfg2 as (_ & _ & _ & _ & _ & Hbd2).
  assert (Hmono : (RotaryEncoder.last_button_time e1
                   <= RotaryEncoder.last_button_time e2)%Q).
  { apply run_updates_last_button_time_mono. rewrite Hbd1. exact Hd. }
  assert (E2 : update_accepts_press e2 w2 t2 = false).
  { apply no_press_within_window. rewrite Hbd2, Hbd1.
    rewrite Ht1 in Hmono. lra. }
  destruct (update_press_spec e2 w2 t2) as (Hn2 & Hc2 & Ht2).
  fold e3 in Hc2, Ht2. rewrite E2 in Hn2, Hc2, Ht2. auto.
Qed.


(** ** C10: an encoder without a button *)

Lemma decoded_counter_step (e : RotaryEncoder.t) (w : World) (t : Q) :
  decoded_counter e w t = RotaryEncoder.counter e \/
  decoded_counter e w t = RotaryEncoder.counter e + 1 \/
  decoded_counter e w t = RotaryEncoder.counter e - 1.
Proof.
  unfold decoded_counter.
  destruct (gpio_input w (RotaryEncoder.pin_a e)) as [a|]; [|auto].
  destruct (gpio_input w (RotaryEncoder.pin_b e)) as [b|]; [|auto].
  destruct (RotaryEncoder.read_button e w); [|auto].
  destruct (edge_accepted e a t) eqn:E.
  - destruct (check_a_changed_accepted a b t e E) as [-> _].
    destruct (a =? 1), (b =? 0), (b =? 1); auto.
  - destruct (check_a_changed_rejected a b t e E) as [-> _]. auto.
Qed.

Lemma no_button_no_press (e : RotaryEncoder.t) (w : World) (t : Q) :
  RotaryEncoder.pin_button e = None -> update_accepts_press e w t = false.
Proof.
  intros Hnone. unfold update_accepts_press, press_accepted. rewrite Hnone. cbn.
  destruct (gpio_input w (RotaryEncoder.pin_a e)); [|reflexivity].
  destruct (gpio_input w (RotaryEncoder.pin_b e)); [|reflexivity].
  destruct (RotaryEncoder.read_button e w); reflexivity.
Qed.

(** C10: an encoder constructed with [pin_button = None] never emits an
    [encoder_button_press] and is never reset by the button block: in every
    update its counter is what the decoder block makes of it, a step of 0, +1
    or -1, and so over any sequence of updates no event list holds a button
    press and the counter moves by at most one per update. *)
Theorem C10_encoder_without_button (e : RotaryEncoder.t) (ticks : list tick)
  (w : World) (t : Q) :
  RotaryEncoder.pin_button e = None ->
  (count_events is_encoder_button_press (snd (RotaryEncoder.update e w t)) = 0%nat /\
   RotaryEncoder.counter (fst (RotaryEncoder.update e w t)) = decoded_counter e w t /\
   (decoded_counter e w t = RotaryEncoder.counter e \/
    decoded_counter e w t = RotaryEncoder.counter e + 1 \/
    decoded_counter e w t = RotaryEncoder.counter e - 1) /\
   RotaryEncoder.last_button_time (fst (RotaryEncoder.update e w t)) =
     RotaryEncoder.last_button_time e) /\
  Forall (fun evs => count_events is_encoder_button_press evs = 0%nat)
         (snd (run_updates e ticks)) /\
  Z.abs (RotaryEncoder.counter (fst (run_updates e ticks)) - RotaryEncoder.counter e)
    <= Z.of_nat (List.length ticks).
Proof.
  intros Hnone. split.
  - destruct (update_press_spec e w t) as (Hn & Hc & Ht).
    rewrite (no_button_no_press e w t Hnone) in Hn, Hc, Ht.
    pose proof (decoded_counter_step e w t). auto.
  - revert e Hnone. induction ticks as [|[w' t'] ticks IH]; intros e Hnone.
    + cbn. split; [constructor | lia].
    + rewrite run_updates_cons. cbn [fst snd].
      destruct (update_press_spec e w' t') as (Hn & Hc & _).
      rewrite (no_button_no_press e w' t' Hnone) in Hn, Hc.
      pose proof (update_config e w' t') as Hcfg. cbv zeta in Hcfg.
      destruct Hcfg as (_ & _ & _ & Hpb & _).
      rewrite Hnone in Hpb.
      destruct (IH _ Hpb) as (IHev & IHc).
      split; [constructor; assumption|].
      pose proof (decoded_counter_step e w' t') as Hstep.
      rewrite <- Hc in Hstep.
      change (List.length ((w', t') :: ticks)) with (S (List.length ticks)).
      lia.
Qed.

Lemma C10_encoder_without_button_witness :
  let e4 := RotaryEncoder.init 4 23 24 None in
  In (4, 23, 24, None) FirmwareManager.encoder_configs /\
  snd (RotaryEncoder.update e4 (encoder_world 23 24 0 1 0 0) 1) =
    [encoder_change 4 1 "right"] /\
  count_events is_encoder_button_press
    (snd (RotaryEncoder.update e4 (encoder_world 23 24 0 1 0 0) 1)) = 0%nat /\
  RotaryEncoder.counter (fst (RotaryEncoder.update e4 (encoder_world 23 24 0 1 0 0) 1)) = 1.
Proof.
  cbv zeta.
  destruct (C10_encoder_without_button (RotaryEncoder.init 4 23 24 None) []
              (encoder_world 23 24 0 1 0 0) 1 eq_refl)
    as ((Hn & Hc & _) & _).
  split; [cbn; auto|]. split; [reflexivity|]. split; [exact Hn|]. exact Hc.
Defined.

(** ** Two passes over unchanged inputs *)

(** An update that reads what the encoder stored, with the counter already
    published, writes nothing and emits nothing. *)
Lemma update_unchanged (e : RotaryEncoder.t) (w : World) (t : Q) :
  encoder_unchanged w e ->
  RotaryEncoder.last_counter e = RotaryEncoder.counter e ->
  RotaryEncoder.update e w t = (e, []).
Proof.
  intros (Ha & Hb & btn & Hbtn & Hsame) Hsync.
  rewrite (update_reads_ok e w t _ _ btn Ha Hb Hbtn).
  destruct e. cbn in *. subst.
  unfold RotaryEncoder.check_a_changed. cbn. rewrite Z.eqb_refl. cbn.
  unfold RotaryEncoder.check_button, RotaryEncoder.set_last_b. cbn.
  destruct (truthy pin_button) eqn:Etr.
  - rewrite (Hsame eq_refl).
    assert (E : (last_button =? 0) && (last_button =? 1) = false).
    { destruct (last_button =? 0) eqn:E0; [|reflexivity].
      apply Z.eqb_eq in E0. now subst. }
    rewrite E. cbn.
    unfold RotaryEncoder.emit_counter_changed. cbn. rewrite Z.eqb_refl. reflexivity.
  - cbn. unfold RotaryEncoder.emit_counter_changed. cbn. rewrite Z.eqb_refl. reflexivity.
Qed.

Lemma update_last_b (e : RotaryEncoder.t) (w : World) (t : Q) (a b btn : Z) :
  gpio_input w (RotaryEncoder.pin_a e) = Some a ->
  gpio_input w (RotaryEncoder.pin_b e) = Some b ->
  RotaryEncoder.read_button e w = Some btn ->
  RotaryEncoder.last_b (fst (RotaryEncoder.update e w t)) = b.
Proof.
  intros Ha Hb Hbtn. rewrite (update_reads_ok e w t a b btn) by assumption.
  cbv zeta. cbn [fst]. rewrite emit_counter_changed_frame. cbn.
  pose proof (check_button_frame btn t
    (RotaryEncoder.set_last_b b (RotaryEncoder.check_a_changed a b t e))) as F.
  cbv zeta in F. destruct F as (_ & _ & _ & _ & _ & _ & _ & _ & -> & _).
  reflexivity.
Qed.

Lemma read_button_config (e e' : RotaryEncoder.t) (w : World) :
  RotaryEncoder.pin_button e' = RotaryEncoder.pin_button e ->
  RotaryEncoder.read_button e' w = RotaryEncoder.read_button e w.
Proof. unfold RotaryEncoder.read_button. now intros ->. Qed.

(** A second update over the same levels writes nothing and emits nothing. *)
Lemma update_twice (e : RotaryEncoder.t) (w : World) (t1 t2 : Q) :
  RotaryEncoder.update (fst (RotaryEncoder.update e w t1)) w t2 =
    (fst (RotaryEncoder.update e w t1), []).
Proof.
  destruct (reads_cases e w) as [(a & b & btn & Ha & Hb & Hbtn) | Hfail].
  - pose proof (update_config e w t1) as Hc. cbv zeta in Hc.
    destruct Hc as (_ & Hpa & Hpb & Hpbtn & _).
    apply update_unchanged.
    + unfold encoder_unchanged. rewrite Hpa, Hpb, Hpbtn.
      rewrite (read_button_config e _ w Hpbtn).
      rewrite (update_last_a e w t1 a b btn Ha Hb Hbtn),
        (update_last_b e w t1 a b btn Ha Hb Hbtn),
        (update_last_button e w t1 a b btn Ha Hb Hbtn).
      repeat split; try assumption.
      exists btn. split; [assumption|]. now intros ->.
    + apply (update_last_counter e w t1 a b btn Ha Hb Hbtn).
  - rewrite (update_read_fails e w t1 Hfail). cbn [fst].
    apply update_read_fails, Hfail.
Qed.

Lemma update_all_unchanged (encoders : list RotaryEncoder.t) (w : World) (t : Q) :
  Forall (encoder_unchanged w) encoders ->
  Forall (fun e => RotaryEncoder.last_counter e = RotaryEncoder.counter e) encoders ->
  FirmwareManager.update_all encoders w t = (encoders, []).
Proof.
  induction 1 as [|e encoders He _ IH]; intros Hsync; [reflexivity|].
  inversion Hsync; subst. cbn.
  rewrite (update_unchanged e w t) by assumption. now rewrite IH.
Qed.

Lemma update_all_twice (encoders : list RotaryEncoder.t) (w : World) (t1 t2 : Q) :
  FirmwareManager.update_all (fst (FirmwareManager.update_all encoders w t1)) w t2 =
    (fst (FirmwareManager.update_all encoders w t1), []).
Proof.
  induction encoders as [|e encoders IH]; [reflexivity|].
  cbn. pose proof (update_twice e w t1 t2) as H.
  destruct (RotaryEncoder.update e w t1) as [e1 evs1].
  destruct (FirmwareManager.update_all encoders w t1) as [rest evs]. cbn in *.
  now rewrite H, IH.
Qed.

Lemma dict_get_key {V : Type} (d : dict V) (k : Z) :
  In k (keys d) -> exists v, dict_get d k = Some v.
Proof.
  induction d as [|[k' v] d IH]; cbn; [contradiction|].
  intros [-> | Hin].
  - rewrite Z.eqb_refl. eauto.
  - destruct (k' =? k); eauto.
Qed.

(** With the stored states equal to the current ones, the loop of
    [check_and_emit] emits nothing and raises nothing. *)
Lemma emit_changed_same (self : SwitchMonitor.t) (todo : dict SwitchMonitor.switch_state) :
  incl (keys todo) (keys (SwitchMonitor.last_states self)) ->
  SwitchMonitor.emit_changed self (SwitchMonitor.last_states self) todo = Some [].
Proof.
  induction todo as [|[gpio_num st] todo IH]; intros Hincl; [reflexivity|].
  cbn. destruct (dict_get_key (SwitchMonitor.last_states self) gpio_num) as [v ->].
  { apply Hincl. now left. }
  rewrite status_ne_refl. apply IH. intros k Hk. apply Hincl. now right.
Qed.

Lemma switch_check_and_emit_unchanged (self : SwitchMonitor.t) (w : World) :
  SwitchMonitor.get_switch_states self w = SwitchMonitor.last_states self ->
  SwitchMonitor.check_and_emit self w = Some (self, []).
Proof.
  intros Hsame. unfold SwitchMonitor.check_and_emit. rewrite Hsame.
  rewrite emit_changed_same by apply incl_refl. now destruct self.
Qed.

Lemma button_check_and_emit_unchanged (self : ButtonMonitor.t) (w : World) :
  ButtonMonitor.get_button_status self w = ButtonMonitor.last_state self ->
  ButtonMonitor.check_and_emit self w = (self, []).
Proof.
  intros Hsame. unfold ButtonMonitor.check_and_emit. rewrite Hsame.
  now rewrite status_ne_refl.
Qed.

(** After any pass, the inputs read as stored and the counters are published. *)
Lemma sample_tick_settles (m m1 : FirmwareManager.t) (w : World) (t1 : Q)
  (evs : list event) :
  FirmwareManager.sample_tick m w t1 = Some (m1, evs) ->
  forall t2, FirmwareManager.sample_tick m1 w t2 = Some (m1, []).
Proof.
  unfold FirmwareManager.sample_tick. intros Htick t2.
  destruct (button_check_and_emit_spec (FirmwareManager.button_monitor m) w)
    as (Hpin & Hlast & _).
  destruct (ButtonMonitor.check_and_emit (FirmwareManager.button_monitor m) w)
    as [bm1 evs_b] eqn:Eb.
  cbn [fst] in Hpin, Hlast.
  unfold SwitchMonitor.check_and_emit in Htick.
  destruct (SwitchMonitor.emit_changed _ _ _) as [evs_s|] eqn:Es; [|discriminate].
  pose proof (update_all_twice (FirmwareManager.encoders m) w t1 t2) as Henc.
  destruct (FirmwareManager.update_all (FirmwareManager.encoders m) w t1)
    as [encs1 evs_e] eqn:Ee.
  cbn [fst] in Henc.
  inversion Htick; subst m1 evs; clear Htick. cbn.
  rewrite button_check_and_emit_unchanged.
  2:{ unfold ButtonMonitor.get_button_status in *. rewrite Hpin. symmetry. exact Hlast. }
  rewrite switch_check_and_emit_unchanged by reflexivity.
  rewrite Henc. reflexivity.
Qed.

(** The counters are published after construction ... *)
Lemma setup_gpio_published (e e' : RotaryEncoder.t) (w : World) :
  RotaryEncoder.setup_gpio e w = Some e' ->
  RotaryEncoder.last_counter e = RotaryEncoder.counter e ->
  RotaryEncoder.last_counter e' = RotaryEncoder.counter e'.
Proof.
  unfold RotaryEncoder.setup_gpio. intros Hsetup Hsync.
  repeat match type of Hsetup with
         | (if ?c then _ else _) = _ => destruct c; [discriminate|]
         | match ?x with _ => _ end = _ => destruct x; [|discriminate]
         end.
  inversion Hsetup; subst. exact Hsync.
Qed.

Lemma init_counters_published (w : World) :
  counters_published (FirmwareManager.init w).
Proof.
  unfold counters_published, FirmwareManager.init, FirmwareManager.setup_encoders.
  cbn [FirmwareManager.encoders].
  induction FirmwareManager.encoder_configs as [|[[[id pa] pb] pbtn] configs IH];
    [constructor|].
  cbn. destruct (RotaryEncoder.setup_gpio _ w) as [e'|] eqn:E; [|exact IH].
  constructor; [|exact IH].
  apply (setup_gpio_published _ _ _ E). reflexivity.
Qed.

(** ... and after every sampling pass. *)
Lemma update_all_published (encoders : list RotaryEncoder.t) (w : World) (t : Q) :
  Forall (fun e => RotaryEncoder.last_counter e = RotaryEncoder.counter e) encoders ->
  Forall (fun e => RotaryEncoder.last_counter e = RotaryEncoder.counter e)
         (fst (FirmwareManager.update_all encoders w t)).
Proof.
  induction 1 as [|e encoders He _ IH]; [constructor|].
  cbn. pose proof (update_synced e w t He) as H.
  destruct (RotaryEncoder.update e w t) as [e1 evs1].
  destruct (FirmwareManager.update_all encoders w t) as [rest evs].
  cbn in *. constructor; assumption.
Qed.

Lemma sample_tick_counters_published (m m' : FirmwareManager.t) (w : World) (t : Q)
  (evs : list event) :
  counters_published m ->
  FirmwareManager.sample_tick m w t = Some (m', evs) ->
  counters_published m'.
Proof.
  unfold counters_published, FirmwareManager.sample_tick. intros Hpub Htick.
  destruct (ButtonMonitor.check_and_emit _ w) as [bm evs_b].
  destruct (SwitchMonitor.check_and_emit _ w) as [[sm evs_s]|]; [|discriminate].
  pose proof (update_all_published _ w t Hpub) as H.
  destruct (FirmwareManager.update_all _ w t) as [encs evs_e].
  inversion Htick; subst. exact H.
Qed.

(** A sampling pass over raw inputs that read as the manager stored them,
    with every counter already published, emits nothing and leaves the state
    as it is, and so does the pass that follows it over the same inputs; and
    whatever a first pass found, a second pass over the same raw inputs emits
    nothing. *)
Lemma unchanged_inputs_emit_nothing (m : FirmwareManager.t) (w : World)
  (t1 t2 : Q) :
  (inputs_unchanged m w -> counters_published m ->
   FirmwareManager.sample_tick m w t1 = Some (m, []) /\
   FirmwareManager.sample_tick m w t2 = Some (m, [])) /\
  (forall m1 evs,
     FirmwareManager.sample_tick m w t1 = Some (m1, evs) ->
     FirmwareManager.sample_tick m1 w t2 = Some (m1, [])).
Proof.
  split.
  - intros (Hb & Hs & He) Hpub.
    assert (G : forall t, FirmwareManager.sample_tick m w t = Some (m, [])).
    { intros t. unfold FirmwareManager.sample_tick.
      rewrite (button_check_and_emit_unchanged _ w Hb).
      rewrite (switch_check_and_emit_unchanged _ w Hs).
      rewrite (update_all_unchanged _ w t He Hpub).
      now destruct m. }
    split; apply G.
  - intros m1 evs Htick. exact (sample_tick_settles m m1 w t1 evs Htick t2).
Qed.


(** * Further properties *)

(** ** Start-up of socket_server.py *)

(** A successful [setup_gpio] stores the levels it read and writes nothing
    else. *)
Lemma setup_gpio_fresh (e e' : RotaryEncoder.t) (w : World) :
  RotaryEncoder.setup_gpio e w = Some e' ->
  encoder_config e' = encoder_config e /\
  RotaryEncoder.counter e' = RotaryEncoder.counter e /\
  RotaryEncoder.last_counter e' = RotaryEncoder.last_counter e /\
  encoder_unchanged w e'.
Proof.
  unfold RotaryEncoder.setup_gpio. intros Hsetup.
  repeat match type of Hsetup with
         | (if ?c then _ else _) = _ => destruct c; [discriminate|]
         end.
  destruct (gpio_input w (RotaryEncoder.pin_a e)) as [a|] eqn:Ha; [|discriminate].
  destruct (gpio_input w (RotaryEncoder.pin_b e)) as [b|] eqn:Hb; [|discriminate].
  destruct (RotaryEncoder.read_button e w) as [btn|] eqn:Hbtn; [|discriminate].
  inversion Hsetup; subst e'; clear Hsetup.
  destruct e. unfold encoder_config, encoder_unchanged. cbn in *.
  repeat split; auto.
  exists btn. split; [exact Hbtn | reflexivity].
Qed.

Lemma setup_gpio_succeeds (w : World) (id pa pb : Z) (pbtn : option Z) :
  setup_succeeds w (id, pa, pb, pbtn) = true <->
  RotaryEncoder.setup_gpio (RotaryEncoder.init id pa pb pbtn) w <> None.
Proof.
  unfold setup_succeeds, RotaryEncoder.setup_gpio, RotaryEncoder.read_button. cbn.
  destruct (gpio_setup w pa), (gpio_setup w pb); cbn; try (split; congruence).
  destruct pbtn as [p|]; cbn.
  - destruct (gpio_setup w p); cbn; [|split; congruence].
    destruct (gpio_input w pa), (gpio_input w pb); cbn; try (split; congruence).
    destruct (p =? 0); cbn; [split; congruence|].
    destruct (gpio_input w p); cbn; split; congruence.
  - destruct (gpio_input w pa), (gpio_input w pb); cbn; split; congruence.
Qed.

Lemma setup_encoders_of_spec (w : World) (configs : list (Z * Z * Z * option Z)) :
  map encoder_config (FirmwareManager.setup_encoders_of configs w) =
    filter (setup_succeeds w) configs /\
  Forall (fun e => RotaryEncoder.counter e = 0 /\ RotaryEncoder.last_counter e = 0 /\
                   encoder_unchanged w e)
         (FirmwareManager.setup_encoders_of configs w).
Proof.
  induction configs as [|[[[id pa] pb] pbtn] configs [IHc IHf]]; [split; [reflexivity | constructor]|].
  cbn [FirmwareManager.setup_encoders_of filter].
  pose proof (setup_gpio_succeeds w id pa pb pbtn) as Hok.
  destruct (RotaryEncoder.setup_gpio (RotaryEncoder.init id pa pb pbtn) w) as [e'|] eqn:E.
  - destruct (setup_succeeds w (id, pa, pb, pbtn)).
    + destruct (setup_gpio_fresh _ _ _ E) as (Hcfg & Hc & Hl & Hu).
      cbn [map]. rewrite Hcfg, IHc. split; [reflexivity|].
      constructor; [|exact IHf]. rewrite Hc, Hl. auto.
    + exfalso. assert (H : false = true) by (apply Hok; discriminate). discriminate.
  - destruct (setup_succeeds w (id, pa, pb, pbtn)).
    + exfalso. now apply Hok.
    + split; assumption.
Qed.

(** X1: start-up keeps, in the order of the configuration, exactly the
    encoders whose lines can be set up and read; a failing encoder is skipped
    and the others are unaffected.  Every encoder kept starts at 0 with the
    levels of its lines stored, and no two of them share an id. *)
Theorem X1_setup_encoders_keeps_working_encoders (w : World) :
  map encoder_config (FirmwareManager.setup_encoders w) =
    filter (setup_succeeds w) FirmwareManager.encoder_configs /\
  Forall (fun e => RotaryEncoder.counter e = 0 /\ RotaryEncoder.last_counter e = 0 /\
                   encoder_unchanged w e)
         (FirmwareManager.setup_encoders w) /\
  NoDup (map RotaryEncoder.encoder_id (FirmwareManager.setup_encoders w)).
Proof.
  destruct (setup_encoders_of_spec w FirmwareManager.encoder_configs) as [Hc Hf].
  split; [exact Hc|]. split; [exact Hf|].
  assert (Hid : map RotaryEncoder.encoder_id (FirmwareManager.setup_encoders w) =
                map (fun c => fst (fst (fst c)))
                    (map encoder_config (FirmwareManager.setup_encoders w))).
  { rewrite map_map. reflexivity. }
  rewrite Hid. unfold FirmwareManager.setup_encoders. rewrite Hc.
  unfold FirmwareManager.encoder_configs. cbn [filter].
  destruct (setup_succeeds w (3, 4, 17, Some 19)),
           (setup_succeeds w (2, 27, 22, Some 13)),
           (setup_succeeds w (1, 5, 6, Some 26)),
           (setup_succeeds w (4, 23, 24, None)); cbn.
  all: repeat (constructor; [cbn; intuition discriminate|]); constructor.
Qed.

(** X2: the first pass after start-up, over the levels start-up saw, emits
    nothing for the switches and the encoders; its only event is the
    [key_change] of the push button, when that line can be read. *)
Theorem X2_first_pass_after_startup (w : World) (t : Q) :
  option_map snd (FirmwareManager.sample_tick (FirmwareManager.init w) w t) =
    Some match gpio_input w 2 with
         | Some state => [key_change (Some (state =? HIGH))]
         | None => []
         end /\
  option_map (fun r => FirmwareManager.encoders (fst r))
             (FirmwareManager.sample_tick (FirmwareManager.init w) w t) =
    Some (FirmwareManager.setup_encoders w).
Proof.
  destruct (setup_encoders_of_spec w FirmwareManager.encoder_configs) as (_ & Hf).
  fold (FirmwareManager.setup_encoders w) in Hf.
  unfold FirmwareManager.sample_tick, FirmwareManager.init.
  cbn [FirmwareManager.button_monitor FirmwareManager.switch_monitor
       FirmwareManager.encoders].
  rewrite switch_check_and_emit_spec.
  rewrite (update_all_unchanged (FirmwareManager.setup_encoders w) w t).
  - unfold switch_event. rewrite !status_ne_refl.
    unfold ButtonMonitor.check_and_emit, ButtonMonitor.get_button_status. cbn.
    destruct (gpio_input w 2); cbn; auto.
  - eapply Forall_impl; [|exact Hf]. cbn. tauto.
  - eapply Forall_impl; [|exact Hf]. cbn. intros e (-> & -> & _). reflexivity.
Qed.

(** ** The monitoring loop *)

Lemma update_all_config (encoders : list RotaryEncoder.t) (w : World) (t : Q) :
  map encoder_config (fst (FirmwareManager.update_all encoders w t)) =
  map encoder_config encoders.
Proof.
  induction encoders as [|e encoders IH]; [reflexivity|].
  cbn. pose proof (update_config e w t) as Hc. cbv zeta in Hc.
  destruct (RotaryEncoder.update e w t) as [e1 evs1].
  destruct (FirmwareManager.update_all encoders w t) as [rest evs].
  cbn in *. rewrite IH. f_equal.
  unfold encoder_config. destruct Hc as (-> & -> & -> & -> & _). reflexivity.
Qed.

(** One pass of a manager whose switch states were read from the lines. *)
Lemma sample_tick_total (m : FirmwareManager.t) (w : World) (t : Q) :
  switch_states_read m ->
  exists m' evs,
    FirmwareManager.sample_tick m w t = Some (m', evs) /\
    switch_states_read m' /\
    map encoder_config (FirmwareManager.encoders m') =
      map encoder_config (FirmwareManager.encoders m).
Proof.
  intros [w0 Hsw]. unfold FirmwareManager.sample_tick.
  destruct (ButtonMonitor.check_and_emit (FirmwareManager.button_monitor m) w)
    as [bm evs_b].
  rewrite Hsw, switch_check_and_emit_spec.
  pose proof (update_all_config (FirmwareManager.encoders m) w t) as Hc.
  destruct (FirmwareManager.update_all (FirmwareManager.encoders m) w t)
    as [encs evs_e].
  eexists. eexists. split; [reflexivity|]. split; [now exists w | exact Hc].
Qed.

(** X3: the monitoring loop of a started manager never dies of a KeyError:
    every pass of every sequence of iterations returns, whatever the lines
    show (unreadable lines included).  The loop keeps the encoders it started
    with, in the same order and with the same ids and pins, and between
    passes every counter is the value last published for it. *)
Theorem X3_monitor_loop_never_raises (w0 : World) (ticks : list tick) :
  exists m evss,
    monitor_loop (FirmwareManager.init w0) ticks = Some (m, evss) /\
    List.length evss = List.length ticks /\
    map encoder_config (FirmwareManager.encoders m) =
      map encoder_config (FirmwareManager.setup_encoders w0) /\
    counters_published m.
Proof.
  assert (G : forall ticks m0,
             switch_states_read m0 -> counters_published m0 ->
             exists m evss,
               monitor_loop m0 ticks = Some (m, evss) /\
               List.length evss = List.length ticks /\
               map encoder_config (FirmwareManager.encoders m) =
                 map encoder_config (FirmwareManager.encoders m0) /\
               counters_published m).
  { clear. induction ticks as [|[w t] ticks IH]; intros m0 Hsw Hpub.
    - exists m0, []. auto.
    - destruct (sample_tick_total m0 w t Hsw) as (m1 & evs & Htick & Hsw1 & Hc1).
      pose proof (sample_tick_counters_published m0 m1 w t evs Hpub Htick) as Hpub1.
      destruct (IH m1 Hsw1 Hpub1) as (m & evss & Hloop & Hlen & Hc & Hp).
      exists m, (evs :: evss). cbn. rewrite Htick, Hloop.
      split; [reflexivity|]. split; [now rewrite Hlen|].
      split; [now rewrite Hc, Hc1 | exact Hp]. }
  apply G.
  - now exists w0.
  - apply init_counters_published.
Qed.

(** ** The events of one pass *)

Lemma emit_changed_length (self : SwitchMonitor.t)
  (current_states todo : dict SwitchMonitor.switch_state) (evs : list event) :
  SwitchMonitor.emit_changed self current_states todo = Some evs ->
  (List.length evs <= List.length todo)%nat /\
  Forall (fun ev => is_switch_change ev = true) evs.
Proof.
  revert evs. induction todo as [|[gpio_num st] todo IH]; intros evs; cbn.
  - intros H. inversion H. split; [auto | constructor].
  - destruct (dict_get current_states gpio_num) as [cur|]; [|discriminate].
    destruct (dict_get (SwitchMonitor.last_states self) gpio_num) as [last|];
      [|discriminate].
    destruct (status_ne _ _).
    + destruct (dict_get (SwitchMonitor.colors self) gpio_num) as [color|];
        [|discriminate].
      destruct (SwitchMonitor.emit_changed self current_states todo) as [evs'|];
        [|discriminate].
      cbn. intros H. inversion H; subst.
      destruct (IH evs' eq_refl) as [Hl Hf].
      split; [cbn; lia | constructor; [reflexivity | exact Hf]].
    + intros H. destruct (IH evs H) as [Hl Hf]. split; [lia | exact Hf].
Qed.

Lemma update_events_shape (e : RotaryEncoder.t) (w : World) (t : Q) :
  (List.length (snd (RotaryEncoder.update e w t)) <= 2)%nat /\
  Forall (fun ev => is_encoder_event ev = true) (snd (RotaryEncoder.update e w t)).
Proof.
  destruct (reads_cases e w) as [(a & b & btn & Ha & Hb & Hbtn) | Hfail].
  - rewrite (update_events e w t a b btn Ha Hb Hbtn).
    unfold counter_event, press_event.
    destruct (_ =? _), (press_accepted e btn t); cbn; split; auto;
      repeat constructor.
  - rewrite (update_read_fails e w t Hfail). cbn. split; [lia | constructor].
Qed.

Lemma update_all_events_shape (encoders : list RotaryEncoder.t) (w : World) (t : Q) :
  (List.length (snd (FirmwareManager.update_all encoders w t))
   <= 2 * List.length encoders)%nat /\
  Forall (fun ev => is_encoder_event ev = true)
         (snd (FirmwareManager.update_all encoders w t)).
Proof.
  induction encoders as [|e encoders [IHl IHf]]; [cbn; split; [lia | constructor]|].
  cbn. destruct (update_events_shape e w t) as [Hl Hf].
  destruct (RotaryEncoder.update e w t) as [e1 evs1].
  destruct (FirmwareManager.update_all encoders w t) as [rest evs].
  cbn in *. rewrite length_app. split; [lia|].
  apply Forall_app. split; assumption.
Qed.

(** The events of one pass of any manager, by kind and number: key events,
    then switch events, then encoder events. *)
Lemma pass_events_by_kind (m m' : FirmwareManager.t) (w : World) (t : Q)
  (evs : list event) :
  FirmwareManager.sample_tick m w t = Some (m', evs) ->
  exists evs_button evs_switch evs_enc,
    evs = evs_button ++ evs_switch ++ evs_enc /\
    (List.length evs_button <= 1)%nat /\
    Forall (fun ev => is_key_change ev = true) evs_button /\
    (List.length evs_switch
     <= List.length (SwitchMonitor.pins (FirmwareManager.switch_monitor m)))%nat /\
    Forall (fun ev => is_switch_change ev = true) evs_switch /\
    (List.length evs_enc <= 2 * List.length (FirmwareManager.encoders m))%nat /\
    Forall (fun ev => is_encoder_event ev = true) evs_enc.
Proof.
  unfold FirmwareManager.sample_tick. intros Htick.
  destruct (button_check_and_emit_spec (FirmwareManager.button_monitor m) w)
    as (_ & _ & Hb). cbv zeta in Hb.
  destruct (ButtonMonitor.check_and_emit (FirmwareManager.button_monitor m) w)
    as [bm evs_b]. cbn [snd] in Hb.
  unfold SwitchMonitor.check_and_emit in Htick.
  destruct (SwitchMonitor.emit_changed _ _ _) as [evs_s|] eqn:Es; [|discriminate].
  destruct (emit_changed_length _ _ _ _ Es) as [Hsl Hsf].
  destruct (update_all_events_shape (FirmwareManager.encoders m) w t) as [Hel Hef].
  destruct (FirmwareManager.update_all (FirmwareManager.encoders m) w t)
    as [encs evs_e]. cbn [snd] in Hel, Hef.
  injection Htick as Hm Hevs. subst evs m'.
  exists evs_b, evs_s, evs_e. split; [reflexivity|].
  assert (Hlen : List.length
                   (SwitchMonitor.get_switch_states (FirmwareManager.switch_monitor m) w)
                 = List.length (SwitchMonitor.pins (FirmwareManager.switch_monitor m))).
  { unfold SwitchMonitor.get_switch_states, SwitchMonitor.get_switch_states_of.
    apply length_map. }
  rewrite Hlen in Hsl.
  repeat split; try assumption.
  - rewrite Hb. destruct (status_ne _ _); cbn; lia.
  - rewrite Hb. destruct (status_ne _ _); repeat constructor.
Qed.


(** ** What a subscriber learns from the encoder events *)

Lemma tracked_value_app (v : Z) (evs1 evs2 : list event) :
  tracked_value v (evs1 ++ evs2) = tracked_value (tracked_value v evs1) evs2.
Proof. unfold tracked_value. apply fold_left_app. Qed.

Lemma update_tracked (e : RotaryEncoder.t) (w : World) (t : Q) :
  RotaryEncoder.last_counter e = RotaryEncoder.counter e ->
  RotaryEncoder.counter (fst (RotaryEncoder.update e w t)) =
    tracked_value (RotaryEncoder.counter e) (snd (RotaryEncoder.update e w t)).
Proof.
  intros Hsync.
  destruct (reads_cases e w) as [(a & b & btn & Ha & Hb & Hbtn) | Hfail].
  - rewrite (update_events e w t a b btn Ha Hb Hbtn), tracked_value_app, Hsync.
    unfold counter_event, press_event.
    destruct (_ =? _) eqn:E.
    + apply Z.eqb_eq in E. rewrite E. now destruct (press_accepted e btn t).
    + now destruct (press_accepted e btn t).
  - now rewrite (update_read_fails e w t Hfail).
Qed.

(** X5: a subscriber that keeps, for an encoder, the value of the last
    [encoder_change] it received holds the encoder's counter after every
    update: over any sequence of updates, the counter is the value tracked
    from the events emitted, starting from the counter published before. *)
Theorem X5_subscriber_tracks_counter (e : RotaryEncoder.t) (ticks : list tick) :
  RotaryEncoder.last_counter e = RotaryEncoder.counter e ->
  RotaryEncoder.counter (fst (run_updates e ticks)) =
    tracked_value (RotaryEncoder.counter e) (List.concat (snd (run_updates e ticks))).
Proof.
  revert e. induction ticks as [|[w t] ticks IH]; intros e Hsync; [reflexivity|].
  rewrite run_updates_cons. cbn [fst snd List.concat].
  rewrite tracked_value_app, <- (update_tracked e w t Hsync).
  apply IH, update_synced, Hsync.
Qed.

Lemma X5_subscriber_tracks_counter_witness :
  let ticks := (encoder_world 5 6 26 0 0 0, 1%Q) :: release_and_turn in
  List.concat (snd (run_updates encoder1_at_50 ticks)) =
    [encoder_change 1 0 "left"; encoder_button_press 1; encoder_change 1 1 "right"] /\
  RotaryEncoder.counter (fst (run_updates encoder1_at_50 ticks)) = 1.
Proof.
  cbv zeta. split; [reflexivity|].
  rewrite (X5_subscriber_tracks_counter encoder1_at_50
             ((encoder_world 5 6 26 0 0 0, 1%Q) :: release_and_turn) eq_refl).
  reflexivity.
Defined.

(** X6: an encoder event describes the encoder as the update leaves it.  An
    [encoder_change] carries the id of the encoder and the counter after the
    update, which differs from the value published before, with direction
    "right" when it is greater and "left" when it is smaller; an
    [encoder_button_press] carries the id of the encoder, whose counter is
    then 0. *)
Theorem X6_encoder_events_describe_state (e : RotaryEncoder.t) (w : World) (t : Q)
  (ev : event) :
  In ev (snd (RotaryEncoder.update e w t)) ->
  let e' := fst (RotaryEncoder.update e w t) in
  match ev with
  | encoder_change id value direction =>
      id = RotaryEncoder.encoder_id e /\
      value = RotaryEncoder.counter e' /\
      value <> RotaryEncoder.last_counter e /\
      direction = (if RotaryEncoder.last_counter e <? value
                   then "right"%string else "left"%string)
  | encoder_button_press id =>
      id = RotaryEncoder.encoder_id e /\ RotaryEncoder.counter e' = 0
  | _ => False
  end.
Proof.
  intros Hin e'. unfold e'.
  destruct (reads_cases e w) as [(a & b & btn & Ha & Hb & Hbtn) | Hfail].
  - pose proof (update_counter e w t a b btn Ha Hb Hbtn) as Hc. cbv zeta in Hc.
    rewrite (update_events e w t a b btn Ha Hb Hbtn) in Hin.
    unfold counter_event, press_event in Hin.
    apply in_app_or in Hin. destruct Hin as [Hin | Hin].
    + destruct (_ =? _) eqn:E; [contradiction|].
      destruct Hin as [<- | []]. apply Z.eqb_neq in E.
      repeat split; auto.
      replace (0 <? RotaryEncoder.counter (fst (RotaryEncoder.update e w t))
                    - RotaryEncoder.last_counter e)
        with (RotaryEncoder.last_counter e
              <? RotaryEncoder.counter (fst (RotaryEncoder.update e w t))).
      * reflexivity.
      * destruct (Z.ltb_spec (RotaryEncoder.last_counter e)
                    (RotaryEncoder.counter (fst (RotaryEncoder.update e w t))));
          symmetry; [apply Z.ltb_lt | apply Z.ltb_ge]; lia.
    + destruct (press_accepted e btn t) eqn:Ep; [|contradiction].
      destruct Hin as [<- | []]. split; [reflexivity | exact Hc].
  - rewrite (update_read_fails e w t Hfail) in Hin. contradiction.
Qed.

Lemma X6_encoder_events_describe_state_witness :
  RotaryEncoder.counter
    (fst (RotaryEncoder.update encoder1_at_50 (encoder_world 5 6 26 1 0 1) 1)) = 51 /\
  RotaryEncoder.counter
    (fst (RotaryEncoder.update encoder1_at_50 (encoder_world 5 6 26 0 0 0) 1)) = 0.
Proof.
  split.
  - pose proof (X6_encoder_events_describe_state encoder1_at_50
                  (encoder_world 5 6 26 1 0 1) 1 (encoder_change 1 51 "right")) as H.
    cbv zeta in H. destruct H as (_ & <- & _); [vm_compute; left; reflexivity | reflexivity].
  - pose proof (X6_encoder_events_describe_state encoder1_at_50
                  (encoder_world 5 6 26 0 0 0) 1 (encoder_button_press 1)) as H.
    cbv zeta in H.
    destruct H as (_ & H); [vm_compute; right; left; reflexivity | exact H].
Defined.

(** ** The state sent to a new client *)

Lemma dict_get_set_same {V : Type} (d : dict V) (k : Z) (v : V) :
  dict_get (dict_set d k v) k = Some v.
Proof.
  induction d as [|[k' v'] d IH]; cbn.
  - now rewrite Z.eqb_refl.
  - destruct (k' =? k) eqn:E; cbn; rewrite E; auto.
Qed.

Lemma dict_get_set_other {V : Type} (d : dict V) (k k' : Z) (v : V) :
  k' <> k -> dict_get (dict_set d k v) k' = dict_get d k'.
Proof.
  intros Hne. induction d as [|[k0 v0] d IH]; cbn.
  - destruct (k =? k') eqn:E; [apply Z.eqb_eq in E; congruence | reflexivity].
  - destruct (k0 =? k) eqn:E; cbn.
    + apply Z.eqb_eq in E. subst k0.
      destruct (k =? k') eqn:E'; [apply Z.eqb_eq in E'; congruence | reflexivity].
    + destruct (k0 =? k'); auto.
Qed.

Lemma keys_dict_set_new {V : Type} (d : dict V) (k : Z) (v : V) :
  ~ In k (keys d) -> keys (dict_set d k v) = keys d ++ [k].
Proof.
  induction d as [|[k' v'] d IH]; cbn; [reflexivity|].
  intros Hnin. destruct (k' =? k) eqn:E.
  - apply Z.eqb_eq in E. tauto.
  - cbn. f_equal. apply IH. tauto.
Qed.

Lemma encoder_values_spec (encoders : list RotaryEncoder.t) (acc : dict Z) :
  NoDup (keys acc ++ map RotaryEncoder.encoder_id encoders) ->
  let d := fold_left
             (fun d e => dict_set d (RotaryEncoder.encoder_id e) (RotaryEncoder.counter e))
             encoders acc in
  keys d = keys acc ++ map RotaryEncoder.encoder_id encoders /\
  (forall e, In e encoders ->
             dict_get d (RotaryEncoder.encoder_id e) = Some (RotaryEncoder.counter e)) /\
  (forall k, ~ In k (map RotaryEncoder.encoder_id encoders) ->
             dict_get d k = dict_get acc k).
Proof.
  revert acc. induction encoders as [|e encoders IH]; intros acc Hnd; cbn.
  - rewrite app_nil_r. repeat split; auto. contradiction.
  - assert (Hnin : ~ In (RotaryEncoder.encoder_id e) (keys acc)).
    { intros Hin. apply NoDup_remove_2 in Hnd. apply Hnd.
      apply in_or_app. now left. }
    assert (Hnin' : ~ In (RotaryEncoder.encoder_id e)
                         (map RotaryEncoder.encoder_id encoders)).
    { intros Hin. apply NoDup_remove_2 in Hnd. apply Hnd.
      apply in_or_app. now right. }
    specialize (IH (dict_set acc (RotaryEncoder.encoder_id e) (RotaryEncoder.counter e))).
    rewrite (keys_dict_set_new acc _ _ Hnin), <- app_assoc in IH. cbn in IH.
    destruct (IH Hnd) as (Hk & Hget & Hother).
    split; [exact Hk|]. split.
    + intros e0 [<- | Hin]; [|now apply Hget].
      rewrite (Hother _ Hnin'). apply dict_get_set_same.
    + intros k Hk'. rewrite Hother by tauto.
      apply dict_get_set_other. intros ->. tauto.
Qed.

(** X7: before the manager exists, a connecting client is sent nothing.  Once
    it runs, the client is sent one [initial_state], and the handler does not
    raise: the key and the three switches as the lines read at that moment,
    and one entry per encoder, in the order of the encoders, giving for each
    id the counter of that encoder. *)
Theorem X7_initial_state_of_a_started_manager (m : FirmwareManager.t) (w : World) :
  switch_states_read m ->
  NoDup (map RotaryEncoder.encoder_id (FirmwareManager.encoders m)) ->
  handle_connect None w = Some [] /\
  exists p,
    handle_connect (Some m) w = Some [p] /\
    initial_key p = ButtonMonitor.get_button_status (FirmwareManager.button_monitor m) w /\
    initial_switches p =
      [("green"%string, switch_status w 530); ("blue"%string, switch_status w 532);
       ("red"%string, switch_status w 533)] /\
    keys (initial_encoders p) =
      map RotaryEncoder.encoder_id (FirmwareManager.encoders m) /\
    (forall e, In e (FirmwareManager.encoders m) ->
       dict_get (initial_encoders p) (RotaryEncoder.encoder_id e)
       = Some (RotaryEncoder.counter e)).
Proof.
  intros [w0 Hsw] Hnd. split; [reflexivity|].
  unfold handle_connect. rewrite Hsw. cbn.
  eexists. split; [reflexivity|]. cbn.
  destruct (encoder_values_spec (FirmwareManager.encoders m) [] Hnd) as (Hk & Hget & _).
  repeat split; assumption.
Qed.

Lemma X7_initial_state_of_a_started_manager_witness :
  exists m,
    manager_idle = Some m /\
    handle_connect (Some m) (simple_world 0 "0") =
      Some [{| initial_key := Some false;
               initial_switches :=
                 [("green"%string, Some false); ("blue"%string, Some true);
                  ("red"%string, Some true)];
               initial_encoders := [(3, 0); (2, 0); (1, 0); (4, 0)] |}].
Proof.
  eexists. split; [reflexivity|].
  match goal with
  | |- handle_connect (Some ?m) ?w = _ =>
      destruct (X7_initial_state_of_a_started_manager m w) as (_ & p & Hp & _)
  end.
  - exists (const_world 1 "1"). reflexivity.
  - repeat (constructor; [cbn; intuition discriminate|]). constructor.
  - reflexivity.
Defined.

(** ** The two encoders side by side *)

Lemma as_debug_read_button (e : RotaryEncoder.t) (w : World) :
  InputsDebug.RotaryEncoder.read_button (as_debug_encoder e) w =
  RotaryEncoder.read_button e w.
Proof. reflexivity. Qed.

Lemma as_debug_check_a_changed (a b : Z) (t : Q) (e : RotaryEncoder.t) :
  0 <= RotaryEncoder.counter (RotaryEncoder.check_a_changed a b t e) ->
  InputsDebug.RotaryEncoder.check_a_changed a b t (as_debug_encoder e) =
  as_debug_encoder (RotaryEncoder.check_a_changed a b t e).
Proof.
  destruct e.
  unfold InputsDebug.RotaryEncoder.check_a_changed, RotaryEncoder.check_a_changed,
    as_debug_encoder.
  unfold_setters. cbn.
  destruct (negb (a =? last_a)); [|reflexivity].
  destruct (elapsed_gt t last_encoder_time encoder_debounce_delay); [|reflexivity].
  destruct (a =? 1), (b =? 0), (b =? 1); cbn; intros Hpos.
  all: match goal with
       | |- context [?c <? 0] =>
           destruct (Z.ltb_spec c 0); [lia | reflexivity]
       end.
Qed.

Lemma as_debug_check_button (btn : Z) (t : Q) (e : RotaryEncoder.t) :
  InputsDebug.RotaryEncoder.check_button btn t (as_debug_encoder e) =
  as_debug_encoder (fst (RotaryEncoder.check_button btn t e)).
Proof.
  destruct e.
  unfold InputsDebug.RotaryEncoder.check_button, RotaryEncoder.check_button,
    as_debug_encoder.
  unfold_setters. cbn.
  destruct (truthy pin_button); [|reflexivity].
  destruct ((btn =? 0) && (last_button =? 1)); [|reflexivity].
  destruct (elapsed_gt t last_button_time button_debounce_delay); reflexivity.
Qed.

(** X8: the update of inputs_debug.py and the update of socket_server.py are
    the same decoder and the same button handling: on an encoder in the same
    state and over the same levels they leave the same counter, stored levels
    and times, as long as the decoder does not step below 0 (where only
    inputs_debug.py holds the counter at 0). *)
Theorem X8_updates_agree_above_zero (e : RotaryEncoder.t) (w : World) (t : Q) :
  0 <= decoded_counter e w t ->
  InputsDebug.RotaryEncoder.update (as_debug_encoder e) w t =
  as_debug_encoder (fst (RotaryEncoder.update e w t)).
Proof.
  intros Hpos. unfold decoded_counter in Hpos.
  unfold InputsDebug.RotaryEncoder.update. rewrite as_debug_read_button.
  destruct (reads_cases e w) as [(a & b & btn & Ha & Hb & Hbtn) | Hfail].
  - rewrite (update_reads_ok e w t a b btn Ha Hb Hbtn).
    change (InputsDebug.RotaryEncoder.pin_a (as_debug_encoder e))
      with (RotaryEncoder.pin_a e).
    change (InputsDebug.RotaryEncoder.pin_b (as_debug_encoder e))
      with (RotaryEncoder.pin_b e).
    rewrite Ha, Hb, Hbtn in *. cbv zeta. cbn [fst].
    rewrite (as_debug_check_a_changed a b t e Hpos).
    rewrite emit_counter_changed_frame.
    change (InputsDebug.RotaryEncoder.set_last_b b
              (as_debug_encoder (RotaryEncoder.check_a_changed a b t e)))
      with (as_debug_encoder
              (RotaryEncoder.set_last_b b (RotaryEncoder.check_a_changed a b t e))).
    rewrite as_debug_check_button.
    destruct (fst (RotaryEncoder.check_button btn t _)). reflexivity.
  - rewrite (update_read_fails e w t Hfail). cbn [fst].
    change (InputsDebug.RotaryEncoder.pin_a (as_debug_encoder e))
      with (RotaryEncoder.pin_a e).
    change (InputsDebug.RotaryEncoder.pin_b (as_debug_encoder e))
      with (RotaryEncoder.pin_b e).
    destruct Hfail as [H | [H | H]]; rewrite H.
    + reflexivity.
    + now destruct (gpio_input w (RotaryEncoder.pin_a e)).
    + destruct (gpio_input w (RotaryEncoder.pin_a e)); [|reflexivity].
      now destruct (gpio_input w (RotaryEncoder.pin_b e)).
Qed.

Lemma X8_updates_agree_above_zero_witness :
  InputsDebug.RotaryEncoder.update (as_debug_encoder encoder1_at_50)
    (encoder_world 5 6 26 1 1 0) 1 =
  as_debug_encoder
    (fst (RotaryEncoder.update encoder1_at_50 (encoder_world 5 6 26 1 1 0) 1)).
Proof.
  apply X8_updates_agree_above_zero. vm_compute. discriminate.
Defined.

(** ** The main loop of inputs_debug.py *)

(** An update of inputs_debug.py that reads what the encoder stored writes
    nothing. *)
Lemma debug_update_unchanged (e : InputsDebug.RotaryEncoder.t) (w : World) (t : Q)
  (btn : Z) :
  gpio_input w (InputsDebug.RotaryEncoder.pin_a e) = Some (InputsDebug.RotaryEncoder.last_a e) ->
  gpio_input w (InputsDebug.RotaryEncoder.pin_b e) = Some (InputsDebug.RotaryEncoder.last_b e) ->
  InputsDebug.RotaryEncoder.read_button e w = Some btn ->
  (truthy (InputsDebug.RotaryEncoder.pin_button e) = true ->
   btn = InputsDebug.RotaryEncoder.last_button e) ->
  InputsDebug.RotaryEncoder.update e w t = e.
Proof.
  intros Ha Hb Hbtn Hsame.
  unfold InputsDebug.RotaryEncoder.update. rewrite Ha, Hb, Hbtn. cbv zeta.
  destruct e. cbn in *.
  unfold InputsDebug.RotaryEncoder.check_a_changed. cbn. rewrite Z.eqb_refl. cbn.
  unfold InputsDebug.RotaryEncoder.check_button. cbn.
  destruct (truthy pin_button) eqn:Etr; [|reflexivity].
  rewrite (Hsame eq_refl).
  assert (E : (last_button =? 0) && (last_button =? 1) = false).
  { destruct (last_button =? 0) eqn:E0; [|reflexivity].
    apply Z.eqb_eq in E0. now subst. }
  rewrite E. reflexivity.
Qed.

(** What the two blocks of the update of inputs_debug.py write and leave. *)
Lemma debug_check_a_changed_frame (a b : Z) (t : Q) (e : InputsDebug.RotaryEncoder.t) :
  let e' := InputsDebug.RotaryEncoder.check_a_changed a b t e in
  InputsDebug.RotaryEncoder.encoder_id e' = InputsDebug.RotaryEncoder.encoder_id e /\
  InputsDebug.RotaryEncoder.pin_a e' = InputsDebug.RotaryEncoder.pin_a e /\
  InputsDebug.RotaryEncoder.pin_b e' = InputsDebug.RotaryEncoder.pin_b e /\
  InputsDebug.RotaryEncoder.pin_button e' = InputsDebug.RotaryEncoder.pin_button e /\
  InputsDebug.RotaryEncoder.last_button e' = InputsDebug.RotaryEncoder.last_button e /\
  InputsDebug.RotaryEncoder.last_a e' = a.
Proof.
  destruct e; unfold InputsDebug.RotaryEncoder.check_a_changed; debug_cases.
  repeat split; try reflexivity.
  match goal with
  | H : negb (a =? _) = false |- _ => apply negb_false_iff, Z.eqb_eq in H; now subst
  end.
Qed.

Lemma debug_check_button_frame (btn : Z) (t : Q) (e : InputsDebug.RotaryEncoder.t) :
  let e' := InputsDebug.RotaryEncoder.check_button btn t e in
  InputsDebug.RotaryEncoder.encoder_id e' = InputsDebug.RotaryEncoder.encoder_id e /\
  InputsDebug.RotaryEncoder.pin_a e' = InputsDebug.RotaryEncoder.pin_a e /\
  InputsDebug.RotaryEncoder.pin_b e' = InputsDebug.RotaryEncoder.pin_b e /\
  InputsDebug.RotaryEncoder.pin_button e' = InputsDebug.RotaryEncoder.pin_button e /\
  InputsDebug.RotaryEncoder.last_a e' = InputsDebug.RotaryEncoder.last_a e /\
  InputsDebug.RotaryEncoder.last_b e' = InputsDebug.RotaryEncoder.last_b e /\
  (truthy (InputsDebug.RotaryEncoder.pin_button e) = true ->
   InputsDebug.RotaryEncoder.last_button e' = btn).
Proof.
  destruct e; unfold InputsDebug.RotaryEncoder.check_button; debug_cases.
  all: repeat split; try reflexivity; discriminate.
Qed.

(** With its reads successful, the update of inputs_debug.py is its blocks in
    a row. *)
Lemma debug_update_reads_ok (e : InputsDebug.RotaryEncoder.t) (w : World) (t : Q)
  (a b btn : Z) :
  gpio_input w (InputsDebug.RotaryEncoder.pin_a e) = Some a ->
  gpio_input w (InputsDebug.RotaryEncoder.pin_b e) = Some b ->
  InputsDebug.RotaryEncoder.read_button e w = Some btn ->
  InputsDebug.RotaryEncoder.update e w t =
    InputsDebug.RotaryEncoder.check_button btn t
      (InputsDebug.RotaryEncoder.set_last_b b
         (InputsDebug.RotaryEncoder.check_a_changed a b t e)).
Proof.
  intros Ha Hb Hbtn. unfold InputsDebug.RotaryEncoder.update.
  now rewrite Ha, Hb, Hbtn.
Qed.

(** What an update of inputs_debug.py whose reads succeed stores. *)
Lemma debug_update_stores (e : InputsDebug.RotaryEncoder.t) (w : World) (t : Q)
  (a b btn : Z) :
  gpio_input w (InputsDebug.RotaryEncoder.pin_a e) = Some a ->
  gpio_input w (InputsDebug.RotaryEncoder.pin_b e) = Some b ->
  InputsDebug.RotaryEncoder.read_button e w = Some btn ->
  let e' := InputsDebug.RotaryEncoder.update e w t in
  InputsDebug.RotaryEncoder.last_a e' = a /\
  InputsDebug.RotaryEncoder.last_b e' = b /\
  (truthy (InputsDebug.RotaryEncoder.pin_button e) = true ->
   InputsDebug.RotaryEncoder.last_button e' = btn).
Proof.
  intros Ha Hb Hbtn. cbv zeta.
  rewrite (debug_update_reads_ok e w t a b btn Ha Hb Hbtn).
  pose proof (debug_check_a_changed_frame a b t e) as F1. cbv zeta in F1.
  destruct F1 as (_ & _ & _ & Hpb1 & _ & Hla1).
  pose proof (debug_check_button_frame btn t
    (InputsDebug.RotaryEncoder.set_last_b b
       (InputsDebug.RotaryEncoder.check_a_changed a b t e))) as F2.
  cbv zeta in F2. destruct F2 as (_ & _ & _ & _ & -> & -> & Hlb).
  split; [exact Hla1|]. split; [reflexivity|].
  intros Htr. apply Hlb. cbn. rewrite Hpb1. exact Htr.
Qed.

Lemma debug_update_config (e : InputsDebug.RotaryEncoder.t) (w : World) (t : Q) :
  let e' := InputsDebug.RotaryEncoder.update e w t in
  InputsDebug.RotaryEncoder.encoder_id e' = InputsDebug.RotaryEncoder.encoder_id e /\
  InputsDebug.RotaryEncoder.pin_a e' = InputsDebug.RotaryEncoder.pin_a e /\
  InputsDebug.RotaryEncoder.pin_b e' = InputsDebug.RotaryEncoder.pin_b e /\
  InputsDebug.RotaryEncoder.pin_button e' = InputsDebug.RotaryEncoder.pin_button e.
Proof.
  cbv zeta.
  destruct (gpio_input w (InputsDebug.RotaryEncoder.pin_a e)) as [a|] eqn:Ha.
  2:{ unfold InputsDebug.RotaryEncoder.update. rewrite Ha. auto. }
  destruct (gpio_input w (InputsDebug.RotaryEncoder.pin_b e)) as [b|] eqn:Hb.
  2:{ unfold InputsDebug.RotaryEncoder.update. rewrite Ha, Hb. auto. }
  destruct (InputsDebug.RotaryEncoder.read_button e w) as [btn|] eqn:Hbtn.
  2:{ unfold InputsDebug.RotaryEncoder.update. rewrite Ha, Hb, Hbtn. auto. }
  rewrite (debug_update_reads_ok e w t a b btn Ha Hb Hbtn).
  pose proof (debug_check_a_changed_frame a b t e) as F1. cbv zeta in F1.
  pose proof (debug_check_button_frame btn t
    (InputsDebug.RotaryEncoder.set_last_b b
       (InputsDebug.RotaryEncoder.check_a_changed a b t e))) as F2.
  cbv zeta in F2. destruct F2 as (-> & -> & -> & -> & _). cbn. tauto.
Qed.

(** A second update of inputs_debug.py over the same levels writes nothing. *)
Lemma debug_update_twice (e : InputsDebug.RotaryEncoder.t) (w : World) (t1 t2 : Q) :
  InputsDebug.RotaryEncoder.update (InputsDebug.RotaryEncoder.update e w t1) w t2 =
  InputsDebug.RotaryEncoder.update e w t1.
Proof.
  destruct (debug_update_config e w t1) as (_ & Hpa & Hpb & Hpbtn).
  destruct (gpio_input w (InputsDebug.RotaryEncoder.pin_a e)) as [a|] eqn:Ha.
  2:{ unfold InputsDebug.RotaryEncoder.update at 2 3. rewrite Ha.
      unfold InputsDebug.RotaryEncoder.update. now rewrite Ha. }
  destruct (gpio_input w (InputsDebug.RotaryEncoder.pin_b e)) as [b|] eqn:Hb.
  2:{ unfold InputsDebug.RotaryEncoder.update at 2 3. rewrite Ha, Hb.
      unfold InputsDebug.RotaryEncoder.update. now rewrite Ha, Hb. }
  destruct (InputsDebug.RotaryEncoder.read_button e w) as [btn|] eqn:Hbtn.
  2:{ unfold InputsDebug.RotaryEncoder.update at 2 3. rewrite Ha, Hb, Hbtn.
      unfold InputsDebug.RotaryEncoder.update. now rewrite Ha, Hb, Hbtn. }
  destruct (debug_update_stores e w t1 a b btn Ha Hb Hbtn) as (Hla & Hlb & Hlbtn).
  apply (debug_update_unchanged _ w t2 btn).
  - now rewrite Hpa, Hla.
  - now rewrite Hpb, Hlb.
  - unfold InputsDebug.RotaryEncoder.read_button in *. now rewrite Hpbtn.
  - rewrite Hpbtn. intros Htr. symmetry. now apply Hlbtn.
Qed.

Lemma list_eqb_refl {A : Type} (eqb : A -> A -> bool) (l : list A) :
  (forall x, eqb x x = true) -> DebugApp.FirmwareManager.list_eqb eqb l l = true.
Proof.
  intros Hrefl. induction l as [|x l IH]; [reflexivity|].
  cbn. now rewrite Hrefl, IH.
Qed.

Lemma display_state_eqb_refl (x : DebugApp.FirmwareManager.display_state) :
  DebugApp.FirmwareManager.display_state_eqb x x = true.
Proof.
  destruct x as [[button switches] encoders]. cbn.
  rewrite String.eqb_refl. rewrite !list_eqb_refl; auto using Z.eqb_refl.
  intros [k [v s]]. unfold DebugApp.FirmwareManager.switch_state_eqb. cbn.
  now rewrite Z.eqb_refl, !String.eqb_refl.
Qed.

(** [display_status] keeps the monitors and the encoders, and leaves as last
    displayed state one that equals the current state. *)
Lemma display_status_spec (self : DebugApp.FirmwareManager.t) (w : World) :
  let self' := fst (DebugApp.FirmwareManager.display_status self w) in
  DebugApp.FirmwareManager.switch_monitor self' =
    DebugApp.FirmwareManager.switch_monitor self /\
  DebugApp.FirmwareManager.button_monitor self' =
    DebugApp.FirmwareManager.button_monitor self /\
  DebugApp.FirmwareManager.encoders self' = DebugApp.FirmwareManager.encoders self /\
  exists last,
    DebugApp.FirmwareManager.last_display_state self' = Some last /\
    DebugApp.FirmwareManager.display_state_eqb
      (DebugApp.FirmwareManager.get_current_state self w) last = true.
Proof.
  unfold DebugApp.FirmwareManager.display_status. cbv zeta.
  destruct (DebugApp.FirmwareManager.last_display_state self) as [last|] eqn:El.
  - destruct (DebugApp.FirmwareManager.display_state_eqb _ last) eqn:E;
      cbn [fst DebugApp.FirmwareManager.switch_monitor
           DebugApp.FirmwareManager.button_monitor DebugApp.FirmwareManager.encoders
           DebugApp.FirmwareManager.last_display_state].
    + repeat split; auto. exists last. auto.
    + repeat split; auto. eexists. split; [reflexivity|].
      apply display_state_eqb_refl.
  - cbn [fst DebugApp.FirmwareManager.switch_monitor
         DebugApp.FirmwareManager.button_monitor DebugApp.FirmwareManager.encoders
         DebugApp.FirmwareManager.last_display_state].
    repeat split; auto. eexists. split; [reflexivity|].
    apply display_state_eqb_refl.
Qed.

(** X9: in the main loop of inputs_debug.py, the second of two iterations over
    the same levels changes no encoder and does not redraw the screen,
    whatever the first one did and whatever time has passed. *)
Theorem X9_debug_second_iteration_is_idle (m : DebugApp.FirmwareManager.t)
  (w : World) (t1 t2 : Q) :
  DebugApp.FirmwareManager.main_iteration
    (fst (DebugApp.FirmwareManager.main_iteration m w t1)) w t2 =
  (fst (DebugApp.FirmwareManager.main_iteration m w t1), false).
Proof.
  assert (Htwice : forall es,
            map (fun encoder => InputsDebug.RotaryEncoder.update encoder w t2)
                (map (fun encoder => InputsDebug.RotaryEncoder.update encoder w t1) es)
            = map (fun encoder => InputsDebug.RotaryEncoder.update encoder w t1) es).
  { intros es. rewrite map_map. apply map_ext. intros e. apply debug_update_twice. }
  unfold DebugApp.FirmwareManager.main_iteration at 2 3.
  match goal with
  | |- context [DebugApp.FirmwareManager.display_status ?x w] =>
      pose proof (display_status_spec x w) as H; cbv zeta in H;
      destruct (fst (DebugApp.FirmwareManager.display_status x w)) as [sm bm es lds]
  end.
  unfold DebugApp.FirmwareManager.get_current_state in H.
  cbn [DebugApp.FirmwareManager.switch_monitor DebugApp.FirmwareManager.button_monitor
       DebugApp.FirmwareManager.encoders DebugApp.FirmwareManager.last_display_state]
    in H.
  destruct H as (-> & -> & -> & last & -> & E).
  unfold DebugApp.FirmwareManager.main_iteration,
    DebugApp.FirmwareManager.display_status,
    DebugApp.FirmwareManager.get_current_state.
  cbn [DebugApp.FirmwareManager.switch_monitor DebugApp.FirmwareManager.button_monitor
       DebugApp.FirmwareManager.encoders DebugApp.FirmwareManager.last_display_state].
  rewrite Htwice, E. reflexivity.
Qed.


Lemma list_eqb_eq {A : Type} (eqb : A -> A -> bool) (l1 l2 : list A) :
  (forall x y, eqb x y = true -> x = y) ->
  DebugApp.FirmwareManager.list_eqb eqb l1 l2 = true -> l1 = l2.
Proof.
  intros Heq. revert l2. induction l1 as [|x l1 IH]; intros [|y l2]; cbn;
    try discriminate; [reflexivity|].
  intros H. apply andb_true_iff in H. destruct H as [Hx Hl].
  f_equal; [now apply Heq | now apply IH].
Qed.

Lemma display_state_eqb_eq (x y : DebugApp.FirmwareManager.display_state) :
  DebugApp.FirmwareManager.display_state_eqb x y = true -> x = y.
Proof.
  destruct x as [[bx sx] ex], y as [[by' sy] ey]. cbn. intros H.
  apply andb_true_iff in H. destruct H as [H He].
  apply andb_true_iff in H. destruct H as [Hb Hs].
  apply String.eqb_eq in Hb.
  apply list_eqb_eq in He; [|intros; now apply Z.eqb_eq].
  apply list_eqb_eq in Hs.
  - congruence.
  - intros [k1 [v1 s1]] [k2 [v2 s2]].
    unfold DebugApp.FirmwareManager.switch_state_eqb. cbn. intros H.
    apply andb_true_iff in H. destruct H as [Hk H].
    apply andb_true_iff in H. destruct H as [Hv Hst].
    apply Z.eqb_eq in Hk. apply String.eqb_eq in Hv. apply String.eqb_eq in Hst.
    congruence.
Qed.

(** One iteration of the main loop updates every encoder and keeps the list. *)
Lemma main_iteration_encoders (m : DebugApp.FirmwareManager.t) (w : World) (t : Q) :
  DebugApp.FirmwareManager.encoders
    (fst (DebugApp.FirmwareManager.main_iteration m w t)) =
  map (fun encoder => InputsDebug.RotaryEncoder.update encoder w t)
      (DebugApp.FirmwareManager.encoders m).
Proof.
  unfold DebugApp.FirmwareManager.main_iteration.
  match goal with
  | |- context [DebugApp.FirmwareManager.display_status ?x w] =>
      destruct (display_status_spec x w) as (_ & _ & -> & _)
  end.
  reflexivity.
Qed.

(** X10: the screen of inputs_debug.py is never stale: after every iteration
    of the main loop, redrawn or not, the state last drawn is the state of the
    button, the switches and the counters as that iteration left them. *)
Theorem X10_debug_display_is_current (m : DebugApp.FirmwareManager.t) (w : World)
  (t : Q) :
  let m' := fst (DebugApp.FirmwareManager.main_iteration m w t) in
  DebugApp.FirmwareManager.last_display_state m' =
    Some (DebugApp.FirmwareManager.get_current_state m' w) /\
  DebugApp.FirmwareManager.encoders m' =
    map (fun encoder => InputsDebug.RotaryEncoder.update encoder w t)
        (DebugApp.FirmwareManager.encoders m).
Proof.
  cbv zeta. unfold DebugApp.FirmwareManager.main_iteration.
  match goal with
  | |- context [DebugApp.FirmwareManager.display_status ?x w] =>
      pose proof (display_status_spec x w) as H; cbv zeta in H;
      destruct (fst (DebugApp.FirmwareManager.display_status x w)) as [sm bm es lds]
  end.
  unfold DebugApp.FirmwareManager.get_current_state in *.
  cbn [DebugApp.FirmwareManager.switch_monitor DebugApp.FirmwareManager.button_monitor
       DebugApp.FirmwareManager.encoders DebugApp.FirmwareManager.last_display_state]
    in *.
  destruct H as (-> & -> & -> & last & -> & E).
  apply display_state_eqb_eq in E. rewrite E. auto.
Qed.

Lemma debug_setup_gpio_counter (e e' : InputsDebug.RotaryEncoder.t) (w : World) :
  DebugApp.RotaryEncoder.setup_gpio e w = Some e' ->
  InputsDebug.RotaryEncoder.counter e' = InputsDebug.RotaryEncoder.counter e /\
  InputsDebug.RotaryEncoder.encoder_id e' = InputsDebug.RotaryEncoder.encoder_id e.
Proof.
  unfold DebugApp.RotaryEncoder.setup_gpio. intros Hsetup.
  repeat match type of Hsetup with
         | (if ?c then _ else _) = _ => destruct c; [discriminate|]
         | match ?x with _ => _ end = _ => destruct x; [|discriminate]
         end.
  inversion Hsetup; subst. destruct e. auto.
Qed.

Lemma debug_setup_encoders_nonneg (configs : list (Z * Z * Z * option Z)) (w : World) :
  Forall (fun e => 0 <= InputsDebug.RotaryEncoder.counter e)
         (DebugApp.FirmwareManager.setup_encoders_of configs w).
Proof.
  induction configs as [|[[[id pa] pb] pbtn] configs IH]; [constructor|].
  cbn. destruct (DebugApp.RotaryEncoder.setup_gpio _ w) as [e'|] eqn:E; [|exact IH].
  constructor; [|exact IH].
  destruct (debug_setup_gpio_counter _ _ _ E) as [-> _]. cbn. lia.
Qed.

(** X11: in inputs_debug.py no counter is ever negative: after start-up and
    any number of iterations of the main loop, whatever the lines show, every
    encoder of the manager has a counter of at least 0, and the loop has kept
    the encoders it started with, in order. *)
Theorem X11_debug_counters_never_negative (w0 : World) (ticks : list tick) :
  let m := fst (DebugApp.FirmwareManager.main_loop (DebugApp.FirmwareManager.init w0) ticks) in
  Forall (fun e => 0 <= InputsDebug.RotaryEncoder.counter e)
         (DebugApp.FirmwareManager.encoders m) /\
  map InputsDebug.RotaryEncoder.encoder_id (DebugApp.FirmwareManager.encoders m) =
  map InputsDebug.RotaryEncoder.encoder_id
      (DebugApp.FirmwareManager.encoders (DebugApp.FirmwareManager.init w0)).
Proof.
  cbv zeta.
  assert (G : forall ticks m0,
             Forall (fun e => 0 <= InputsDebug.RotaryEncoder.counter e)
                    (DebugApp.FirmwareManager.encoders m0) ->
             Forall (fun e => 0 <= InputsDebug.RotaryEncoder.counter e)
                    (DebugApp.FirmwareManager.encoders
                       (fst (DebugApp.FirmwareManager.main_loop m0 ticks))) /\
             map InputsDebug.RotaryEncoder.encoder_id
                 (DebugApp.FirmwareManager.encoders
                    (fst (DebugApp.FirmwareManager.main_loop m0 ticks))) =
             map InputsDebug.RotaryEncoder.encoder_id
                 (DebugApp.FirmwareManager.encoders m0)).
  { clear. induction ticks as [|[w t] ticks IH]; intros m0 Hpos; [cbn; auto|].
    cbn [DebugApp.FirmwareManager.main_loop].
    pose proof (main_iteration_encoders m0 w t) as Henc.
    destruct (DebugApp.FirmwareManager.main_iteration m0 w t) as [m1 redrawn].
    cbn [fst] in Henc.
    assert (Hpos1 : Forall (fun e => 0 <= InputsDebug.RotaryEncoder.counter e)
                           (DebugApp.FirmwareManager.encoders m1)).
    { rewrite Henc. apply Forall_map. eapply Forall_impl; [|exact Hpos].
      intros e He. now apply debug_update_nonneg. }
    destruct (IH m1 Hpos1) as [IHp IHid].
    destruct (DebugApp.FirmwareManager.main_loop m1 ticks) as [m2 redraws].
    cbn [fst] in *. split; [exact IHp|]. rewrite IHid, Henc, map_map.
    apply map_ext. intros e. apply debug_update_config. }
  apply G. apply debug_setup_encoders_nonneg.
Qed.

(** ** mac_simulator.py *)

Lemma keys_dict_set_present {V : Type} (d : dict V) (k : Z) (v : V) :
  In k (keys d) -> keys (dict_set d k v) = keys d.
Proof.
  induction d as [|[k' v'] d IH]; cbn; [contradiction|].
  intros Hin. destruct (k' =? k) eqn:E; [reflexivity|].
  cbn. f_equal. apply IH. destruct Hin as [-> | Hin]; [|exact Hin].
  rewrite Z.eqb_refl in E. discriminate.
Qed.

Lemma dict_set_set {V : Type} (d : dict V) (k : Z) (v v' : V) :
  dict_set (dict_set d k v) k v' = dict_set d k v'.
Proof.
  induction d as [|[k0 v0] d IH]; cbn.
  - now rewrite Z.eqb_refl.
  - destruct (k0 =? k) eqn:E; cbn; rewrite E; [reflexivity | now rewrite IH].
Qed.

Lemma dict_set_get {V : Type} (d : dict V) (k : Z) (v : V) :
  dict_get d k = Some v -> dict_set d k v = d.
Proof.
  induction d as [|[k0 v0] d IH]; cbn; [discriminate|].
  destruct (k0 =? k) eqn:E.
  - intros H. now inversion H.
  - intros H. now rewrite IH.
Qed.

Lemma sdict_keys_set_present {V : Type} (d : sdict V) (k : string) (v : V) :
  In k (map fst d) -> map fst (sdict_set d k v) = map fst d.
Proof.
  induction d as [|[k' v'] d IH]; cbn; [contradiction|].
  intros Hin. destruct (String.eqb k' k) eqn:E; [reflexivity|].
  cbn. f_equal. apply IH. destruct Hin as [-> | Hin]; [|exact Hin].
  rewrite String.eqb_refl in E. discriminate.
Qed.

Lemma sdict_get_key {V : Type} (d : sdict V) (k : string) :
  In k (map fst d) -> exists v, sdict_get d k = Some v.
Proof.
  induction d as [|[k' v] d IH]; cbn; [contradiction|].
  intros [-> | Hin].
  - rewrite String.eqb_refl. eauto.
  - destruct (String.eqb k' k); eauto.
Qed.

Lemma sdict_set_map {A B : Type} (f : A -> B) (d : sdict A) (k : string) (v : A) :
  map (fun '(c, a) => (c, f a)) (sdict_set d k v) =
  sdict_set (map (fun '(c, a) => (c, f a)) d) k (f v).
Proof.
  induction d as [|[k' v'] d IH]; cbn; [reflexivity|].
  destruct (String.eqb k' k); cbn; [reflexivity | now rewrite IH].
Qed.

(** The three kinds of key of a complete simulator. *)
Lemma toggle_switch_complete (color : string) (s : MacSimulator.t) :
  simulator_complete s ->
  In color ["green"%string; "blue"%string; "red"%string] ->
  exists s' ev,
    MacSimulator.toggle_switch color s = MacSimulator.Continue s' [ev] /\
    simulator_complete s'.
Proof.
  intros [He Hs] Hin. unfold MacSimulator.toggle_switch.
  rewrite <- Hs in Hin.
  destruct (sdict_get_key _ _ Hin) as [active ->]. cbn.
  eexists. eexists. split; [reflexivity|].
  unfold simulator_complete. cbn [MacSimulator.encoders MacSimulator.switches].
  split; [exact He|]. now rewrite sdict_keys_set_present.
Qed.

Lemma turn_complete (encoder_id delta : Z) (s : MacSimulator.t) :
  simulator_complete s ->
  In encoder_id [1; 2; 3; 4] ->
  exists s' ev,
    MacSimulator.turn encoder_id delta s = MacSimulator.Continue s' [ev] /\
    simulator_complete s'.
Proof.
  intros [He Hs] Hin. unfold MacSimulator.turn, MacSimulator.emit_encoder_change.
  rewrite <- He in Hin.
  destruct (dict_get_key _ _ Hin) as [old ->]. cbn.
  eexists. eexists. split; [reflexivity|].
  unfold simulator_complete. cbn [MacSimulator.encoders MacSimulator.switches].
  split; [|exact Hs]. now rewrite keys_dict_set_present.
Qed.

Lemma press_complete (encoder_id : Z) (s : MacSimulator.t) :
  simulator_complete s ->
  In encoder_id [1; 2; 3; 4] ->
  exists s' ev,
    MacSimulator.press encoder_id s = MacSimulator.Continue s' [ev] /\
    simulator_complete s'.
Proof.
  intros [He Hs] Hin. unfold MacSimulator.press. cbn.
  eexists. eexists. split; [reflexivity|].
  unfold simulator_complete. cbn [MacSimulator.encoders MacSimulator.switches].
  split; [|exact Hs]. rewrite <- He in Hin. now rewrite keys_dict_set_present.
Qed.

Lemma render_encoders_complete (s : MacSimulator.t) :
  simulator_complete s -> MacSimulator.render_encoders s = true.
Proof.
  intros [He _]. unfold MacSimulator.render_encoders.
  apply forallb_forall. intros k Hin. rewrite <- He in Hin.
  now destruct (dict_get_key _ _ Hin) as [v ->].
Qed.

(** One iteration of the loop of a complete simulator goes on with at most one
    event, or ends on ESC. *)
Lemma iteration_complete (height width key : Z) (s : MacSimulator.t) :
  simulator_complete s ->
  MacSimulator.iteration height width key s = MacSimulator.Break \/
  exists s' evs,
    MacSimulator.iteration height width key s = MacSimulator.Continue s' evs /\
    simulator_complete s' /\ (List.length evs <= 1)%nat.
Proof.
  intros Hc. unfold MacSimulator.iteration.
  destruct ((height <? 20) || (width <? 50)).
  { destruct (key =? 27); [now left|]. right. exists s, []. cbn. auto. }
  assert (Hrs : MacSimulator.render_switches s = true).
  { unfold MacSimulator.render_switches. destruct Hc as [_ Hs].
    rewrite <- (length_map fst), Hs. reflexivity. }
  rewrite Hrs, (render_encoders_complete s Hc). cbn [negb].
  unfold MacSimulator.handle_input.
  assert (Hsw : forall c, In c ["green"%string; "blue"%string; "red"%string] ->
                  MacSimulator.toggle_switch c s = MacSimulator.Break \/
                  exists s' evs,
                    MacSimulator.toggle_switch c s = MacSimulator.Continue s' evs /\
                    simulator_complete s' /\ (List.length evs <= 1)%nat).
  { intros c Hin. right.
    destruct (toggle_switch_complete c s Hc Hin) as (s' & ev & -> & Hc').
    exists s', [ev]. cbn. auto. }
  assert (Htu : forall k d, In k [1; 2; 3; 4] ->
                  MacSimulator.turn k d s = MacSimulator.Break \/
                  exists s' evs,
                    MacSimulator.turn k d s = MacSimulator.Continue s' evs /\
                    simulator_complete s' /\ (List.length evs <= 1)%nat).
  { intros k d Hin. right.
    destruct (turn_complete k d s Hc Hin) as (s' & ev & -> & Hc').
    exists s', [ev]. cbn. auto. }
  assert (Hpr : forall k, In k [1; 2; 3; 4] ->
                  MacSimulator.press k s = MacSimulator.Break \/
                  exists s' evs,
                    MacSimulator.press k s = MacSimulator.Continue s' evs /\
                    simulator_complete s' /\ (List.length evs <= 1)%nat).
  { intros k Hin. right.
    destruct (press_complete k s Hc Hin) as (s' & ev & -> & Hc').
    exists s', [ev]. cbn. auto. }
  repeat match goal with
         | |- context [if ?c then _ else _] => destruct c
         end.
  all: try (now left).
  all: try (apply Hsw; cbn; tauto).
  all: try (apply Htu; cbn; tauto).
  all: try (apply Hpr; cbn; tauto).
  - right. eexists. eexists. split; [reflexivity|].
    destruct Hc as [He Hs]. split; [split; assumption | cbn; lia].
  - right. exists s, []. cbn. auto.
Qed.

(** From the initial state the loop never raises, keeps the server complete
    and emits no more events than it ran iterations. *)
Lemma draw_ui_from_init (inputs : list (Z * Z * Z)) :
  let '(s, evs, e) := MacSimulator.draw_ui MacSimulator.init inputs in
  e <> MacSimulator.Raised /\
  simulator_complete s /\
  (List.length evs <= List.length inputs)%nat.
Proof.
  assert (G : forall inputs s0, simulator_complete s0 ->
              let '(s, evs, e) := MacSimulator.draw_ui s0 inputs in
              e <> MacSimulator.Raised /\ simulator_complete s /\
              (List.length evs <= List.length inputs)%nat).
  { clear. induction inputs as [|[[h w] k] inputs IH]; intros s0 Hc.
    - cbn. repeat split; try apply Hc; [discriminate | lia].
    - cbn [MacSimulator.draw_ui].
      destruct (iteration_complete h w k s0 Hc) as [-> | (s1 & evs1 & -> & Hc1 & Hl)].
      + repeat split; try apply Hc; [discriminate | cbn; lia].
      + specialize (IH s1 Hc1).
        destruct (MacSimulator.draw_ui s1 inputs) as [[s2 evs2] e2].
        destruct IH as (He & Hc2 & Hl2).
        split; [exact He|]. split; [exact Hc2|].
        rewrite length_app. cbn [List.length]. lia. }
  apply G. split; reflexivity.
Qed.

(** ** The simulator's state and the events it emits *)

Lemma replay_app (view : initial_state) (evs1 evs2 : list event) :
  replay view (evs1 ++ evs2) = replay (replay view evs1) evs2.
Proof. unfold replay. apply fold_left_app. Qed.

Lemma toggle_switch_replay (color : string) (s s' : MacSimulator.t) (evs : list event) :
  MacSimulator.toggle_switch color s = MacSimulator.Continue s' evs ->
  MacSimulator.snapshot s' = replay (MacSimulator.snapshot s) evs.
Proof.
  unfold MacSimulator.toggle_switch.
  destruct (sdict_get (MacSimulator.switches s) color) as [active|]; [|discriminate].
  cbn. intros H. inversion H; subst; clear H.
  unfold MacSimulator.snapshot, replay. cbn.
  now rewrite (sdict_set_map (@Some bool)).
Qed.

Lemma turn_replay (encoder_id delta : Z) (s s' : MacSimulator.t) (evs : list event) :
  MacSimulator.turn encoder_id delta s = MacSimulator.Continue s' evs ->
  MacSimulator.snapshot s' = replay (MacSimulator.snapshot s) evs.
Proof.
  unfold MacSimulator.turn, MacSimulator.emit_encoder_change.
  destruct (dict_get (MacSimulator.encoders s) encoder_id) as [old|]; [|discriminate].
  cbn. intros H. inversion H; subst; clear H. reflexivity.
Qed.

Lemma press_replay (encoder_id : Z) (s s' : MacSimulator.t) (evs : list event) :
  MacSimulator.press encoder_id s = MacSimulator.Continue s' evs ->
  MacSimulator.snapshot s' = replay (MacSimulator.snapshot s) evs.
Proof.
  unfold MacSimulator.press. cbn. intros H. inversion H; subst; clear H. reflexivity.
Qed.

Lemma iteration_replay (height width key : Z) (s s' : MacSimulator.t)
  (evs : list event) :
  MacSimulator.iteration height width key s = MacSimulator.Continue s' evs ->
  MacSimulator.snapshot s' = replay (MacSimulator.snapshot s) evs.
Proof.
  unfold MacSimulator.iteration.
  destruct ((height <? 20) || (width <? 50)).
  { destruct (key =? 27); [discriminate|]. intros H. now inversion H. }
  destruct (negb (MacSimulator.render_switches s)); [discriminate|].
  destruct (negb (MacSimulator.render_encoders s)); [discriminate|].
  unfold MacSimulator.handle_input.
  repeat match goal with
         | |- context [if ?c then _ else _] => destruct c
         end.
  all: try discriminate.
  all: try apply toggle_switch_replay.
  all: try apply turn_replay.
  all: try apply press_replay.
  - cbn. intros H. inversion H; subst. reflexivity.
  - intros H. inversion H; subst. reflexivity.
Qed.

(** X13: the state the simulator keeps is the replay of the events it has
    emitted: over any sequence of iterations of its interface, the state a
    client would be sent on connecting afterwards is the state it would have
    been sent before, with every event emitted in between applied to it
    (a change event gives the new level or value, a button press the value
    0).  A client that connects early and follows the events sees what a
    client that connects late is sent. *)
Theorem X13_simulator_state_replays_events (s0 : MacSimulator.t)
  (inputs : list (Z * Z * Z)) :
  let '(s, evs, _) := MacSimulator.draw_ui s0 inputs in
  MacSimulator.snapshot s = replay (MacSimulator.snapshot s0) evs.
Proof.
  revert s0. induction inputs as [|[[h w] k] inputs IH]; intros s0; [reflexivity|].
  cbn [MacSimulator.draw_ui].
  destruct (MacSimulator.iteration h w k s0) as [s1 evs1| |] eqn:E; try reflexivity.
  specialize (IH s1).
  destruct (MacSimulator.draw_ui s1 inputs) as [[s2 evs2] e2].
  rewrite replay_app, <- (iteration_replay h w k s0 s1 evs1 E). exact IH.
Qed.

(** X14: an encoder of the simulator has no floor and no ceiling: a turn by
    [delta] of an encoder the server holds adds [delta] to its value and
    emits that value, whatever it is, and the opposite turn brings the server
    back to the state it was in.  A turn of an encoder the server does not
    hold raises KeyError. *)
Theorem X14_simulator_turn_and_back (s s1 : MacSimulator.t) (encoder_id delta : Z)
  (evs : list event) :
  MacSimulator.emit_encoder_change encoder_id delta s = Some (s1, evs) ->
  exists old,
    dict_get (MacSimulator.encoders s) encoder_id = Some old /\
    evs = [encoder_change encoder_id (old + delta)
             (if 0 <? delta then "right"%string else "left"%string)] /\
    dict_get (MacSimulator.encoders s1) encoder_id = Some (old + delta) /\
    MacSimulator.emit_encoder_change encoder_id (- delta) s1 =
      Some (s, [encoder_change encoder_id old
                  (if 0 <? - delta then "right"%string else "left"%string)]).
Proof.
  unfold MacSimulator.emit_encoder_change.
  destruct (dict_get (MacSimulator.encoders s) encoder_id) as [old|] eqn:Eold;
    [|discriminate].
  cbn. intros H. inversion H; subst; clear H. exists old.
  split; [reflexivity|]. split; [reflexivity|]. cbn.
  rewrite dict_get_set_same. split; [reflexivity|].
  rewrite dict_set_set.
  replace (old + delta + - delta) with old by lia.
  rewrite (dict_set_get _ _ _ Eold). now destruct s.
Qed.

Lemma X14_simulator_turn_and_back_witness :
  exists s1,
    MacSimulator.emit_encoder_change 1 (-1) MacSimulator.init =
      Some (s1, [encoder_change 1 (-1) "left"]) /\
    MacSimulator.emit_encoder_change 1 1 s1 =
      Some (MacSimulator.init, [encoder_change 1 0 "right"]) /\
    MacSimulator.emit_encoder_change 5 1 MacSimulator.init = None.
Proof.
  eexists. split; [reflexivity|]. split; [|reflexivity].
  match goal with
  | |- MacSimulator.emit_encoder_change 1 1 ?s1 = _ =>
      destruct (X14_simulator_turn_and_back MacSimulator.init s1 1 (-1) _ eq_refl)
        as (old & Hold & _ & _ & Hback)
  end.
  cbn in Hold. inversion Hold; subst. exact Hback.
Defined.

(** ** The encoders of the manager, one by one *)

Lemma update_all_fst (encoders : list RotaryEncoder.t) (w : World) (t : Q) :
  fst (FirmwareManager.update_all encoders w t) =
  map (fun e => fst (RotaryEncoder.update e w t)) encoders.
Proof.
  induction encoders as [|e encoders IH]; [reflexivity|].
  cbn. destruct (RotaryEncoder.update e w t) as [e1 evs1].
  destruct (FirmwareManager.update_all encoders w t) as [rest evs].
  cbn in *. now rewrite IH.
Qed.

Lemma update_all_snd (encoders : list RotaryEncoder.t) (w : World) (t : Q) :
  snd (FirmwareManager.update_all encoders w t) =
  List.concat (map (fun e => snd (RotaryEncoder.update e w t)) encoders).
Proof.
  induction encoders as [|e encoders IH]; [reflexivity|].
  cbn. destruct (RotaryEncoder.update e w t) as [e1 evs1].
  destruct (FirmwareManager.update_all encoders w t) as [rest evs].
  cbn in *. now rewrite IH.
Qed.

Lemma sample_tick_encoders (m m' : FirmwareManager.t) (w : World) (t : Q)
  (evs : list event) :
  FirmwareManager.sample_tick m w t = Some (m', evs) ->
  FirmwareManager.encoders m' =
    map (fun e => fst (RotaryEncoder.update e w t)) (FirmwareManager.encoders m).
Proof.
  unfold FirmwareManager.sample_tick. intros Htick.
  destruct (ButtonMonitor.check_and_emit _ w) as [bm evs_b].
  destruct (SwitchMonitor.check_and_emit _ w) as [[sm evs_s]|]; [|discriminate].
  pose proof (update_all_fst (FirmwareManager.encoders m) w t) as H.
  destruct (FirmwareManager.update_all _ w t) as [encs evs_e].
  inversion Htick; subst. exact H.
Qed.

(** ** get_counter and reset_counter *)

(** X16: a counter reset through [reset_counter] is published by the next
    update: on an encoder whose counter was published and was not 0, with its
    lines reading as stored, the update after [reset_counter] emits exactly
    one [encoder_change] with value 0, and after it [get_counter] is 0 and
    the counter is published again. *)
Theorem X16_reset_counter_is_published (e : RotaryEncoder.t) (w : World) (t : Q) :
  encoder_unchanged w e ->
  RotaryEncoder.last_counter e = RotaryEncoder.counter e ->
  RotaryEncoder.counter e <> 0 ->
  let e' := fst (RotaryEncoder.update (RotaryEncoder.reset_counter e) w t) in
  snd (RotaryEncoder.update (RotaryEncoder.reset_counter e) w t) =
    [encoder_change (RotaryEncoder.encoder_id e) 0
       (if RotaryEncoder.counter e <? 0 then "right"%string else "left"%string)] /\
  RotaryEncoder.get_counter e' = 0 /\
  RotaryEncoder.last_counter e' = 0.
Proof.
  intros (Ha & Hb & btn & Hbtn & Hsame) Hsync Hne. cbv zeta.
  assert (Ha' : gpio_input w (RotaryEncoder.pin_a (RotaryEncoder.reset_counter e))
                = Some (RotaryEncoder.last_a e)) by exact Ha.
  assert (Hb' : gpio_input w (RotaryEncoder.pin_b (RotaryEncoder.reset_counter e))
                = Some (RotaryEncoder.last_b e)) by exact Hb.
  assert (Hbtn' : RotaryEncoder.read_button (RotaryEncoder.reset_counter e) w = Some btn)
    by exact Hbtn.
  assert (Hnp : press_accepted (RotaryEncoder.reset_counter e) btn t = false).
  { unfold press_accepted. cbn.
    destruct (truthy (RotaryEncoder.pin_button e)) eqn:Etr; [|reflexivity].
    rewrite (Hsame eq_refl).
    destruct (RotaryEncoder.last_button e =? 0) eqn:E0; [|reflexivity].
    apply Z.eqb_eq in E0. rewrite E0. reflexivity. }
  assert (Hrej : edge_accepted (RotaryEncoder.reset_counter e) (RotaryEncoder.last_a e) t
                 = false).
  { unfold edge_accepted. cbn. now rewrite Z.eqb_refl. }
  pose proof (update_counter _ w t _ _ btn Ha' Hb' Hbtn') as Hc.
  pose proof (update_events _ w t _ _ btn Ha' Hb' Hbtn') as Hev.
  pose proof (update_last_counter _ w t _ _ btn Ha' Hb' Hbtn') as Hl.
  rewrite Hnp in Hc, Hev.
  destruct (check_a_changed_rejected _ (RotaryEncoder.last_b e) t _ Hrej) as [Hc0 _].
  rewrite Hc0 in Hc. cbn in Hc.
  rewrite Hc in Hev, Hl. cbn in Hev.
  unfold RotaryEncoder.get_counter. rewrite Hev, Hc, Hl.
  split; [|auto].
  unfold counter_event, press_event. rewrite Hsync.
  destruct (0 =? RotaryEncoder.counter e) eqn:E0;
    [apply Z.eqb_eq in E0; congruence|].
  rewrite app_nil_r. do 2 f_equal.
  destruct (Z.ltb_spec 0 (0 - RotaryEncoder.counter e)),
           (Z.ltb_spec (RotaryEncoder.counter e) 0); try reflexivity; lia.
Qed.

Lemma X16_reset_counter_is_published_witness :
  snd (RotaryEncoder.update (RotaryEncoder.reset_counter encoder1_at_50)
         (encoder_world 5 6 26 0 0 1) 1) = [encoder_change 1 0 "left"].
Proof.
  destruct (X16_reset_counter_is_published encoder1_at_50
              (encoder_world 5 6 26 0 0 1) 1) as (H & _).
  - repeat split; try reflexivity. exists 1. split; reflexivity.
  - reflexivity.
  - discriminate.
  - exact H.
Defined.

(** ** The two programs read the simple inputs alike *)

(** X17: inputs_debug.py and socket_server.py read the push button and the
    switches alike: the status is "PRESSED" where socket_server.py has
    [False], "RELEASED" where it has [True] and "ERROR" where it has [None]
    (a line that cannot be read, or a sysfs value that is neither "0" nor
    "1"). *)
Theorem X17_statuses_correspond (w : World) :
  let label (s : option bool) :=
    match s with
    | Some false => "PRESSED"%string
    | Some true => "RELEASED"%string
    | None => "ERROR"%string
    end in
  (match gpio_input w 2 with Some state => is_level state | None => True end ->
   DebugApp.ButtonMonitor.get_button_status DebugApp.ButtonMonitor.init w =
     label (ButtonMonitor.get_button_status ButtonMonitor.init w)) /\
  map (fun '(gpio_num, st) => (gpio_num, DebugApp.SwitchMonitor.status st))
      (DebugApp.SwitchMonitor.get_switch_states DebugApp.SwitchMonitor.init w) =
  map (fun '(gpio_num, st) => (gpio_num, label (SwitchMonitor.status st)))
      (SwitchMonitor.get_switch_states (SwitchMonitor.init w) w).
Proof.
  cbv zeta. split.
  - unfold DebugApp.ButtonMonitor.get_button_status, ButtonMonitor.get_button_status.
    cbn. destruct (gpio_input w 2) as [state|]; [|reflexivity].
    intros [-> | ->]; reflexivity.
  - unfold DebugApp.SwitchMonitor.get_switch_states, SwitchMonitor.get_switch_states,
      SwitchMonitor.get_switch_states_of, SwitchMonitor.status_of,
      DebugApp.SwitchMonitor.read_gpio, SwitchMonitor.read_gpio.
    cbn.
    destruct (sysfs_value w 530) as [v1|], (sysfs_value w 532) as [v2|],
             (sysfs_value w 533) as [v3|]; cbn.
    all: repeat match goal with
         | |- context [String.eqb ?a ?b] => destruct (String.eqb a b) eqn:?
         end.
    all: try reflexivity.
    all: repeat match goal with
         | H : String.eqb _ _ = true |- _ => apply String.eqb_eq in H; subst
         end; try discriminate.
Qed.

Lemma X17_statuses_correspond_witness :
  DebugApp.ButtonMonitor.get_button_status DebugApp.ButtonMonitor.init
    (simple_world 0 "0") = "PRESSED"%string /\
  DebugApp.ButtonMonitor.get_button_status DebugApp.ButtonMonitor.init
    dead_world = "ERROR"%string.
Proof.
  split.
  - destruct (X17_statuses_correspond (simple_world 0 "0")) as [H _].
    rewrite H; [reflexivity | left; reflexivity].
  - destruct (X17_statuses_correspond dead_world) as [H _].
    rewrite H; [reflexivity | exact I].
Defined.

(** * The decoder, the button and the sampling pass, call by call *)

(** ** C4: the truth table of the decoder in every update *)

(** The counter after the decoder block of inputs_debug.py, in terms of the
    decoder block of socket_server.py. *)
Lemma debug_check_a_changed_counter (a b : Z) (t : Q) (e : RotaryEncoder.t) :
  InputsDebug.RotaryEncoder.counter
    (InputsDebug.RotaryEncoder.check_a_changed a b t (as_debug_encoder e)) =
  if edge_accepted e a t
  then Z.max 0 (RotaryEncoder.counter (RotaryEncoder.check_a_changed a b t e))
  else RotaryEncoder.counter e.
Proof.
  destruct e.
  unfold InputsDebug.RotaryEncoder.check_a_changed, RotaryEncoder.check_a_changed,
    as_debug_encoder, edge_accepted.
  unfold_setters. cbn.
  destruct (negb (a =? last_a)); [|reflexivity].
  destruct (elapsed_gt t last_encoder_time encoder_debounce_delay); [|reflexivity].
  destruct (a =? 1), (b =? 0), (b =? 1); cbn.
  all: match goal with
       | |- context [?c <? 0] => destruct (Z.ltb_spec c 0); cbn; lia
       end.
Qed.

Lemma debug_check_a_changed_button_frame (a b : Z) (t : Q)
  (d : InputsDebug.RotaryEncoder.t) :
  let d' := InputsDebug.RotaryEncoder.check_a_changed a b t d in
  InputsDebug.RotaryEncoder.pin_button d' = InputsDebug.RotaryEncoder.pin_button d /\
  InputsDebug.RotaryEncoder.last_button d' = InputsDebug.RotaryEncoder.last_button d /\
  InputsDebug.RotaryEncoder.last_button_time d' =
    InputsDebug.RotaryEncoder.last_button_time d /\
  InputsDebug.RotaryEncoder.button_debounce_delay d' =
    InputsDebug.RotaryEncoder.button_debounce_delay d.
Proof.
  destruct d; unfold InputsDebug.RotaryEncoder.check_a_changed; debug_cases.
Qed.

Lemma debug_check_button_counter (btn : Z) (t : Q) (d : InputsDebug.RotaryEncoder.t) :
  InputsDebug.RotaryEncoder.counter (InputsDebug.RotaryEncoder.check_button btn t d) =
  if truthy (InputsDebug.RotaryEncoder.pin_button d) &&
     ((btn =? 0) && (InputsDebug.RotaryEncoder.last_button d =? 1)) &&
     elapsed_gt t (InputsDebug.RotaryEncoder.last_button_time d)
                (InputsDebug.RotaryEncoder.button_debounce_delay d)
  then 0 else InputsDebug.RotaryEncoder.counter d.
Proof.
  destruct d; unfold InputsDebug.RotaryEncoder.check_button; debug_cases.
Qed.

(** The counter after an update of inputs_debug.py whose reads succeed. *)
Lemma debug_update_counter (e : RotaryEncoder.t) (w : World) (t : Q) (a b btn : Z) :
  gpio_input w (RotaryEncoder.pin_a e) = Some a ->
  gpio_input w (RotaryEncoder.pin_b e) = Some b ->
  RotaryEncoder.read_button e w = Some btn ->
  InputsDebug.RotaryEncoder.counter
    (InputsDebug.RotaryEncoder.update (as_debug_encoder e) w t) =
  if press_accepted e btn t then 0
  else if edge_accepted e a t
       then Z.max 0 (RotaryEncoder.counter (RotaryEncoder.check_a_changed a b t e))
       else RotaryEncoder.counter e.
Proof.
  intros Ha Hb Hbtn.
  rewrite (debug_update_reads_ok (as_debug_encoder e) w t a b btn Ha Hb Hbtn).
  rewrite debug_check_button_counter.
  pose proof (debug_check_a_changed_button_frame a b t (as_debug_encoder e)) as F.
  cbv zeta in F. destruct F as (Hpb & Hlb & Hlt & Hbd).
  change (InputsDebug.RotaryEncoder.pin_button
            (InputsDebug.RotaryEncoder.set_last_b b
               (InputsDebug.RotaryEncoder.check_a_changed a b t (as_debug_encoder e))))
    with (InputsDebug.RotaryEncoder.pin_button
            (InputsDebug.RotaryEncoder.check_a_changed a b t (as_debug_encoder e))).
  change (InputsDebug.RotaryEncoder.last_button
            (InputsDebug.RotaryEncoder.set_last_b b
               (InputsDebug.RotaryEncoder.check_a_changed a b t (as_debug_encoder e))))
    with (InputsDebug.RotaryEncoder.last_button
            (InputsDebug.RotaryEncoder.check_a_changed a b t (as_debug_encoder e))).
  change (InputsDebug.RotaryEncoder.last_button_time
            (InputsDebug.RotaryEncoder.set_last_b b
               (InputsDebug.RotaryEncoder.check_a_changed a b t (as_debug_encoder e))))
    with (InputsDebug.RotaryEncoder.last_button_time
            (InputsDebug.RotaryEncoder.check_a_changed a b t (as_debug_encoder e))).
  change (InputsDebug.RotaryEncoder.button_debounce_delay
            (InputsDebug.RotaryEncoder.set_last_b b
               (InputsDebug.RotaryEncoder.check_a_changed a b t (as_debug_encoder e))))
    with (InputsDebug.RotaryEncoder.button_debounce_delay
            (InputsDebug.RotaryEncoder.check_a_changed a b t (as_debug_encoder e))).
  change (InputsDebug.RotaryEncoder.counter
            (InputsDebug.RotaryEncoder.set_last_b b
               (InputsDebug.RotaryEncoder.check_a_changed a b t (as_debug_encoder e))))
    with (InputsDebug.RotaryEncoder.counter
            (InputsDebug.RotaryEncoder.check_a_changed a b t (as_debug_encoder e))).
  rewrite Hpb, Hlb, Hlt, Hbd, debug_check_a_changed_counter.
  reflexivity.
Qed.

(** C4: in every call of [update] whose reads give the levels [a], [b] (and
    the button level [btn]), the quadrature decoder takes a step that the
    call adds to the counter, unless a button press accepted in the same call
    resets the counter to 0.  The step is 0 when the sampled phase A equals
    the stored [last_a] (a change of B alone gives no step) and the time of
    the last accepted edge is kept; when A changed and more than the encoder
    delay has passed since the last accepted edge, the call becomes the last
    accepted edge and the step is +1 exactly for (A rising, B = 0) and
    (A falling, B = 1), and -1 exactly for (A rising, B = 1) and (A falling,
    B = 0).  The update of inputs_debug.py, on the same encoder and levels,
    adds the same step and floors the counter at 0. *)
Theorem C4_update_truth_table (e : RotaryEncoder.t) (w : World) (t : Q) (a b btn : Z) :
  gpio_input w (RotaryEncoder.pin_a e) = Some a ->
  gpio_input w (RotaryEncoder.pin_b e) = Some b ->
  RotaryEncoder.read_button e w = Some btn ->
  is_level a -> is_level b -> is_level (RotaryEncoder.last_a e) ->
  let e' := fst (RotaryEncoder.update e w t) in
  let d' := InputsDebug.RotaryEncoder.update (as_debug_encoder e) w t in
  let elapsed := elapsed_gt t (RotaryEncoder.last_encoder_time e)
                            (RotaryEncoder.encoder_debounce_delay e) in
  let forward := (RotaryEncoder.last_a e = 0 /\ a = 1 /\ b = 0) \/
                 (RotaryEncoder.last_a e = 1 /\ a = 0 /\ b = 1) in
  let backward := (RotaryEncoder.last_a e = 0 /\ a = 1 /\ b = 1) \/
                  (RotaryEncoder.last_a e = 1 /\ a = 0 /\ b = 0) in
  exists step : Z,
    RotaryEncoder.counter e' =
      (if press_accepted e btn t then 0 else RotaryEncoder.counter e + step) /\
    (0 <= RotaryEncoder.counter e ->
     InputsDebug.RotaryEncoder.counter d' =
       (if press_accepted e btn t then 0
        else Z.max 0 (RotaryEncoder.counter e + step))) /\
    (a = RotaryEncoder.last_a e ->
     step = 0 /\
     RotaryEncoder.last_encoder_time e' = RotaryEncoder.last_encoder_time e) /\
    (a <> RotaryEncoder.last_a e -> elapsed = false ->
     step = 0 /\
     RotaryEncoder.last_encoder_time e' = RotaryEncoder.last_encoder_time e) /\
    (a <> RotaryEncoder.last_a e -> elapsed = true ->
     RotaryEncoder.last_encoder_time e' = t /\
     (step = 1 <-> forward) /\
     (step = -1 <-> backward)).
Proof.
  intros Ha Hb Hbtn La Lb Ll. cbv zeta.
  exists (RotaryEncoder.counter (RotaryEncoder.check_a_changed a b t e)
          - RotaryEncoder.counter e).
  pose proof (update_counter e w t a b btn Ha Hb Hbtn) as Hc. cbv zeta in Hc.
  pose proof (update_last_encoder_time e w t a b btn Ha Hb Hbtn) as Ht.
  cbv zeta in Ht.
  pose proof (debug_update_counter e w t a b btn Ha Hb Hbtn) as Hd.
  destruct (check_a_changed_truth_table e (as_debug_encoder e) a b t La Lb)
    as (Hsame & Htable & _).
  split; [|split; [|split; [|split]]].
  - rewrite Hc. destruct (press_accepted e btn t); [reflexivity | lia].
  - intros Hpos. rewrite Hd. destruct (press_accepted e btn t); [reflexivity|].
    destruct (edge_accepted e a t) eqn:E.
    + f_equal. lia.
    + destruct (check_a_changed_rejected a b t e E) as [-> _]. lia.
  - intros Heq. split; [now apply Hsame|].
    rewrite Ht. unfold edge_accepted. rewrite Heq, Z.eqb_refl. reflexivity.
  - intros Hne Hel.
    assert (E : edge_accepted e a t = false).
    { unfold edge_accepted. rewrite Hel. apply andb_false_r. }
    rewrite Ht, E. destruct (check_a_changed_rejected a b t e E) as [-> _].
    split; [lia | reflexivity].
  - intros Hne Hel.
    assert (E : edge_accepted e a t = true).
    { unfold edge_accepted. rewrite Hel.
      destruct (a =? RotaryEncoder.last_a e) eqn:Eq; [|reflexivity].
      apply Z.eqb_eq in Eq. contradiction. }
    rewrite Ht, E. split; [reflexivity|]. exact (Htable Ll Hne Hel).
Qed.

Lemma C4_update_truth_table_witness :
  RotaryEncoder.counter
    (fst (RotaryEncoder.update encoder1_at_50 (encoder_world 5 6 26 1 0 1) 1)) = 51 /\
  RotaryEncoder.counter
    (fst (RotaryEncoder.update encoder1_at_50 (encoder_world 5 6 26 1 1 1) 1)) = 49 /\
  RotaryEncoder.counter
    (fst (RotaryEncoder.update encoder1_at_50 (encoder_world 5 6 26 0 1 1) 1)) = 50.
Proof.
  destruct (C4_update_truth_table encoder1_at_50 (encoder_world 5 6 26 1 0 1) 1 1 0 1)
    as (s1 & Hc1 & _ & _ & _ & Hacc1);
    [reflexivity | reflexivity | reflexivity
     | right; reflexivity | left; reflexivity | left; reflexivity |].
  destruct (C4_update_truth_table encoder1_at_50 (encoder_world 5 6 26 1 1 1) 1 1 1 1)
    as (s2 & Hc2 & _ & _ & _ & Hacc2);
    [reflexivity | reflexivity | reflexivity
     | right; reflexivity | right; reflexivity | left; reflexivity |].
  destruct (C4_update_truth_table encoder1_at_50 (encoder_world 5 6 26 0 1 1) 1 0 1 1)
    as (s3 & Hc3 & _ & Hsame3 & _);
    [reflexivity | reflexivity | reflexivity
     | left; reflexivity | right; reflexivity | left; reflexivity |].
  destruct Hacc1 as (_ & Hf1 & _); [discriminate | reflexivity |].
  destruct Hacc2 as (_ & _ & Hb2); [discriminate | reflexivity |].
  destruct (Hsame3 eq_refl) as [H3 _].
  assert (E1 : s1 = 1) by (apply Hf1; left; repeat split; reflexivity).
  assert (E2 : s2 = -1) by (apply Hb2; left; repeat split; reflexivity).
  subst s1 s2 s3.
  split; [exact Hc1|]. split; [exact Hc2 | exact Hc3].
Defined.

(** ** C7: a press, and an attempt within the button delay *)

(** The events of an update in terms of [update_accepts_press], reads
    successful or not, for an encoder whose counter is published. *)
Lemma update_events_published (e : RotaryEncoder.t) (w : World) (t : Q) :
  RotaryEncoder.last_counter e = RotaryEncoder.counter e ->
  snd (RotaryEncoder.update e w t) =
    counter_event (RotaryEncoder.encoder_id e)
                  (RotaryEncoder.counter (fst (RotaryEncoder.update e w t)))
                  (RotaryEncoder.counter e)
    ++ press_event (RotaryEncoder.encoder_id e) (update_accepts_press e w t).
Proof.
  intros Hsync. unfold update_accepts_press.
  destruct (reads_cases e w) as [(a & b & btn & Ha & Hb & Hbtn) | Hfail].
  - rewrite (update_events e w t a b btn Ha Hb Hbtn), Ha, Hb, Hbtn, Hsync.
    reflexivity.
  - rewrite (update_read_fails e w t Hfail). cbn [fst snd].
    unfold counter_event. rewrite Z.eqb_refl.
    destruct Hfail as [H | [H | H]]; rewrite H.
    + reflexivity.
    + now destruct (gpio_input w (RotaryEncoder.pin_a e)).
    + destruct (gpio_input w (RotaryEncoder.pin_a e)); [|reflexivity].
      now destruct (gpio_input w (RotaryEncoder.pin_b e)).
Qed.

(** C7, as stated, fails on its own scenario: encoder 1 stands at 50 and its
    press at t = 1.0 s is accepted; the update emits two events, not one. *)
Lemma C7_counterexample :
  let first := RotaryEncoder.update encoder1_at_50 (encoder_world 5 6 26 0 0 0) 1 in
  press_accepted encoder1_at_50 0 1 = true /\
  RotaryEncoder.counter (fst first) = 0 /\
  snd first = [encoder_change 1 0 "left"; encoder_button_press 1] /\
  List.length (snd first) <> 1%nat.
Proof.
  cbv zeta. repeat split; try reflexivity. vm_compute. discriminate.
Qed.

(** C7, amended: when an update at [t1] accepts a press of an encoder's
    button, it resets the counter to 0 and emits exactly one
    [encoder_button_press], preceded by one [encoder_change] with value 0
    whenever the counter published before was not 0: two events, not one,
    for a counter that stood at a positive value.  An update at a time [t2]
    no more than the button delay after [t1], whatever was polled in between,
    accepts no press: it emits no [encoder_button_press], leaves the time of
    the last accepted press alone and does not reset the counter; the only
    event it can emit is the [encoder_change] of a step the decoder takes in
    that same update, so with phase A unchanged it emits nothing. *)
Theorem C7_press_then_attempt_within_window (e : RotaryEncoder.t) (w1 : World) (t1 : Q)
  (ticks : list tick) (w2 : World) (t2 : Q) :
  let e1 := fst (RotaryEncoder.update e w1 t1) in
  let e2 := fst (run_updates e1 ticks) in
  let e3 := fst (RotaryEncoder.update e2 w2 t2) in
  let id := RotaryEncoder.encoder_id e in
  (0 <= RotaryEncoder.button_debounce_delay e)%Q ->
  RotaryEncoder.last_counter e = RotaryEncoder.counter e ->
  In (encoder_button_press id) (snd (RotaryEncoder.update e w1 t1)) ->
  (t2 - t1 <= RotaryEncoder.button_debounce_delay e)%Q ->
  RotaryEncoder.counter e1 = 0 /\
  snd (RotaryEncoder.update e w1 t1) =
    (if RotaryEncoder.counter e =? 0 then []
     else [encoder_change id 0
             (if 0 <? RotaryEncoder.counter e then "left"%string else "right"%string)])
    ++ [encoder_button_press id] /\
  (0 < RotaryEncoder.counter e ->
   snd (RotaryEncoder.update e w1 t1) =
     [encoder_change id 0 "left"; encoder_button_press id]) /\
  count_events is_encoder_button_press (snd (RotaryEncoder.update e2 w2 t2)) = 0%nat /\
  RotaryEncoder.last_button_time e3 = RotaryEncoder.last_button_time e2 /\
  RotaryEncoder.counter e3 = decoded_counter e2 w2 t2 /\
  snd (RotaryEncoder.update e2 w2 t2) =
    (if decoded_counter e2 w2 t2 =? RotaryEncoder.counter e2 then []
     else [encoder_change id (decoded_counter e2 w2 t2)
             (if RotaryEncoder.counter e2 <? decoded_counter e2 w2 t2
              then "right"%string else "left"%string)]).
Proof.
  intros e1 e2 e3 id Hd Hsync Hin Hclose.
  assert (Hpress : count_events is_encoder_button_press
                     (snd (RotaryEncoder.update e w1 t1)) <> 0%nat).
  { unfold count_events. intros H0. apply length_zero_iff_nil in H0.
    assert (Hf : In (encoder_button_press id)
                    (filter is_encoder_button_press (snd (RotaryEncoder.update e w1 t1))))
      by (apply filter_In; split; [exact Hin | reflexivity]).
    rewrite H0 in Hf. contradiction. }
  destruct (no_second_press_within_window e w1 t1 ticks w2 t2 Hd Hpress Hclose)
    as (_ & Hc1 & Hn2 & Ht2 & Hc2).
  fold e1 in Hc1. fold e1 e2 in Hn2, Ht2, Hc2. fold e3 in Ht2, Hc2.
  assert (E1 : update_accepts_press e w1 t1 = true).
  { destruct (update_press_spec e w1 t1) as (Hn & _).
    destruct (update_accepts_press e w1 t1); [reflexivity | contradiction]. }
  assert (E2 : update_accepts_press e2 w2 t2 = false).
  { destruct (update_press_spec e2 w2 t2) as (Hn & _). rewrite Hn2 in Hn.
    destruct (update_accepts_press e2 w2 t2); [discriminate | reflexivity]. }
  pose proof (update_events_published e w1 t1 Hsync) as Hev1.
  fold e1 in Hev1. rewrite Hc1, E1 in Hev1.
  assert (Hsync2 : RotaryEncoder.last_counter e2 = RotaryEncoder.counter e2).
  { apply run_updates_synced, update_synced, Hsync. }
  pose proof (update_events_published e2 w2 t2 Hsync2) as Hev2.
  fold e3 in Hev2. rewrite Hc2, E2 in Hev2.
  assert (Hid : RotaryEncoder.encoder_id e2 = id).
  { pose proof (run_updates_config ticks e1) as H1. cbv zeta in H1.
    pose proof (update_config e w1 t1) as H0. cbv zeta in H0.
    unfold id, e2. destruct H1 as (-> & _). unfold e1.
    destruct H0 as (-> & _). reflexivity. }
  rewrite Hid in Hev2.
  assert (Hfirst : snd (RotaryEncoder.update e w1 t1) =
            (if RotaryEncoder.counter e =? 0 then []
             else [encoder_change id 0
                     (if 0 <? RotaryEncoder.counter e
                      then "left"%string else "right"%string)])
            ++ [encoder_button_press id]).
  { rewrite Hev1. unfold counter_event, press_event. fold id.
    rewrite (Z.eqb_sym 0).
    destruct (RotaryEncoder.counter e =? 0) eqn:E0; [reflexivity|].
    apply Z.eqb_neq in E0.
    destruct (Z.ltb_spec 0 (0 - RotaryEncoder.counter e)),
             (Z.ltb_spec 0 (RotaryEncoder.counter e)); try reflexivity; lia. }
  split; [exact Hc1|]. split; [exact Hfirst|]. split.
  { intros Hpos. rewrite Hfirst.
    destruct (Z.eqb_spec (RotaryEncoder.counter e) 0) as [E0 | E0]; [lia|].
    destruct (Z.ltb_spec 0 (RotaryEncoder.counter e)); [reflexivity | lia]. }
  split; [exact Hn2|]. split; [exact Ht2|]. split; [exact Hc2|].
  rewrite Hev2. unfold counter_event, press_event. rewrite app_nil_r.
  destruct (decoded_counter e2 w2 t2 =? RotaryEncoder.counter e2); [reflexivity|].
  do 3 f_equal.
  destruct (Z.ltb_spec 0 (decoded_counter e2 w2 t2 - RotaryEncoder.counter e2)),
           (Z.ltb_spec (RotaryEncoder.counter e2) (decoded_counter e2 w2 t2));
    try reflexivity; lia.
Qed.

Lemma C7_press_then_attempt_within_window_witness :
  let e1 := fst (RotaryEncoder.update encoder1_at_50 (encoder_world 5 6 26 0 0 0) 1) in
  let e2 := fst (run_updates e1 release_and_turn) in
  RotaryEncoder.counter e1 = 0 /\
  snd (RotaryEncoder.update encoder1_at_50 (encoder_world 5 6 26 0 0 0) 1) =
    [encoder_change 1 0 "left"; encoder_button_press 1] /\
  RotaryEncoder.counter e2 = 1 /\
  RotaryEncoder.last_button e2 = 1 /\
  snd (RotaryEncoder.update e2 (encoder_world 5 6 26 1 0 0) (1 + (1 # 10))) = [] /\
  RotaryEncoder.counter
    (fst (RotaryEncoder.update e2 (encoder_world 5 6 26 1 0 0) (1 + (1 # 10)))) = 1.
Proof.
  destruct (C7_press_then_attempt_within_window encoder1_at_50
              (encoder_world 5 6 26 0 0 0) 1 release_and_turn
              (encoder_world 5 6 26 1 0 0) (1 + (1 # 10)))
    as (Hreset & _ & Htwo & _ & _ & Hkeep & Hnone).
  - vm_compute. discriminate.
  - reflexivity.
  - vm_compute. right. left. reflexivity.
  - vm_compute. discriminate.
  - cbv zeta. split; [exact Hreset|]. split; [apply Htwo; reflexivity|].
    split; [reflexivity|]. split; [reflexivity|].
    split; [rewrite Hnone; reflexivity | exact Hkeep].
Defined.

(** ** C8: two passes over the same raw inputs *)

(** The events of the first pass after start-up, over the levels start-up
    saw. *)
Lemma first_pass_events (w : World) (t : Q) :
  option_map snd (FirmwareManager.sample_tick (FirmwareManager.init w) w t) =
    Some match gpio_input w 2 with
         | Some state => [key_change (Some (state =? HIGH))]
         | None => []
         end.
Proof.
  destruct (setup_encoders_of_spec w FirmwareManager.encoder_configs) as (_ & Hf).
  fold (FirmwareManager.setup_encoders w) in Hf.
  unfold FirmwareManager.sample_tick, FirmwareManager.init.
  cbn [FirmwareManager.button_monitor FirmwareManager.switch_monitor
       FirmwareManager.encoders].
  rewrite switch_check_and_emit_spec.
  rewrite (update_all_unchanged (FirmwareManager.setup_encoders w) w t).
  - unfold switch_event. rewrite !status_ne_refl.
    unfold ButtonMonitor.check_and_emit, ButtonMonitor.get_button_status. cbn.
    destruct (gpio_input w 2); reflexivity.
  - eapply Forall_impl; [|exact Hf]. cbn. tauto.
  - eapply Forall_impl; [|exact Hf]. cbn. intros e (-> & -> & _). reflexivity.
Qed.

(** C8, as stated, fails: a manager is started with every line high and two
    passes are run over those same, unchanged levels; the first pass emits
    the [key_change] of the push button, only the second is empty. *)
Lemma C8_counterexample :
  exists m1,
    FirmwareManager.sample_tick (FirmwareManager.init (const_world 1 "1"))
      (const_world 1 "1") 1 = Some (m1, [key_change (Some true)]) /\
    FirmwareManager.sample_tick m1 (const_world 1 "1") (1 + (1 # 10000)) = Some (m1, []).
Proof.
  eexists. split; vm_compute; reflexivity.
Qed.

(** C8, amended: of two sampling passes run in a row over identical raw input
    levels, the second always emits nothing and changes nothing.  The first
    emits nothing when every raw input reads as the engine stored it and the
    counters are published; that is not so on the first pass after
    construction, where the stored state of the push button is [None]: over
    the very levels start-up saw, that pass emits the [key_change] of the
    button, when its line can be read, and nothing else. *)
Theorem C8_two_passes_over_same_inputs (m : FirmwareManager.t) (w : World)
  (t1 t2 : Q) :
  (forall m1 evs,
     FirmwareManager.sample_tick m w t1 = Some (m1, evs) ->
     FirmwareManager.sample_tick m1 w t2 = Some (m1, [])) /\
  (inputs_unchanged m w -> counters_published m ->
   FirmwareManager.sample_tick m w t1 = Some (m, []) /\
   FirmwareManager.sample_tick m w t2 = Some (m, [])) /\
  option_map snd (FirmwareManager.sample_tick (FirmwareManager.init w) w t1) =
    Some match gpio_input w 2 with
         | Some state => [key_change (Some (state =? HIGH))]
         | None => []
         end.
Proof.
  destruct (unchanged_inputs_emit_nothing m w t1 t2) as [Hsame Hsecond].
  split; [exact Hsecond|]. split; [exact Hsame|]. apply first_pass_events.
Qed.

Lemma C8_two_passes_over_same_inputs_witness :
  exists m,
    manager_idle = Some m /\
    FirmwareManager.sample_tick m (const_world 1 "1") 1 = Some (m, []) /\
    FirmwareManager.sample_tick m (const_world 1 "1") (1 + (1 # 10000)) = Some (m, []) /\
    exists m1,
      option_map fst (FirmwareManager.sample_tick m (simple_world 0 "0") 2) = Some m1 /\
      FirmwareManager.sample_tick m1 (simple_world 0 "0") (2 + (1 # 10000)) = Some (m1, []).
Proof.
  eexists. split; [reflexivity|].
  match goal with
  | |- FirmwareManager.sample_tick ?m _ _ = _ /\ _ =>
      destruct (C8_two_passes_over_same_inputs m (const_world 1 "1") 1
                  (1 + (1 # 10000))) as (_ & Hsame & _);
      destruct (C8_two_passes_over_same_inputs m (simple_world 0 "0") 2
                  (2 + (1 # 10000))) as (Hsecond & _)
  end.
  destruct Hsame as (H1 & H2).
  - split; [reflexivity|]. split; [reflexivity|].
    repeat constructor; exists 1; split; try reflexivity; auto.
  - repeat constructor.
  - split; [exact H1|]. split; [exact H2|].
    eexists. split; [vm_compute; reflexivity|]. eapply Hsecond. vm_compute. reflexivity.
Defined.

(** ** The events of one pass, in order *)

(** The events of one update: at most one [encoder_change], then at most one
    [encoder_button_press], both with the id of the encoder. *)
Lemma update_events_in_order (e : RotaryEncoder.t) (w : World) (t : Q) :
  exists change press,
    snd (RotaryEncoder.update e w t) = change ++ press /\
    (change = [] \/
     exists value direction,
       change = [encoder_change (RotaryEncoder.encoder_id e) value direction]) /\
    (press = [] \/ press = [encoder_button_press (RotaryEncoder.encoder_id e)]).
Proof.
  destruct (reads_cases e w) as [(a & b & btn & Ha & Hb & Hbtn) | Hfail].
  - rewrite (update_events e w t a b btn Ha Hb Hbtn).
    eexists. eexists. split; [reflexivity|].
    unfold counter_event, press_event. split.
    + destruct (_ =? _); [now left | right; eauto].
    + destruct (press_accepted e btn t); auto.
  - rewrite (update_read_fails e w t Hfail). exists [], []. auto.
Qed.

(** X4: the events of one pass of a started manager come in a fixed order:
    first the [key_change] of the push button, if its status changed; then,
    for the switches green, blue and red in this order, the [switch_change]
    of each switch whose status changed; then, encoder by encoder in the
    order of the manager's list, the events of that encoder's own update: at
    most one [encoder_change] followed by at most one [encoder_button_press],
    both carrying the id of that encoder. *)
Theorem X4_events_of_a_pass (m : FirmwareManager.t) (w0 w : World) (t : Q) :
  FirmwareManager.switch_monitor m = SwitchMonitor.init w0 ->
  let key := ButtonMonitor.get_button_status (FirmwareManager.button_monitor m) w in
  let switch color sysfs_num :=
    if status_ne (switch_status w sysfs_num) (switch_status w0 sysfs_num)
    then [switch_change color (switch_status w sysfs_num)] else [] in
  (exists m',
     FirmwareManager.sample_tick m w t =
       Some (m',
             (if status_ne key (ButtonMonitor.last_state (FirmwareManager.button_monitor m))
              then [key_change key] else [])
             ++ (switch "green"%string 530 ++ switch "blue"%string 532
                 ++ switch "red"%string 533)
             ++ List.concat (map (fun e => snd (RotaryEncoder.update e w t))
                                 (FirmwareManager.encoders m)))) /\
  Forall (fun e =>
            exists change press,
              snd (RotaryEncoder.update e w t) = change ++ press /\
              (change = [] \/
               exists value direction,
                 change = [encoder_change (RotaryEncoder.encoder_id e) value direction]) /\
              (press = [] \/ press = [encoder_button_press (RotaryEncoder.encoder_id e)]))
         (FirmwareManager.encoders m).
Proof.
  intros Hsw. cbv zeta. split.
  - unfold FirmwareManager.sample_tick.
    destruct (button_check_and_emit_spec (FirmwareManager.button_monitor m) w)
      as (_ & _ & Hb). cbv zeta in Hb.
    destruct (ButtonMonitor.check_and_emit (FirmwareManager.button_monitor m) w)
      as [bm evs_b]. cbn [snd] in Hb.
    rewrite Hsw, switch_check_and_emit_spec.
    pose proof (update_all_snd (FirmwareManager.encoders m) w t) as He.
    destruct (FirmwareManager.update_all (FirmwareManager.encoders m) w t)
      as [encs evs_e]. cbn [snd] in He.
    eexists. rewrite Hb, He. unfold switch_event. reflexivity.
  - apply Forall_forall. intros e _. apply update_events_in_order.
Qed.

Lemma X4_events_of_a_pass_witness :
  exists m m',
    manager_idle = Some m /\
    FirmwareManager.sample_tick m (simple_world 0 "0") 1 =
      Some (m', [key_change (Some false); switch_change "green" (Some false)]).
Proof.
  pose (m := match manager_idle with
             | Some m => m
             | None => FirmwareManager.init dead_world
             end).
  destruct (X4_events_of_a_pass m (const_world 1 "1") (simple_world 0 "0") 1 eq_refl)
    as ((m1 & Htick) & _).
  exists m, m1. split; [reflexivity|]. rewrite Htick. reflexivity.
Defined.

(** ** The loop of the simulator, iteration by iteration *)

(** One more iteration after a run that is still going. *)
Lemma draw_ui_snoc (inputs : list (Z * Z * Z)) (height width key : Z)
  (s0 s : MacSimulator.t) (evs : list event) :
  MacSimulator.draw_ui s0 inputs = (s, evs, MacSimulator.Running) ->
  MacSimulator.draw_ui s0 (inputs ++ [(height, width, key)]) =
    match MacSimulator.iteration height width key s with
    | MacSimulator.Continue s' evs' => (s', evs ++ evs', MacSimulator.Running)
    | MacSimulator.Break => (s, evs, MacSimulator.Escaped)
    | MacSimulator.Raise => (s, evs, MacSimulator.Raised)
    end.
Proof.
  revert s0 evs. induction inputs as [|[[h w] k] inputs IH]; intros s0 evs Hrun.
  - cbn in Hrun. inversion Hrun; subst. cbn.
    destruct (MacSimulator.iteration height width key s); try reflexivity.
    now rewrite app_nil_r.
  - cbn [MacSimulator.draw_ui app] in *.
    destruct (MacSimulator.iteration h w k s0) as [s1 evs1| |]; try discriminate.
    destruct (MacSimulator.draw_ui s1 inputs) as [[s2 evs2] e2] eqn:E.
    inversion Hrun; subst. rewrite (IH s1 evs2 E).
    destruct (MacSimulator.iteration height width key s); try reflexivity.
    now rewrite app_assoc.
Qed.

(** X12: no sequence of keys and terminal sizes makes the loop of the
    simulator's interface raise a KeyError or an IndexError: from the initial
    state it only ends on ESC and the server keeps its four encoders and
    three switches.  Every iteration emits at most one event: after any run
    that is still going, one more iteration either ends the loop on ESC with
    nothing emitted, or goes on and adds at most one event to those emitted
    so far. *)
Theorem X12_simulator_never_raises (inputs : list (Z * Z * Z)) (height width key : Z) :
  let '(s, evs, e) := MacSimulator.draw_ui MacSimulator.init inputs in
  e <> MacSimulator.Raised /\
  simulator_complete s /\
  (List.length evs <= List.length inputs)%nat /\
  (e = MacSimulator.Running ->
   (MacSimulator.iteration height width key s = MacSimulator.Break /\
    MacSimulator.draw_ui MacSimulator.init (inputs ++ [(height, width, key)]) =
      (s, evs, MacSimulator.Escaped)) \/
   (exists s' evs',
      MacSimulator.iteration height width key s = MacSimulator.Continue s' evs' /\
      (List.length evs' <= 1)%nat /\
      simulator_complete s' /\
      MacSimulator.draw_ui MacSimulator.init (inputs ++ [(height, width, key)]) =
        (s', evs ++ evs', MacSimulator.Running))).
Proof.
  pose proof (draw_ui_from_init inputs) as H.
  destruct (MacSimulator.draw_ui MacSimulator.init inputs) as [[s evs] e] eqn:Erun.
  destruct H as (He & Hc & Hl).
  split; [exact He|]. split; [exact Hc|]. split; [exact Hl|].
  intros ->.
  pose proof (draw_ui_snoc inputs height width key _ _ _ Erun) as Hsnoc.
  destruct (iteration_complete height width key s Hc)
    as [Hb | (s' & evs' & Hi & Hc' & Hl')].
  - left. rewrite Hb in Hsnoc. auto.
  - right. exists s', evs'. rewrite Hi in Hsnoc. auto.
Qed.

Lemma X12_simulator_never_raises_witness :
  MacSimulator.draw_ui MacSimulator.init
    ([(24, 80, MacSimulator.ord "2"%char); (10, 80, MacSimulator.ord "k"%char)]
     ++ [(24, 80, MacSimulator.ord "3"%char)]) =
  (MacSimulator.init, [encoder_change 1 1 "right"] ++ [encoder_button_press 1],
   MacSimulator.Running).
Proof.
  pose proof (X12_simulator_never_raises
                [(24, 80, MacSimulator.ord "2"%char); (10, 80, MacSimulator.ord "k"%char)]
                24 80 (MacSimulator.ord "3"%char)) as H.
  cbn in H. destruct H as (_ & _ & _ & H).
  destruct (H eq_refl) as [[Hb _] | (s' & evs' & Hi & _ & _ & Hrun)].
  - discriminate Hb.
  - inversion Hi; subst. exact Hrun.
Defined.
